(** * guess_lexer: a verification development for the language and framework
      detection engine of [guess_lexer.py]

    The engine ([GuessLexer]) scores a source text against per-language and
    per-framework rule tables and reports a [DetectionResult].  This file
    embeds the engine in Rocq and proves properties of [analyze_code],
    [_score_language], [_detect_framework] and [_get_extension_hint].

    Modelling choices.
    - Python [float] is IEEE 754 binary64; it is modelled by [spec_float]
      with precision 53 and maximal exponent 1024, whose operations round
      to nearest even exactly as the hardware does.  Decimal literals of the
      source ([0.6], [1.5], ...) are the correctly rounded doubles.
    - Python [dict] keeps insertion order, and [max] over its keys depends
      on that order: dictionaries are association lists.
    - [re] and the Unicode aware [str] methods belong to the Python runtime,
      not to the repository: the engine is written over an interface
      ([PyRuntime]) and every general theorem holds for every runtime.  A
      reference runtime (a backtracking matcher for the regex syntax that
      the rule tables use, ASCII case folding) instantiates it wherever a
      statement is evaluated on a concrete text. *)

From Stdlib Require Import ZArith Lia Bool List Arith PeanoNat.
From Stdlib Require Import Ascii String DecimalString.
From Stdlib Require Import SpecFloat.
Import ListNotations.

(* ================================================================== *)
(** * Binary64 arithmetic *)
(* ================================================================== *)

Module F64.

Local Open Scope Z_scope.

Definition prec : Z := 53.
Definition emax : Z := 1024.

(** A Python [float]. *)
Definition float : Type := spec_float.

Definition add : float -> float -> float := SFadd prec emax.
Definition sub : float -> float -> float := SFsub prec emax.
Definition mul : float -> float -> float := SFmul prec emax.
Definition div : float -> float -> float := SFdiv prec emax.

(** [ltb a b] is Python's [a < b]; [leb a b] is [a <= b]. *)
Definition ltb : float -> float -> bool := SFltb.
Definition leb : float -> float -> bool := SFleb.

(** Conversion of a Python [int] to [float] (round to nearest even). *)
Definition of_Z (z : Z) : float := binary_normalize prec emax z 0 false.
Definition of_nat (n : nat) : float := of_Z (Z.of_nat n).

(** The decimal literal [a/b], correctly rounded. *)
Definition decimal (a b : Z) : float := div (of_Z a) (of_Z b).

Definition zero : float := S754_zero false.
Definition one : float := S754_finite false 4503599627370496 (-52).
Definition c0_3 : float := S754_finite false 5404319552844595 (-54).
Definition c0_4 : float := S754_finite false 7205759403792794 (-54).
Definition c0_6 : float := S754_finite false 5404319552844595 (-53).
Definition c0_7 : float := S754_finite false 6305039478318694 (-53).
Definition c1_2 : float := S754_finite false 5404319552844595 (-52).
Definition c1_3 : float := S754_finite false 5854679515581645 (-52).
Definition c1_5 : float := S754_finite false 6755399441055744 (-52).
Definition c5_0 : float := S754_finite false 5629499534213120 (-50).

(** Python's two-argument [min(a, b)] and [max(a, b)]: the first argument
    is kept unless the second compares strictly below (above) it. *)
Definition pymin (a b : float) : float := if ltb b a then b else a.
Definition pymax (a b : float) : float := if ltb a b then b else a.

(** ** Well-formed non-negative and positive values *)

(** [nonneg x]: [x] is a zero, [+inf], or a positive finite number whose
    exponent is at least the minimal exponent [-1074]. *)
Definition nonneg (x : float) : Prop :=
  match x with
  | S754_zero _ => True
  | S754_infinity s => s = false
  | S754_nan => False
  | S754_finite s _ e => s = false /\ -1074 <= e
  end.

(** [above t x]: [x] is [+inf] or a positive finite number [m * 2^e] with
    [-1074 <= e] and more than [t - e] binary digits in [m], hence
    [2^t <= x]. *)
Definition above (t : Z) (x : float) : Prop :=
  match x with
  | S754_infinity s => s = false
  | S754_finite s m e => s = false /\ -1074 <= e /\ t < e + Zpos (digits2_pos m)
  | _ => False
  end.

(** [signed s x]: [x] is not a NaN, carries the sign [s], and its exponent
    (when finite) is at least [-1074]; what rounding guarantees. *)
Definition signed (s : bool) (x : float) : Prop :=
  match x with
  | S754_zero s' => s' = s
  | S754_infinity s' => s' = s
  | S754_nan => False
  | S754_finite s' _ e => s' = s /\ -1074 <= e
  end.

(** [canonical x]: a finite [x] has the exponent its magnitude calls for
    (53 digits, or fewer at the minimal exponent); every value the
    operations return is canonical, and on canonical values the
    comparisons agree with the order of the numbers. *)
Definition canonical (x : float) : Prop :=
  match x with
  | S754_finite _ m e => fexp prec emax (Zpos (digits2_pos m) + e) = e /\ e <= 971
  | _ => True
  end.

(** The integer nearest to [x / G], ties to even ([0 <= x], [0 < G]). *)
Definition rne (x G : Z) : Z :=
  if (G <? 2 * (x mod G)) || ((2 * (x mod G) =? G) && Z.odd (x / G))
  then x / G + 1 else x / G.

(** Strictly positive values, as the engine meets them. *)
Definition is_pos (x : float) : Prop := above (-1074) x.

(** What rounding returns for a non-zero mantissa: the finite value, or
    the infinity when the exponent is out of range. *)
Definition pack (s : bool) (m : positive) (e : Z) : float :=
  if e <=? emax - prec then S754_finite s m e else S754_infinity s.

(** The value [m * 2^e] of a mantissa and exponent, scaled by [2^(-E0)]
    so as to be an integer ([E0 <= e]). *)
Definition scaled (m : positive) (e E0 : Z) : Z := Zpos m * 2 ^ (e - E0).

(** The state of the shift register of [shr] after [k] steps from an
    exact mantissa [M]: the quotient by [2^k], and the position of the
    remainder relative to one half. *)
Definition shifted (M : Z) (k : nat) (mrs : shr_record) : Prop :=
  shr_m mrs = M / 2 ^ Z.of_nat k /\
  ((shr_r mrs = false /\ shr_s mrs = false /\ M mod 2 ^ Z.of_nat k = 0) \/
   (shr_r mrs = false /\ shr_s mrs = true /\
    0 < 2 * (M mod 2 ^ Z.of_nat k) < 2 ^ Z.of_nat k) \/
   (shr_r mrs = true /\ shr_s mrs = false /\ 2 * (M mod 2 ^ Z.of_nat k) = 2 ^ Z.of_nat k) \/
   (shr_r mrs = true /\ shr_s mrs = true /\ 2 ^ Z.of_nat k < 2 * (M mod 2 ^ Z.of_nat k))).


End F64.

(* ================================================================== *)
(** * Python values: exceptions, ordered dictionaries, strings *)
(* ================================================================== *)

(** The only exception the engine itself can raise: [re.error], when a
    pattern of a rule table does not compile. *)
Inductive exn : Type :=
| ReError (pattern : string).

(** A computation that returns a value or raises. *)
Definition result (A : Type) : Type := (exn + A)%type.

Definition ret {A : Type} (a : A) : result A := inr a.
Definition raise {A : Type} (e : exn) : result A := inl e.
Definition bind {A B : Type} (m : result A) (k : A -> result B) : result B :=
  match m with
  | inl e => inl e
  | inr a => k a
  end.

Declare Scope py_scope.
Delimit Scope py_scope with py.
Notation "x <- m ;; k" := (bind m (fun x => k))
  (at level 61, m at next level, right associativity) : py_scope.
Notation "' pat <- m ;; k" := (bind m (fun x => match x with pat => k end))
  (at level 61, pat pattern, m at next level, right associativity) : py_scope.

(** A [dict] with [str] keys: an association list in insertion order,
    with at most one entry per key. *)
Definition dict (V : Type) : Type := list (string * V).

Fixpoint dict_get {V : Type} (k : string) (d : dict V) : option V :=
  match d with
  | [] => None
  | (k', v) :: d' => if String.eqb k k' then Some v else dict_get k d'
  end.

(** [k in d]. *)
Definition dict_mem {V : Type} (k : string) (d : dict V) : bool :=
  match dict_get k d with
  | Some _ => true
  | None => false
  end.

(** [d[k] = v]: an existing key keeps its place, a new one goes last. *)
Fixpoint dict_set {V : Type} (k : string) (v : V) (d : dict V) : dict V :=
  match d with
  | [] => [(k, v)]
  | (k', v') :: d' =>
      if String.eqb k k' then (k', v) :: d' else (k', v') :: dict_set k v d'
  end.

Definition dict_keys {V : Type} (d : dict V) : list string := map fst d.

(** [d[k]] on a [defaultdict(list)], and on a plain dictionary of floats
    at a key that is known to be present. *)
Definition dict_get_list {A : Type} (k : string) (d : dict (list A)) : list A :=
  match dict_get k d with
  | Some l => l
  | None => []
  end.

Definition dict_get_float (k : string) (d : dict F64.float) : F64.float :=
  match dict_get k d with
  | Some x => x
  | None => F64.zero
  end.

(** [max(keys, key=f)]: the first key whose [f] is not strictly exceeded
    by a later one.  [cur] is the running maximum. *)
Fixpoint max_from (f : string -> F64.float) (cur : string) (rest : list string) : string :=
  match rest with
  | [] => cur
  | k :: rest' => if F64.ltb (f cur) (f k) then max_from f k rest' else max_from f cur rest'
  end.

Definition py_max (f : string -> F64.float) (keys : list string) : option string :=
  match keys with
  | [] => None
  | k :: rest => Some (max_from f k rest)
  end.

(** [needle in hay] for strings. *)
Fixpoint str_contains (needle hay : string) : bool :=
  String.prefix needle hay ||
  match hay with
  | EmptyString => false
  | String _ hay' => str_contains needle hay'
  end.

(** Truth value of a string: non-empty. *)
Definition str_truthy (s : string) : bool :=
  match s with
  | EmptyString => false
  | String _ _ => true
  end.

(** [x in l] for a list of strings. *)
Definition list_mem (x : string) (l : list string) : bool := existsb (String.eqb x) l.

(** [str(n)] for a non-negative [int]. *)
Definition str_of_nat (n : nat) : string := NilZero.string_of_uint (Nat.to_uint n).

(** ** [os.path.splitext] (POSIX flavour) *)

(** [s.rfind(c)]: the index of the last occurrence of [c], or [-1]. *)
Fixpoint rfind_from (c : ascii) (s : string) (i : Z) (last : Z) : Z :=
  match s with
  | EmptyString => last
  | String a s' => rfind_from c s' (i + 1)%Z (if Ascii.eqb a c then i else last)
  end.

Definition rfind (c : ascii) (s : string) : Z := rfind_from c s 0%Z (-1)%Z.

(** Is there a character other than [c] among the [n] characters of [s]
    starting at index [i]?  (The loop of [genericpath._splitext] that skips
    leading dots.) *)
Definition other_than (c : ascii) (s : string) (i n : nat) : bool :=
  existsb (fun a => negb (Ascii.eqb a c)) (list_ascii_of_string (String.substring i n s)).

Definition splitext (p : string) : string * string :=
  let sepIndex := rfind "/"%char p in
  let dotIndex := rfind "."%char p in
  if (sepIndex <? dotIndex)%Z then
    let filenameIndex := Z.to_nat (sepIndex + 1) in
    let dot := Z.to_nat dotIndex in
    if other_than "."%char p filenameIndex (dot - filenameIndex) then
      (String.substring 0 dot p, String.substring dot (String.length p - dot) p)
    else (p, EmptyString)
  else (p, EmptyString).

(* ================================================================== *)
(** * The Python runtime the engine calls into *)
(* ================================================================== *)

(** What [guess_lexer.py] uses of [re] and of [str].  All patterns are
    compiled with [re.MULTILINE | re.IGNORECASE]. *)
Class PyRuntime : Type := {
  (** a compiled pattern object *)
  compiled : Type;
  (** [re.compile(pattern, re.MULTILINE | re.IGNORECASE)]; [None] when it
      raises [re.error] *)
  re_compile : string -> option compiled;
  (** [len(p.findall(text))]: the number of non-overlapping matches *)
  re_findall_len : compiled -> string -> nat;
  (** [s.lower()] *)
  str_lower : string -> string;
  (** [s.strip()] *)
  str_strip : string -> string
}.

(* ================================================================== *)
(** * Data model *)
(* ================================================================== *)

(** One entry of [language_patterns]. *)
Record LanguageRules : Type := {
  keywords : list string;
  patterns : list string;
  anti_patterns : list string;
  weight : F64.float
}.

(** One entry of [framework_patterns]. *)
Record FrameworkRules : Type := {
  fw_language : string;
  fw_patterns : list string;
  fw_keywords : list string;
  fw_weight : F64.float
}.

(** The attributes of a [GuessLexer] instance. *)
Record GuessLexer : Type := {
  language_patterns : dict LanguageRules;
  framework_patterns : dict FrameworkRules;
  file_extensions : dict (list string)
}.

Record DetectionResult : Type := {
  language : string;
  confidence : F64.float;
  framework : option string;
  evidence : list string
}.

(** [GuessLexer.__init__], given what the three [_initialize_*] methods
    return: the tables are stored as they are; nothing is compiled and
    nothing can fail. *)
Definition __init__ (lp : dict LanguageRules) (fp : dict FrameworkRules)
  (fe : dict (list string)) : result GuessLexer :=
  ret {| language_patterns := lp; framework_patterns := fp; file_extensions := fe |}.

(* ================================================================== *)
(** * The engine *)
(* ================================================================== *)

Section Engine.

Context {rt : PyRuntime}.

Local Open Scope string_scope.
Local Open Scope py_scope.

(** [len(re.findall(pattern, code, re.MULTILINE | re.IGNORECASE))]. *)
Definition findall_len (pattern code : string) : result nat :=
  match re_compile pattern with
  | None => raise (ReError pattern)
  | Some p => ret (re_findall_len p code)
  end.

(** [keyword.lower() in code.lower()]. *)
Definition keyword_in (keyword code : string) : bool :=
  str_contains (str_lower keyword) (str_lower code).

(** A loop over regular expressions: [count] accumulates the number of
    matches, [ev] the evidence; [fmt] builds the evidence line. *)
Fixpoint scan_patterns (fmt : string -> nat -> string) (ps : list string) (code : string)
  (count : nat) (ev : list string) : result (nat * list string) :=
  match ps with
  | [] => ret (count, ev)
  | pattern :: ps' =>
      n <- findall_len pattern code ;;
      if (0 <? n)%nat
      then scan_patterns fmt ps' code (count + n)%nat (ev ++ [fmt pattern n])%list
      else scan_patterns fmt ps' code count ev
  end.

(** A loop over keywords: each keyword found adds one. *)
Fixpoint scan_keywords (fmt : string -> string) (ks : list string) (code : string)
  (count : nat) (ev : list string) : nat * list string :=
  match ks with
  | [] => (count, ev)
  | keyword :: ks' =>
      if keyword_in keyword code
      then scan_keywords fmt ks' code (count + 1)%nat (ev ++ [fmt keyword])%list
      else scan_keywords fmt ks' code count ev
  end.

Definition fmt_pattern (pattern : string) (n : nat) : string :=
  "Pattern match: " ++ pattern ++ " (" ++ str_of_nat n ++ " times)".
Definition fmt_keyword (keyword : string) : string :=
  "Keyword found: " ++ keyword.
Definition fmt_anti (pattern : string) (n : nat) : string :=
  "Anti-pattern found: " ++ pattern ++ " (-" ++ str_of_nat n ++ ")".
Definition fmt_fw_pattern (pattern : string) (n : nat) : string :=
  "Framework pattern: " ++ pattern.
Definition fmt_fw_keyword (keyword : string) : string :=
  "Framework keyword: " ++ keyword.

(** The score formula of [_score_language]:
    [max(0, (pattern_matches * 0.6 + keyword_matches * 0.4) * weight
            - anti_pattern_matches * 0.3)]. *)
Definition language_score (pattern_matches keyword_matches anti_pattern_matches : nat)
  (w : F64.float) : F64.float :=
  let base_score :=
    F64.mul (F64.add (F64.mul (F64.of_nat pattern_matches) F64.c0_6)
                     (F64.mul (F64.of_nat keyword_matches) F64.c0_4)) w in
  let penalty := F64.mul (F64.of_nat anti_pattern_matches) F64.c0_3 in
  F64.pymax F64.zero (F64.sub base_score penalty).

(** [GuessLexer._score_language(code, language, patterns)]. *)
Definition _score_language (code : string) (lang : string) (rules : LanguageRules)
  : result (F64.float * list string) :=
  '(pattern_matches, ev) <- scan_patterns fmt_pattern (patterns rules) code 0 [] ;;
  let '(keyword_matches, ev) := scan_keywords fmt_keyword (keywords rules) code 0 ev in
  '(anti_pattern_matches, ev) <- scan_patterns fmt_anti (anti_patterns rules) code 0 ev ;;
  ret (language_score pattern_matches keyword_matches anti_pattern_matches (weight rules), ev).

(** [GuessLexer._get_extension_hint(filename)]. *)
Fixpoint first_with_ext (ext : string) (table : dict (list string)) : option string :=
  match table with
  | [] => None
  | (lang, extensions) :: table' =>
      if list_mem ext extensions then Some lang else first_with_ext ext table'
  end.

Definition _get_extension_hint (self : GuessLexer) (filename : string) : option string :=
  let '(_, ext) := splitext (str_lower filename) in
  first_with_ext ext (file_extensions self).

(** The score formula of [_detect_framework]. *)
Definition framework_score (pattern_matches keyword_matches : nat) (w : F64.float)
  : F64.float :=
  F64.mul (F64.add (F64.mul (F64.of_nat pattern_matches) F64.c0_7)
                   (F64.mul (F64.of_nat keyword_matches) F64.c0_3)) w.

(** The loop of [_detect_framework] over [framework_patterns.items()]. *)
Fixpoint score_frameworks (code : string) (lang : string) (table : dict FrameworkRules)
  (framework_scores : dict F64.float) (framework_evidence : dict (list string))
  : result (dict F64.float * dict (list string)) :=
  match table with
  | [] => ret (framework_scores, framework_evidence)
  | (fw, rules) :: table' =>
      if negb (String.eqb (fw_language rules) lang)
      then score_frameworks code lang table' framework_scores framework_evidence
      else
        '(pattern_matches, ev) <- scan_patterns fmt_fw_pattern (fw_patterns rules) code 0 [] ;;
        let '(keyword_matches, ev) :=
          scan_keywords fmt_fw_keyword (fw_keywords rules) code 0 ev in
        if (0 <? pattern_matches)%nat || (0 <? keyword_matches)%nat
        then
          let score := framework_score pattern_matches keyword_matches (fw_weight rules) in
          score_frameworks code lang table'
            (dict_set fw score framework_scores) (dict_set fw ev framework_evidence)
        else score_frameworks code lang table' framework_scores framework_evidence
  end.

(** [GuessLexer._detect_framework(code, language)]. *)
Definition _detect_framework (self : GuessLexer) (code : string) (lang : string)
  : result (option (string * F64.float * list string)) :=
  '(framework_scores, framework_evidence) <-
     score_frameworks code lang (framework_patterns self) [] [] ;;
  match py_max (fun x => dict_get_float x framework_scores) (dict_keys framework_scores) with
  | None => ret None
  | Some best_framework =>
      let conf :=
        F64.pymin (F64.div (dict_get_float best_framework framework_scores) F64.c5_0)
                  F64.one in
      ret (Some (best_framework, conf, dict_get_list best_framework framework_evidence))
  end.

(** The loop of [analyze_code] over [language_patterns.items()]. *)
Fixpoint score_languages (code : string) (table : dict LanguageRules)
  (language_scores : dict F64.float) (language_evidence : dict (list string))
  : result (dict F64.float * dict (list string)) :=
  match table with
  | [] => ret (language_scores, language_evidence)
  | (lang, rules) :: table' =>
      '(score, ev) <- _score_language code lang rules ;;
      if F64.ltb F64.zero score
      then score_languages code table'
             (dict_set lang score language_scores) (dict_set lang ev language_evidence)
      else score_languages code table' language_scores language_evidence
  end.

(** The extension hint, [None] without a (non-empty) file name. *)
Definition extension_hint_of (self : GuessLexer) (filename : option string) : option string :=
  match filename with
  | Some f => if str_truthy f then _get_extension_hint self f else None
  | None => None
  end.

Definition fmt_hint (filename : option string) : string :=
  "File extension hint: " ++
  match filename with
  | Some f => f
  | None => "None"
  end.

(** "Apply extension hint bonus". *)
Definition apply_extension_hint (extension_hint : option string) (filename : option string)
  (language_scores : dict F64.float) (language_evidence : dict (list string))
  : dict F64.float * dict (list string) :=
  match extension_hint with
  | Some hint =>
      if str_truthy hint && dict_mem hint language_scores
      then (dict_set hint (F64.mul (dict_get_float hint language_scores) F64.c1_5)
              language_scores,
            dict_set hint (dict_get_list hint language_evidence ++ [fmt_hint filename])%list
              language_evidence)
      else (language_scores, language_evidence)
  | None => (language_scores, language_evidence)
  end.

(** The maps [language_scores] and [language_evidence] as they stand when
    the best language is chosen. *)
Definition language_stage (self : GuessLexer) (code : string) (filename : option string)
  : result (dict F64.float * dict (list string)) :=
  let extension_hint := extension_hint_of self filename in
  '(language_scores, language_evidence) <-
     score_languages code (language_patterns self) [] [] ;;
  ret (apply_extension_hint extension_hint filename language_scores language_evidence).

(** [GuessLexer.analyze_code(code, filename)]. *)
Definition analyze_code (self : GuessLexer) (code : string) (filename : option string)
  : result DetectionResult :=
  if negb (str_truthy (str_strip code))
  then ret {| language := "unknown"; confidence := F64.zero; framework := None;
              evidence := ["Empty code"] |}
  else
    '(language_scores, language_evidence) <- language_stage self code filename ;;
    match py_max (fun x => dict_get_float x language_scores) (dict_keys language_scores) with
    | None => ret {| language := "unknown"; confidence := F64.zero; framework := None;
                     evidence := ["No patterns matched"] |}
    | Some best_language =>
        let conf := F64.pymin (dict_get_float best_language language_scores) F64.one in
        framework_result <- _detect_framework self code best_language ;;
        match framework_result with
        | Some (fw, framework_confidence, framework_evidence) =>
            ret {| language := best_language;
                   confidence :=
                     F64.pymin (F64.add conf (F64.mul framework_confidence F64.c0_3)) F64.one;
                   framework := Some fw;
                   evidence :=
                     (dict_get_list best_language language_evidence
                        ++ framework_evidence)%list |}
        | None =>
            ret {| language := best_language; confidence := conf; framework := None;
                   evidence := (dict_get_list best_language language_evidence ++ [])%list |}
        end
    end.

End Engine.

(* ================================================================== *)
(** * The rule tables *)
(* ================================================================== *)

Section Tables.

Local Open Scope string_scope.

(** The double quote character, as a string. *)
Definition dq : string := String "034"%char EmptyString.

(** [GuessLexer._initialize_patterns]. *)
Definition _initialize_patterns : dict LanguageRules :=
  [("python",
   {| keywords :=
        ["def"; "class"; "import"; "from"; "if __name__"; "elif"; "lambda"; "yield"];
      patterns :=
        ["^\s*def\s+\w+\s*\("; "^\s*class\s+\w+"; "^\s*import\s+\w+";
         "^\s*from\s+\w+\s+import";
         ("if\s+__name__\s*==\s*[\'" ++ dq ++ "]__main__[\'" ++ dq ++ "]");
         "^\s*#.*python"; "print\s*\("; "^\s*@\w+"];
      anti_patterns :=
        ["console\.log"; "function\s*\("; "var\s+\w+"];
      weight := F64.one |});
  ("javascript",
   {| keywords :=
        ["function"; "var"; "let"; "const"; "console.log"; "require"; "module.exports"];
      patterns :=
        ["function\s+\w+\s*\("; "console\.log\s*\("; "var\s+\w+\s*="; "let\s+\w+\s*=";
         "const\s+\w+\s*="; ("require\s*\([\'" ++ dq ++ "]"); "module\.exports"; "=>";
         "\.then\s*\("; "async\s+function"];
      anti_patterns :=
        ["def\s+\w+"; "class\s+\w+.*:"; "import\s+\w+"];
      weight := F64.one |});
  ("typescript",
   {| keywords :=
        ["interface"; "type"; "enum"; "namespace"; "declare"];
      patterns :=
        ["interface\s+\w+"; "type\s+\w+\s*="; "enum\s+\w+";
         ":\s*\w+(\[\])?(\s*\|\s*\w+)*\s*[=;]"; "<\w+>"; "declare\s+";
         "namespace\s+\w+"];
      anti_patterns :=
        [];
      weight := F64.c1_2 |});
  ("java",
   {| keywords :=
        ["public class"; "private"; "protected"; "static"; "void"; "import java"];
      patterns :=
        ["public\s+class\s+\w+"; "private\s+\w+\s+\w+"; "protected\s+\w+\s+\w+";
         "public\s+static\s+void\s+main"; "import\s+java\."; "@\w+\s*\n\s*public";
         "System\.out\.println"];
      anti_patterns :=
        ["def\s+\w+"; "function\s+\w+"];
      weight := F64.one |});
  ("csharp",
   {| keywords :=
        ["using"; "namespace"; "class"; "static void Main"; "public"; "private"];
      patterns :=
        ["using\s+\w+;"; "namespace\s+\w+"; "public\s+class\s+\w+";
         "static\s+void\s+Main"; "Console\.WriteLine"; "\[assembly:"; "#region"];
      anti_patterns :=
        ["import\s+"; "def\s+\w+"];
      weight := F64.one |});
  ("cpp",
   {| keywords :=
        ["#include"; "using namespace"; "int main"; "std::"; "class"];
      patterns :=
        ["#include\s*<\w+>"; "using\s+namespace\s+std"; "int\s+main\s*\("; "std::\w+";
         "cout\s*<<"; "cin\s*>>"; "class\s+\w+\s*{"];
      anti_patterns :=
        ["def\s+\w+"; "import\s+"];
      weight := F64.one |});
  ("c",
   {| keywords :=
        ["#include"; "int main"; "printf"; "scanf"; "malloc"];
      patterns :=
        ["#include\s*<\w+\.h>"; "int\s+main\s*\("; "printf\s*\("; "scanf\s*\(";
         "malloc\s*\("; "free\s*\("];
      anti_patterns :=
        ["class\s+\w+"; "using\s+namespace"; "def\s+\w+"];
      weight := F64.one |});
  ("go",
   {| keywords :=
        ["package"; "import"; "func"; "var"; "const"; "type"];
      patterns :=
        ["package\s+\w+"; "import\s*\("; "func\s+\w+\s*\("; "func\s+main\s*\(\s*\)";
         "fmt\.Print"; ":="; "go\s+\w+\("];
      anti_patterns :=
        ["def\s+\w+"; "class\s+\w+"];
      weight := F64.one |});
  ("rust",
   {| keywords :=
        ["fn"; "let"; "mut"; "impl"; "trait"; "use"];
      patterns :=
        ["fn\s+\w+\s*\("; "let\s+\w+\s*="; "let\s+mut\s+\w+"; "impl\s+\w+";
         "trait\s+\w+"; "use\s+\w+::"; "println!\s*\("; "#\[derive\("];
      anti_patterns :=
        ["def\s+\w+"; "function\s+\w+"; ("import\s+[\'" ++ dq ++ "]package:");
         "class\s+\w+\s+extends"; "StatelessWidget"; "StatefulWidget"];
      weight := F64.one |});
  ("ruby",
   {| keywords :=
        ["def"; "class"; "end"; "require"; "puts"; "attr_accessor"];
      patterns :=
        ["def\s+\w+"; "class\s+\w+"; "end\s*$"; ("require\s+[\'" ++ dq ++ "]");
         "puts\s+"; "attr_accessor\s+"; "@\w+"; "=>\s*"];
      anti_patterns :=
        ["def\s+\w+\s*\(.*\):"; "import\s+"];
      weight := F64.one |});
  ("php",
   {| keywords :=
        ["<?php"; "function"; "class"; "echo"; "$"; "require_once"];
      patterns :=
        ["<\?php"; "function\s+\w+\s*\("; "class\s+\w+"; "echo\s+"; "\$\w+";
         "require_once\s+"; "->\w+"; "public\s+function"];
      anti_patterns :=
        ["def\s+\w+"; "import\s+"];
      weight := F64.one |});
  ("swift",
   {| keywords :=
        ["func"; "var"; "let"; "import"; "class"; "struct"];
      patterns :=
        ["func\s+\w+\s*\("; "var\s+\w+\s*:"; "let\s+\w+\s*="; "import\s+\w+";
         "class\s+\w+\s*:"; "struct\s+\w+"; "print\s*\("; "@\w+\s*\n"];
      anti_patterns :=
        ["def\s+\w+"; "function\s+\w+"; ("import\s+[\'" ++ dq ++ "]package:");
         "StatelessWidget"; "StatefulWidget"];
      weight := F64.one |});
  ("kotlin",
   {| keywords :=
        ["fun"; "val"; "var"; "class"; "object"; "package"];
      patterns :=
        ["fun\s+\w+\s*\("; "val\s+\w+\s*="; "var\s+\w+\s*="; "class\s+\w+";
         "object\s+\w+"; "package\s+\w+"; "println\s*\("];
      anti_patterns :=
        ["def\s+\w+"; "function\s+\w+"; ("import\s+[\'" ++ dq ++ "]package:");
         "StatelessWidget"; "StatefulWidget"];
      weight := F64.one |});
  ("sql",
   {| keywords :=
        ["SELECT"; "FROM"; "WHERE"; "INSERT"; "UPDATE"; "DELETE"; "CREATE"];
      patterns :=
        ["SELECT\s+.*FROM"; "INSERT\s+INTO"; "UPDATE\s+\w+\s+SET"; "DELETE\s+FROM";
         "CREATE\s+TABLE"; "ALTER\s+TABLE"; "DROP\s+TABLE"; "WHERE\s+\w+\s*="];
      anti_patterns :=
        ["def\s+\w+"; "function\s+\w+"; "class\s+\w+"];
      weight := F64.one |});
  ("html",
   {| keywords :=
        ["<html>"; "<head>"; "<body>"; "<div>"; "<script>"];
      patterns :=
        ["<!DOCTYPE\s+html>"; "<html.*>"; "<head>"; "<body.*>"; "<div.*>";
         "<script.*>"; "<link\s+.*rel="; "<meta\s+.*>"];
      anti_patterns :=
        ["def\s+\w+"; "function\s+\w+(?!\s*\()"];
      weight := F64.one |});
  ("css",
   {| keywords :=
        ["{"; "}"; ":"; ";"; "@media"; "@import"];
      patterns :=
        ["\w+\s*\{[^}]*\}"; "@media\s*\("; "@import\s+"; "#\w+\s*\{"; "\.\w+\s*\{";
         ":\w+\s*\{"; "\w+:\s*\w+;"];
      anti_patterns :=
        ["def\s+\w+"; "function\s+\w+"; "class\s+\w+(?!\s*\{)"];
      weight := F64.one |});
  ("dart",
   {| keywords :=
        ["void"; "main"; "class"; "import"; "library"; "part"; "abstract"; "extends";
         "implements"];
      patterns :=
        ["void\s+main\s*\(\s*\)"; ("import\s+[\'" ++ dq ++ "]package:");
         ("import\s+[\'" ++ dq ++ "]dart:"); "class\s+\w+\s+extends\s+\w+";
         "class\s+\w+\s+implements\s+\w+"; "abstract\s+class\s+\w+"; "library\s+\w+;";
         "part\s+of\s+\w+;";
         ("part\s+[\'" ++ dq ++ "][^\'\" ++ dq ++ "]+\.dart[\'" ++ dq ++ "];");
         "@override"; "final\s+\w+"; "const\s+\w+"; "var\s+\w+\s*="; "\w+\?\s+\w+";
         "\w+<\w+>"; "List<\w+>"; "Map<\w+,\s*\w+>"; "Set<\w+>"; "Future<\w+>";
         "Stream<\w+>"; "async\s*\{"; "await\s+\w+"; "=>\s*\w+"; "print\s*\("];
      anti_patterns :=
        ["def\s+\w+"; "function\s+\w+"; "console\.log"; "System\.out\.println"];
      weight := F64.one |})].

(** [GuessLexer._initialize_framework_patterns]. *)
Definition _initialize_framework_patterns : dict FrameworkRules :=
  [("react",
   {| fw_language := "javascript";
      fw_patterns :=
        [("import\s+.*from\s+[\'" ++ dq ++ "]react[\'" ++ dq ++ "]");
         "React\.Component"; "useState\s*\("; "useEffect\s*\("; "jsx"; "className=";
         "<\w+.*>.*</\w+>"; "return\s*\("];
      fw_keywords :=
        ["React"; "useState"; "useEffect"; "Component"; "jsx"];
      fw_weight := F64.c1_2 |});
  ("vue",
   {| fw_language := "javascript";
      fw_patterns :=
        [("import\s+.*from\s+[\'" ++ dq ++ "]vue[\'" ++ dq ++ "]"); "Vue\.component";
         "<template>"; "<script>"; "v-if="; "v-for="; "@click="];
      fw_keywords :=
        ["Vue"; "template"; "v-if"; "v-for"];
      fw_weight := F64.c1_2 |});
  ("angular",
   {| fw_language := "typescript";
      fw_patterns :=
        [("import\s+.*from\s+[\'" ++ dq ++ "]@angular"); "@Component\s*\(";
         "@Injectable\s*\("; "@NgModule\s*\("; ("selector:\s*[\'" ++ dq ++ "]");
         ("templateUrl:\s*[\'" ++ dq ++ "]")];
      fw_keywords :=
        ["@Component"; "@Injectable"; "@NgModule"; "Angular"];
      fw_weight := F64.c1_2 |});
  ("django",
   {| fw_language := "python";
      fw_patterns :=
        ["from\s+django"; "import\s+django"; "models\.Model"; "HttpResponse";
         "render\s*\("; "urlpatterns\s*="; "@login_required"];
      fw_keywords :=
        ["django"; "models"; "HttpResponse"; "urlpatterns"];
      fw_weight := F64.c1_2 |});
  ("flask",
   {| fw_language := "python";
      fw_patterns :=
        ["from\s+flask"; "import\s+flask"; "Flask\s*\("; "@app\.route";
         "render_template\s*\("; "request\.form"];
      fw_keywords :=
        ["Flask"; "@app.route"; "render_template"];
      fw_weight := F64.c1_2 |});
  ("fastapi",
   {| fw_language := "python";
      fw_patterns :=
        ["from\s+fastapi"; "import\s+fastapi"; "FastAPI\s*\(";
         "@app\.(get|post|put|delete)"; "Pydantic"; "BaseModel"];
      fw_keywords :=
        ["FastAPI"; "Pydantic"; "BaseModel"];
      fw_weight := F64.c1_2 |});
  ("express",
   {| fw_language := "javascript";
      fw_patterns :=
        [("require\s*\([\'" ++ dq ++ "]express[\'" ++ dq ++ "]");
         ("import\s+.*from\s+[\'" ++ dq ++ "]express[\'" ++ dq ++ "]");
         "app\.get\s*\("; "app\.post\s*\("; "app\.listen\s*\("; "express\s*\(\s*\)"];
      fw_keywords :=
        ["express"; "app.get"; "app.post"; "app.listen"];
      fw_weight := F64.c1_2 |});
  ("spring",
   {| fw_language := "java";
      fw_patterns :=
        ["import\s+org\.springframework"; "@RestController"; "@Service"; "@Repository";
         "@Autowired"; "@RequestMapping"; "@GetMapping"];
      fw_keywords :=
        ["@RestController"; "@Service"; "@Autowired"; "springframework"];
      fw_weight := F64.c1_2 |});
  ("flutter",
   {| fw_language := "dart";
      fw_patterns :=
        [("import\s+[\'" ++ dq ++ "]package:flutter/");
         ("import\s+[\'" ++ dq ++ "]package:flutter/material\.dart[\'" ++ dq ++ "]");
         ("import\s+[\'" ++ dq ++ "]package:flutter/cupertino\.dart[\'" ++ dq ++ "]");
         ("import\s+[\'" ++ dq ++ "]package:flutter/widgets\.dart[\'" ++ dq ++ "]");
         "class\s+\w+\s+extends\s+StatelessWidget";
         "class\s+\w+\s+extends\s+StatefulWidget";
         "class\s+\w+\s+extends\s+State<\w+>"; "Widget\s+build\s*\(";
         "@override\s+Widget\s+build"; "MaterialApp\s*\("; "CupertinoApp\s*\(";
         "Scaffold\s*\("; "AppBar\s*\("; "Container\s*\("; "Column\s*\("; "Row\s*\(";
         "Text\s*\("; "RaisedButton\s*\("; "ElevatedButton\s*\("; "TextButton\s*\(";
         "OutlinedButton\s*\("; "FloatingActionButton\s*\("; "ListView\s*\(";
         "GridView\s*\("; "Stack\s*\("; "Positioned\s*\("; "Padding\s*\(";
         "Margin\s*\("; "SizedBox\s*\("; "Expanded\s*\("; "Flexible\s*\(";
         "Navigator\.\w+"; "setState\s*\("; "initState\s*\("; "dispose\s*\(";
         "didChangeDependencies\s*\("; "runApp\s*\("; "MaterialPageRoute\s*\(";
         "CupertinoPageRoute\s*\("; "Theme\.\w+"; "MediaQuery\.\w+";
         "ValueNotifier<\w+>"; "ValueListenableBuilder<\w+>"; "StreamBuilder<\w+>";
         "FutureBuilder<\w+>"; "AnimationController\s*\(";
         "SingleTickerProviderStateMixin"; "TickerProviderStateMixin";
         "GestureDetector\s*\("; "InkWell\s*\("; "onTap:\s*\("; "onPressed:\s*\(";
         "CrossAxisAlignment\.\w+"; "MainAxisAlignment\.\w+"; "TextAlign\.\w+";
         "FontWeight\.\w+"; "Colors\.\w+"; "Icons\.\w+"; "EdgeInsets\.\w+";
         "BorderRadius\.\w+"; "Decoration\s*\("; "BoxDecoration\s*\("];
      fw_keywords :=
        ["Flutter"; "StatelessWidget"; "StatefulWidget"; "Widget"; "build";
         "MaterialApp"; "CupertinoApp"; "Scaffold"; "AppBar"; "Container"; "Column";
         "Row"; "Text"; "ElevatedButton"; "FloatingActionButton"; "ListView";
         "GridView"; "Stack"; "Positioned"; "Navigator"; "setState"; "initState";
         "dispose"; "runApp"; "Theme"; "MediaQuery"; "StreamBuilder"; "FutureBuilder";
         "AnimationController"; "GestureDetector"; "CrossAxisAlignment";
         "MainAxisAlignment"; "Colors"; "Icons"];
      fw_weight := F64.c1_3 |})].

(** [GuessLexer._initialize_extensions]. *)
Definition _initialize_extensions : dict (list string) :=
  [("python", [".py"; ".pyw"; ".pyx"]);
   ("javascript", [".js"; ".mjs"; ".cjs"]);
   ("typescript", [".ts"; ".tsx"]);
   ("java", [".java"]);
   ("csharp", [".cs"]);
   ("cpp", [".cpp"; ".cxx"; ".cc"; ".c++"]);
   ("c", [".c"; ".h"]);
   ("go", [".go"]);
   ("rust", [".rs"]);
   ("ruby", [".rb"]);
   ("php", [".php"]);
   ("swift", [".swift"]);
   ("kotlin", [".kt"; ".kts"]);
   ("sql", [".sql"]);
   ("html", [".html"; ".htm"]);
   ("css", [".css"]);
   ("dart", [".dart"])].

End Tables.

(** A language table with one entry whose only pattern, an unclosed
    group, is not a regular expression. *)
Definition malformed_table : dict LanguageRules :=
  [("broken"%string,
    {| keywords := []; patterns := ["("%string]; anti_patterns := [];
       weight := F64.one |})].

(** A text on which TypeScript wins thanks to the Angular rules, while Go
    scores a little lower. *)
Definition angular_text : string :=
  "type selector: 'a' selector: 'b' selector: 'c' Angular".

(** A one-line Python text; Ruby also scores on it, lower. *)
Definition python_text : string := "def f(x): print(x)".

(** The Python rules of the shipped table. *)
Definition python_rules : LanguageRules :=
  {| keywords :=
       dict_get_list "python" (map (fun kv => (fst kv, keywords (snd kv))) _initialize_patterns);
     patterns :=
       dict_get_list "python" (map (fun kv => (fst kv, patterns (snd kv))) _initialize_patterns);
     anti_patterns :=
       dict_get_list "python"
         (map (fun kv => (fst kv, anti_patterns (snd kv))) _initialize_patterns);
     weight := F64.one |}.

(** The engine as [GuessLexer()] builds it. *)
Definition new_GuessLexer : result GuessLexer :=
  __init__ _initialize_patterns _initialize_framework_patterns _initialize_extensions.

Definition the_lexer : GuessLexer :=
  {| language_patterns := _initialize_patterns;
     framework_patterns := _initialize_framework_patterns;
     file_extensions := _initialize_extensions |}.

(* ================================================================== *)
(** * A reference runtime *)
(* ================================================================== *)

(** A model of the part of [re] and [str] that the rule tables exercise,
    exact on ASCII text: literals, escapes, [.], character sets, [^] and
    [$] in multi-line mode, groups, alternation, the greedy quantifiers
    [*], [+], [?] and lookahead, all under ASCII case folding; matching
    is by backtracking with Python's priorities (leftmost, then first
    alternative, then longest repetition).  Counted repetition, lazy
    quantifiers and back-references are not supported: such a pattern
    does not compile here.  No pattern of the tables uses them, and none
    matches the empty string. *)
Module Ref.

Local Open Scope N_scope.

Definition code (c : ascii) : N := N_of_ascii c.

Definition is_upper (c : ascii) : bool := (65 <=? code c) && (code c <=? 90).
Definition is_lower (c : ascii) : bool := (97 <=? code c) && (code c <=? 122).
Definition is_digit (c : ascii) : bool := (48 <=? code c) && (code c <=? 57).
Definition is_word (c : ascii) : bool :=
  is_upper c || is_lower c || is_digit c || (code c =? 95).
(** [str.isspace] on ASCII: tab to carriage return, the four separators
    28..31, and the space. *)
Definition is_space (c : ascii) : bool :=
  ((9 <=? code c) && (code c <=? 13)) || ((28 <=? code c) && (code c <=? 32)).
Definition is_newline (c : ascii) : bool := code c =? 10.

Definition lower_char (c : ascii) : ascii :=
  if is_upper c then ascii_of_N (code c + 32) else c.
Definition upper_char (c : ascii) : ascii :=
  if is_lower c then ascii_of_N (code c - 32) else c.

Fixpoint lower (s : string) : string :=
  match s with
  | EmptyString => EmptyString
  | String c s' => String (lower_char c) (lower s')
  end.

Fixpoint lstrip (s : string) : string :=
  match s with
  | EmptyString => EmptyString
  | String c s' => if is_space c then lstrip s' else s
  end.

Definition rev_string (s : string) : string :=
  string_of_list_ascii (rev (list_ascii_of_string s)).

Definition strip (s : string) : string := rev_string (lstrip (rev_string (lstrip s))).

(** ** Regular expressions *)

Inductive set_item : Type :=
| SChar (c : ascii)
| SRange (lo hi : ascii)
| SWord (neg : bool)
| SSpace (neg : bool)
| SDigit (neg : bool).

Inductive regex : Type :=
| RChar (c : ascii)
| RAny
| RSet (neg : bool) (items : list set_item)
| RBol
| REol
| REmpty
| RCat (a b : regex)
| RAlt (a b : regex)
| RStar (a : regex)
| RPlus (a : regex)
| ROpt (a : regex)
| RLook (neg : bool) (a : regex).

Definition item_has (it : set_item) (c : ascii) : bool :=
  match it with
  | SChar x => Ascii.eqb x c
  | SRange lo hi => (code lo <=? code c) && (code c <=? code hi)
  | SWord neg => xorb neg (is_word c)
  | SSpace neg => xorb neg (is_space c)
  | SDigit neg => xorb neg (is_digit c)
  end.

(** Membership in a set under [IGNORECASE]: the character or its other
    case belongs to an item. *)
Definition set_has (items : list set_item) (c : ascii) : bool :=
  existsb (fun it => item_has it c || item_has it (lower_char c) || item_has it (upper_char c))
    items.

(** *** The parser ([re.compile]) *)

Definition is_alnum (c : ascii) : bool := is_upper c || is_lower c || is_digit c.

(** The meaning of [\c], inside or outside a set. *)
Definition escape_item (c : ascii) : option set_item :=
  if Ascii.eqb c "w" then Some (SWord false)
  else if Ascii.eqb c "W" then Some (SWord true)
  else if Ascii.eqb c "s" then Some (SSpace false)
  else if Ascii.eqb c "S" then Some (SSpace true)
  else if Ascii.eqb c "d" then Some (SDigit false)
  else if Ascii.eqb c "D" then Some (SDigit true)
  else if Ascii.eqb c "n" then Some (SChar "010")
  else if Ascii.eqb c "t" then Some (SChar "009")
  else if Ascii.eqb c "r" then Some (SChar "013")
  else if is_alnum c then None
  else Some (SChar c).

(** The items of a set, up to the closing bracket.  [first] is true at
    the first item, where a closing bracket is a literal. *)
Fixpoint parse_set (fuel : nat) (first : bool) (s : list ascii) (acc : list set_item)
  : option (list set_item * list ascii) :=
  match fuel with
  | O => None
  | S fuel' =>
      match s with
      | [] => None
      | c :: s1 =>
          if Ascii.eqb c "]" && negb first then Some (rev acc, s1)
          else
            let item_rest :=
              if Ascii.eqb c "\" then
                match s1 with
                | [] => None
                | e :: s2 => option_map (fun it => (it, s2)) (escape_item e)
                end
              else Some (SChar c, s1) in
            match item_rest with
            | None => None
            | Some (SChar lo, "-"%char :: hi :: s3) =>
                if Ascii.eqb hi "]" then parse_set fuel' false ("-"%char :: hi :: s3) (SChar lo :: acc)
                else if Ascii.eqb hi "\" then None
                else if code hi <? code lo then None
                else parse_set fuel' false s3 (SRange lo hi :: acc)
            | Some (it, s2) => parse_set fuel' false s2 (it :: acc)
            end
      end
  end.

Definition is_quantifier (c : ascii) : bool :=
  Ascii.eqb c "*" || Ascii.eqb c "+" || Ascii.eqb c "?".

(** An optional quantifier after an atom.  A second quantifier in a row
    (lazy or possessive forms, or a multiple repeat) is not supported. *)
Definition parse_quantifier (a : regex) (s : list ascii) : option (regex * list ascii) :=
  match s with
  | q :: s1 =>
      if is_quantifier q then
        match s1 with
        | q2 :: _ => if is_quantifier q2 then None
                     else Some ((if Ascii.eqb q "*" then RStar a
                                 else if Ascii.eqb q "+" then RPlus a else ROpt a), s1)
        | [] => Some ((if Ascii.eqb q "*" then RStar a
                       else if Ascii.eqb q "+" then RPlus a else ROpt a), s1)
        end
      else if Ascii.eqb q "{" then
        match s1 with
        | d :: _ => if is_digit d || Ascii.eqb d "," then None else Some (a, s)
        | [] => Some (a, s)
        end
      else Some (a, s)
  | [] => Some (a, s)
  end.

Fixpoint parse_alt (fuel : nat) (s : list ascii) {struct fuel}
  : option (regex * list ascii) :=
  match fuel with
  | O => None
  | S fuel' =>
      match parse_seq fuel' s with
      | Some (a, "|"%char :: s1) =>
          match parse_alt fuel' s1 with
          | Some (b, s2) => Some (RAlt a b, s2)
          | None => None
          end
      | other => other
      end
  end
with parse_seq (fuel : nat) (s : list ascii) {struct fuel}
  : option (regex * list ascii) :=
  match fuel with
  | O => None
  | S fuel' =>
      match s with
      | [] => Some (REmpty, s)
      | c :: _ =>
          if Ascii.eqb c "|" || Ascii.eqb c ")" then Some (REmpty, s)
          else
            match parse_atom fuel' s with
            | Some (a, s1) =>
                match parse_quantifier a s1 with
                | Some (aq, s2) =>
                    match parse_seq fuel' s2 with
                    | Some (REmpty, s3) => Some (aq, s3)
                    | Some (b, s3) => Some (RCat aq b, s3)
                    | None => None
                    end
                | None => None
                end
            | None => None
            end
      end
  end
with parse_atom (fuel : nat) (s : list ascii) {struct fuel}
  : option (regex * list ascii) :=
  match fuel with
  | O => None
  | S fuel' =>
      match s with
      | [] => None
      | c :: s1 =>
          if Ascii.eqb c "(" then
            let body :=
              match s1 with
              | "?"%char :: "!"%char :: s2 => Some (Some true, s2)
              | "?"%char :: "="%char :: s2 => Some (Some false, s2)
              | "?"%char :: ":"%char :: s2 => Some (None, s2)
              | "?"%char :: _ => None
              | _ => Some (None, s1)
              end in
            match body with
            | Some (look, s2) =>
                match parse_alt fuel' s2 with
                | Some (a, ")"%char :: s3) =>
                    Some (match look with
                          | Some neg => RLook neg a
                          | None => a
                          end, s3)
                | _ => None
                end
            | None => None
            end
          else if Ascii.eqb c "[" then
            match s1 with
            | "^"%char :: s2 =>
                option_map (fun '(items, s3) => (RSet true items, s3))
                  (parse_set (S (List.length s2)) true s2 [])
            | _ =>
                option_map (fun '(items, s3) => (RSet false items, s3))
                  (parse_set (S (List.length s1)) true s1 [])
            end
          else if Ascii.eqb c "\" then
            match s1 with
            | [] => None
            | e :: s2 =>
                match escape_item e with
                | Some (SChar x) => Some (RChar x, s2)
                | Some it => Some (RSet false [it], s2)
                | None => None
                end
            end
          else if Ascii.eqb c "." then Some (RAny, s1)
          else if Ascii.eqb c "^" then Some (RBol, s1)
          else if Ascii.eqb c "$" then Some (REol, s1)
          else if is_quantifier c then None
          else if Ascii.eqb c ")" then None
          else Some (RChar c, s1)
      end
  end.

Definition compile (pattern : string) : option regex :=
  let s := list_ascii_of_string pattern in
  match parse_alt (4 * List.length s + 4) s with
  | Some (r, []) => Some r
  | _ => None
  end.

(** *** The matcher *)

(** [run r k bol s] matches [r] at the head of [s] and passes what is left
    to the continuation [k]; [bol] tells whether the position is at the
    beginning of a line.  The first success in Python's order of
    preference is returned. *)
Fixpoint run {A : Type} (r : regex) (k : bool -> list ascii -> option A) (bol : bool)
  (s : list ascii) {struct r} : option A :=
  match r with
  | RChar c =>
      match s with
      | x :: s' => if Ascii.eqb (lower_char x) (lower_char c) then k (is_newline x) s' else None
      | [] => None
      end
  | RAny =>
      match s with
      | x :: s' => if is_newline x then None else k false s'
      | [] => None
      end
  | RSet neg items =>
      match s with
      | x :: s' => if xorb neg (set_has items x) then k (is_newline x) s' else None
      | [] => None
      end
  | RBol => if bol then k bol s else None
  | REol =>
      match s with
      | [] => k bol s
      | x :: _ => if is_newline x then k bol s else None
      end
  | REmpty => k bol s
  | RCat a b => run a (run b k) bol s
  | RAlt a b =>
      match run a k bol s with
      | Some res => Some res
      | None => run b k bol s
      end
  | RStar a =>
      (fix star (n : nat) (bol : bool) (s : list ascii) {struct n} : option A :=
         match n with
         | O => k bol s
         | S n' =>
             match run a (fun bol' s' =>
                            if (List.length s' <? List.length s)%nat
                            then star n' bol' s' else None) bol s with
             | Some res => Some res
             | None => k bol s
             end
         end) (List.length s) bol s
  | RPlus a =>
      run a
        ((fix star (n : nat) (bol : bool) (s : list ascii) {struct n} : option A :=
            match n with
            | O => k bol s
            | S n' =>
                match run a (fun bol' s' =>
                               if (List.length s' <? List.length s)%nat
                               then star n' bol' s' else None) bol s with
                | Some res => Some res
                | None => k bol s
                end
            end) (List.length s)) bol s
  | ROpt a =>
      match run a k bol s with
      | Some res => Some res
      | None => k bol s
      end
  | RLook neg a =>
      match run a (fun _ _ => Some tt) bol s with
      | Some _ => if neg then None else k bol s
      | None => if neg then k bol s else None
      end
  end.

(** [match_at r bol s]: the rest of the text after the match of [r] at
    the head of [s], if there is one. *)
Definition match_at (r : regex) (bol : bool) (s : list ascii) : option (bool * list ascii) :=
  run r (fun bol' s' => Some (bol', s')) bol s.

(** [len(r.findall(s))]: scan left to right, resume after each match. *)
Fixpoint count_matches (fuel : nat) (r : regex) (bol : bool) (s : list ascii) : nat :=
  match fuel with
  | O => O
  | S fuel' =>
      let step :=
        match s with
        | [] => O
        | x :: s' => count_matches fuel' r (is_newline x) s'
        end in
      match match_at r bol s with
      | Some (bol', s') =>
          if (List.length s' <? List.length s)%nat
          then S (count_matches fuel' r bol' s')
          else S step
      | None => step
      end
  end.

Definition findall_len (r : regex) (text : string) : nat :=
  let s := list_ascii_of_string text in
  count_matches (S (List.length s)) r true s.

(** The reference runtime. *)
Definition runtime : PyRuntime :=
  {| compiled := regex;
     re_compile := compile;
     re_findall_len := findall_len;
     str_lower := lower;
     str_strip := strip |}.

End Ref.

(* ================================================================== *)
(** * Specification-level definitions *)
(* ================================================================== *)

(** The result for an input that is not classified. *)
Definition unknown_result (why : string) : DetectionResult :=
  {| language := "unknown"; confidence := F64.zero; framework := None; evidence := [why] |}.

(** The quantities the specification speaks of, written the way it words
    them (sums and counts over the rule lists), to be compared with the
    loops of the engine. *)
Section Spec.

Context {rt : PyRuntime}.

Definition compiles_ok (pattern : string) : bool :=
  match re_compile pattern with
  | Some _ => true
  | None => false
  end.

(** Every regular expression of the language and framework tables. *)
Definition language_regexes (self : GuessLexer) : list string :=
  flat_map (fun kv => patterns (snd kv) ++ anti_patterns (snd kv)) (language_patterns self).
Definition framework_regexes (self : GuessLexer) : list string :=
  flat_map (fun kv => fw_patterns (snd kv)) (framework_patterns self).

(** The runtime compiles every regular expression of the tables. *)
Definition tables_compile (self : GuessLexer) : bool :=
  forallb compiles_ok (language_regexes self) && forallb compiles_ok (framework_regexes self).

(** The input is empty or whitespace only. *)
Definition is_blank (code : string) : bool := negb (str_truthy (str_strip code)).

(** The number of non-overlapping matches of one pattern in the text. *)
Definition match_count (pattern code : string) : nat :=
  match re_compile pattern with
  | Some p => re_findall_len p code
  | None => O
  end.

(** The sum of the match counts over all patterns of a list. *)
Definition pattern_matches (ps : list string) (code : string) : nat :=
  list_sum (map (fun p => match_count p code) ps).

(** One for each keyword that occurs in the text, however often. *)
Definition keyword_matches (ks : list string) (code : string) : nat :=
  List.length (filter (fun k => keyword_in k code) ks).

Definition pattern_evidence (fmt : string -> nat -> string) (ps : list string)
  (code : string) : list string :=
  map (fun p => fmt p (match_count p code))
      (filter (fun p => (0 <? match_count p code)%nat) ps).

Definition keyword_evidence (fmt : string -> string) (ks : list string) (code : string)
  : list string :=
  map fmt (filter (fun k => keyword_in k code) ks).

(** [max(0, (pattern_matches * 0.6 + keyword_matches * 0.4) * weight
            - anti_matches * 0.3)]. *)
Definition score_spec (code : string) (rules : LanguageRules) : F64.float :=
  F64.pymax F64.zero
    (F64.sub
       (F64.mul
          (F64.add (F64.mul (F64.of_nat (pattern_matches (patterns rules) code)) F64.c0_6)
                   (F64.mul (F64.of_nat (keyword_matches (keywords rules) code)) F64.c0_4))
          (weight rules))
       (F64.mul (F64.of_nat (pattern_matches (anti_patterns rules) code)) F64.c0_3)).

Definition evidence_spec (code : string) (rules : LanguageRules) : list string :=
  pattern_evidence fmt_pattern (patterns rules) code
  ++ keyword_evidence fmt_keyword (keywords rules) code
  ++ pattern_evidence fmt_anti (anti_patterns rules) code.

(** The languages that score above zero, in registry order, with their
    scores and evidence: the candidate set before any hint. *)
Definition candidates (self : GuessLexer) (code : string) : list (string * LanguageRules) :=
  filter (fun kv => F64.ltb F64.zero (score_spec code (snd kv))) (language_patterns self).

Definition language_scores_spec (self : GuessLexer) (code : string) : dict F64.float :=
  map (fun kv => (fst kv, score_spec code (snd kv))) (candidates self code).

Definition language_evidence_spec (self : GuessLexer) (code : string) : dict (list string) :=
  map (fun kv => (fst kv, evidence_spec code (snd kv))) (candidates self code).

(** [(pattern_matches * 0.7 + keyword_matches * 0.3) * weight], with no
    anti-pattern term. *)
Definition fw_score_spec (code : string) (rules : FrameworkRules) : F64.float :=
  F64.mul
    (F64.add (F64.mul (F64.of_nat (pattern_matches (fw_patterns rules) code)) F64.c0_7)
             (F64.mul (F64.of_nat (keyword_matches (fw_keywords rules) code)) F64.c0_3))
    (fw_weight rules).

Definition fw_evidence_spec (code : string) (rules : FrameworkRules) : list string :=
  pattern_evidence fmt_fw_pattern (fw_patterns rules) code
  ++ keyword_evidence fmt_fw_keyword (fw_keywords rules) code.

(** The frameworks of language [lang] whose score is positive, in registry
    order. *)
Definition fw_candidates (self : GuessLexer) (code lang : string)
  : list (string * FrameworkRules) :=
  filter (fun kv => F64.ltb F64.zero (fw_score_spec code (snd kv)))
    (filter (fun kv => String.eqb (fw_language (snd kv)) lang) (framework_patterns self)).

Definition fw_scores_spec (self : GuessLexer) (code lang : string) : dict F64.float :=
  map (fun kv => (fst kv, fw_score_spec code (snd kv))) (fw_candidates self code lang).

Definition fw_evidence_map_spec (self : GuessLexer) (code lang : string)
  : dict (list string) :=
  map (fun kv => (fst kv, fw_evidence_spec code (snd kv))) (fw_candidates self code lang).

(** Framework stage as the specification words it: keep the frameworks of
    the language with a positive score, pick the maximum, divide by 5.0
    and clamp at 1.0. *)
Definition detect_framework_spec (self : GuessLexer) (code lang : string)
  : option (string * F64.float * list string) :=
  let scores := fw_scores_spec self code lang in
  match py_max (fun x => dict_get_float x scores) (dict_keys scores) with
  | None => None
  | Some best =>
      Some (best,
            F64.pymin (F64.div (dict_get_float best scores) F64.c5_0) F64.one,
            dict_get_list best (fw_evidence_map_spec self code lang))
  end.

(** The score and evidence maps after the extension hint, from which the
    best language is chosen. *)
Definition staged (self : GuessLexer) (code : string) (filename : option string)
  : dict F64.float * dict (list string) :=
  apply_extension_hint (extension_hint_of self filename) filename
    (language_scores_spec self code) (language_evidence_spec self code).

(** The decision taken from the staged maps: the best language, its
    framework, and the fused confidence and evidence. *)
Definition decide (self : GuessLexer) (code : string)
  (st : dict F64.float * dict (list string)) : DetectionResult :=
  match py_max (fun x => dict_get_float x (fst st)) (dict_keys (fst st)) with
  | None => unknown_result "No patterns matched"
  | Some best =>
      let conf := F64.pymin (dict_get_float best (fst st)) F64.one in
      match detect_framework_spec self code best with
      | Some (fw, fc, fev) =>
          {| language := best;
             confidence := F64.pymin (F64.add conf (F64.mul fc F64.c0_3)) F64.one;
             framework := Some fw;
             evidence := dict_get_list best (snd st) ++ fev |}
      | None =>
          {| language := best; confidence := conf; framework := None;
             evidence := dict_get_list best (snd st) ++ [] |}
      end
  end.

(** No language of the table scores above zero. *)
Definition no_language_scores (self : GuessLexer) (code : string) : Prop :=
  forall lang rules,
    In (lang, rules) (language_patterns self) ->
    F64.ltb F64.zero (score_spec code rules) = false.

(** Some framework of language [lang] has a positive score. *)
Definition framework_scores_positively (self : GuessLexer) (code lang : string) : Prop :=
  exists fw rules,
    In (fw, rules) (framework_patterns self) /\ fw_language rules = lang /\
    F64.ltb F64.zero (fw_score_spec code rules) = true.

End Spec.

(** No string occurs twice in the list. *)
Fixpoint distinct (l : list string) : bool :=
  match l with
  | [] => true
  | x :: l' => negb (list_mem x l') && distinct l'
  end.

(** Well-formed tables: keys are distinct (they come from dictionary
    literals) and weights are normal doubles that are at least one. *)
Definition weight_ok (w : F64.float) : Prop :=
  F64.above 0 w /\
  exists m e, w = S754_finite false m e /\ Zpos (digits2_pos m) = 53%Z.

Definition tables_wf (self : GuessLexer) : Prop :=
  NoDup (dict_keys (language_patterns self)) /\
  NoDup (dict_keys (framework_patterns self)) /\
  Forall (fun kv => weight_ok (weight (snd kv))) (language_patterns self) /\
  Forall (fun kv => weight_ok (fw_weight (snd kv))) (framework_patterns self).

(* ================================================================== *)
(** * Around the engine: listings, files, reports *)
(* ================================================================== *)

(** The rest of [guess_lexer.py] ([get_supported_languages],
    [get_supported_frameworks], [analyze_file], [format_result]), the
    wrapper [analyze_code_for_kotlin] of analyze_code.py and the [scan]
    command of main.py. *)

Section Reports.

Local Open Scope string_scope.

(** [GuessLexer.get_supported_languages()] and
    [GuessLexer.get_supported_frameworks()]: the keys of the two rule
    tables, in table order. *)
Definition get_supported_languages (self : GuessLexer) : list string :=
  dict_keys (language_patterns self).

Definition get_supported_frameworks (self : GuessLexer) : list string :=
  dict_keys (framework_patterns self).

(** No extension is listed under two keys of an extension table. *)
Fixpoint extensions_disjoint (table : dict (list string)) : bool :=
  match table with
  | [] => true
  | (_, extensions) :: table' =>
      forallb (fun ext => forallb (fun kv => negb (list_mem ext (snd kv))) table') extensions
      && extensions_disjoint table'
  end.

(** ** Paths and strings *)

(** [os.path.basename] (POSIX flavour): what follows the last ["/"]. *)
Definition basename (p : string) : string :=
  let i := Z.to_nat (rfind "/"%char p + 1) in
  String.substring i (String.length p - i) p.

(** [s.endswith(suffix)]. *)
Definition str_endswith (s suffix : string) : bool :=
  let n := String.length s in
  let k := String.length suffix in
  (k <=? n)%nat && String.eqb (String.substring (n - k) k s) suffix.

(** Truth value of a list: non-empty. *)
Definition list_truthy {A : Type} (l : list A) : bool :=
  match l with
  | [] => false
  | _ :: _ => true
  end.

(** [sep.join(l)]. *)
Fixpoint str_join (sep : string) (l : list string) : string :=
  match l with
  | [] => EmptyString
  | [x] => x
  | x :: l' => x ++ sep ++ str_join sep l'
  end.

(** The line feed character, as a string. *)
Definition nl : string := String "010"%char EmptyString.

(** ** The operating system and the text functions *)

(** One path yielded by [Path(directory).glob(pattern)]. *)
Record DirEntry : Type := {
  (** [str(file_path)] *)
  path_str : string;
  (** [str(file_path.relative_to(path_obj))] *)
  relative_str : string;
  (** [file_path.is_file()] *)
  is_file : bool
}.

(** What [analyze_file] and [scan] use of the file system. *)
Class PyFiles : Type := {
  (** [open(path, 'r', encoding='utf-8')] followed by [read()]: the text,
      or [str(e)] of the exception that opening or decoding raises *)
  read_text : string -> string + string;
  (** [Path(directory).glob(pattern)], in the order of the iteration *)
  glob : string -> string -> list DirEntry
}.

(** What the report functions use of Python's text formatting. *)
Class PyText : Type := {
  (** [str(e)] for an exception of the engine *)
  exn_str : exn -> string;
  (** [s.upper()] *)
  str_upper : string -> string;
  (** [str(x)] for a float, as an f-string renders it *)
  float_str : F64.float -> string;
  (** [format(x, ".1%")] *)
  float_percent : F64.float -> string
}.

(** ** [GuessLexer.analyze_file] *)

Section Files.

Context {rt : PyRuntime} {fs : PyFiles} {tx : PyText}.

(** [GuessLexer.analyze_file(filepath)].  The [try] block covers both the
    reading of the file and the analysis, so an exception of either is
    reported in the same way. *)
Definition analyze_file (self : GuessLexer) (filepath : string) : DetectionResult :=
  match read_text filepath with
  | inr code =>
      match analyze_code self code (Some (basename filepath)) with
      | inr res => res
      | inl e =>
          {| language := "unknown"; confidence := F64.zero; framework := None;
             evidence := ["Error reading file: " ++ exn_str e] |}
      end
  | inl msg =>
      {| language := "unknown"; confidence := F64.zero; framework := None;
         evidence := ["Error reading file: " ++ msg] |}
  end.

(** ** [format_result] *)

(** [format_result(result)].  The prefixes of the lines are the bytes of
    the source file's literals. *)
Definition format_result (res : DetectionResult) : string :=
  let output : list string := [] in
  let output := List.app output ["üîç Language: " ++ str_upper (language res)] in
  let output := List.app output ["üìä Confidence: " ++ float_percent (confidence res)] in
  let output :=
    match framework res with
    | Some fw =>
        if str_truthy fw
        then List.app output ["üöÄ Framework: " ++ str_upper fw]
        else output
    | None => output
    end in
  let output :=
    if list_truthy (evidence res)
    then List.app (List.app output [nl ++ "üìù Evidence:"])
           (map (fun ev => "  ‚Ä¢ " ++ ev) (firstn 10 (evidence res)))
    else output in
  str_join nl output.

(** ** [analyze_code_for_kotlin] (analyze_code.py) *)

(** What a run of [analyze_code_for_kotlin] leaves behind: the arguments
    of its [print] calls in order, and the status passed to [sys.exit]
    when it is called. *)
Record Output : Type := {
  printed : list string;
  exit_status : option Z
}.

(** [analyze_code_for_kotlin(code, filename)].  The engine is built and
    run inside the [try] block; every [print] follows the analysis. *)
Definition analyze_code_for_kotlin (code : string) (filename : option string) : Output :=
  match (lexer <- new_GuessLexer ;; analyze_code lexer code filename)%py with
  | inr res =>
      {| printed :=
           List.app
             ["Language: " ++ language res;
              "Confidence: " ++ float_str (confidence res);
              "Framework: " ++
                match framework res with
                | Some fw => if str_truthy fw then fw else "None"
                | None => "None"
                end;
              "Evidence:"]
             (map (fun ev => "  - " ++ ev) (evidence res));
         exit_status := None |}
  | inl e => {| printed := ["Error: " ++ exn_str e]; exit_status := Some 1%Z |}
  end.

(** ** The [scan] command (main.py), with [--json-output] *)

(** One entry of [results]. *)
Record FileInfo : Type := {
  file : string;
  file_language : string;
  file_confidence : F64.float;
  file_framework : option string
}.

(** The dictionary handed to [json.dumps]: the ["summary"] part and the
    ["results"] list. *)
Record ScanSummary : Type := {
  directory : string;
  files_found : nat;
  files_analyzed : nat;
  min_confidence : F64.float;
  results : list FileInfo
}.

(** "Common code file extensions if none specified". *)
Definition default_extensions : list string :=
  [".py"; ".js"; ".ts"; ".java"; ".cpp"; ".c"; ".go"; ".rs"; ".rb"; ".php"; ".swift";
   ".kt"; ".sql"; ".html"; ".css"].

(** [any(str(file_path).endswith(ext) for ext in extensions)]. *)
Definition any_endswith (path : string) (extensions : list string) : bool :=
  existsb (fun ext => str_endswith path ext) extensions.

(** The loop over the listing.  [analyze_file] catches every exception
    itself, so the [except] branch of the loop body is never entered. *)
Fixpoint scan_files (lexer : GuessLexer) (min_conf : F64.float) (extensions : list string)
  (listing : list DirEntry) (found analyzed : nat) (res : list FileInfo)
  : nat * nat * list FileInfo :=
  match listing with
  | [] => (found, analyzed, res)
  | file_path :: listing' =>
      if is_file file_path then
        if list_truthy extensions && negb (any_endswith (path_str file_path) extensions)
        then scan_files lexer min_conf extensions listing' found analyzed res
        else
          let found := S found in
          let r := analyze_file lexer (path_str file_path) in
          if F64.leb min_conf (confidence r)
          then
            let file_info :=
              {| file := relative_str file_path; file_language := language r;
                 file_confidence := confidence r; file_framework := framework r |} in
            scan_files lexer min_conf extensions listing' found (S analyzed)
              (List.app res [file_info])
          else scan_files lexer min_conf extensions listing' found analyzed res
      else scan_files lexer min_conf extensions listing' found analyzed res
  end.

(** The extensions the loop filters with. *)
Definition effective_extensions (extensions : list string) : list string :=
  if negb (list_truthy extensions) then default_extensions else extensions.

(** [scan(directory, recursive, json_output=True, min_confidence,
    extensions)]: the summary that is printed as JSON. *)
Definition scan (dir : string) (recursive : bool) (min_conf : F64.float)
  (extensions : list string) : result ScanSummary :=
  (lexer <- new_GuessLexer ;;
   let pattern := if recursive then "**/*" else "*" in
   let extensions := effective_extensions extensions in
   let '(found, analyzed, res) :=
     scan_files lexer min_conf extensions (glob dir pattern) 0 0 [] in
   ret {| directory := dir; files_found := found; files_analyzed := analyzed;
          min_confidence := min_conf; results := res |})%py.

End Files.

End Reports.

(* ================================================================== *)
(** * Reference text functions and an example file system *)
(* ================================================================== *)

(** Python's rendering of a float, for the places where a statement is
    evaluated on concrete values: [str(x)] gives the shortest decimal
    string that reads back as [x], [format(x, ".1%")] multiplies by 100
    and rounds the exact value to one decimal, half to even.  [upper] is
    exact on ASCII.  The texts of exception messages are not modelled:
    [exn_str] names the pattern after the words of [re.error]'s own
    prefix. *)
Module RefText.

Local Open Scope string_scope.
Local Open Scope Z_scope.

Definition upper (s : string) : string :=
  string_of_list_ascii (map Ref.upper_char (list_ascii_of_string s)).

(** The decimal digits of a non-negative integer. *)
Definition digits (z : Z) : string := NilZero.string_of_uint (N.to_uint (Z.to_N z)).

Definition sign_str (s : bool) : string := if s then "-" else "".

Definition percent (x : F64.float) : string :=
  match F64.mul x (F64.of_Z 100) with
  | S754_nan => "nan%"
  | S754_infinity s => sign_str s ++ "inf%"
  | S754_zero s => sign_str s ++ "0.0%"
  | S754_finite s m e =>
      let t := if 0 <=? e then Zpos m * 2 ^ e * 10 else F64.rne (Zpos m * 10) (2 ^ (- e)) in
      sign_str s ++ digits (t / 10) ++ "." ++ digits (t mod 10) ++ "%"
  end.

(** The least [k >= from] with [n < 10 ^ k]. *)
Fixpoint digits_up (fuel : nat) (n k : Z) : Z :=
  match fuel with
  | O => k
  | S fuel' => if n <? 10 ^ k then k else digits_up fuel' n (k + 1)
  end.

(** The least [j >= from] with [den <= num * 10 ^ j]. *)
Fixpoint scale_up (fuel : nat) (num den j : Z) : Z :=
  match fuel with
  | O => j
  | S fuel' => if den <=? num * 10 ^ j then j else scale_up fuel' num den (j + 1)
  end.

(** [floor (log10 (num / den))] for a positive fraction. *)
Definition floor_log10 (num den : Z) : Z :=
  if den <=? num then digits_up 400 (num / den) 1 - 1 else - scale_up 400 num den 1.

(** Does the decimal [d * 10 ^ q] read back as the double [m * 2 ^ e]?
    It does when it lies within half a unit in the last place, the ends
    included for an even mantissa; below a power of two the gap is half
    as wide. *)
Definition reads_back (m : positive) (e : Z) (d q : Z) : bool :=
  let s2 := Z.max 0 (2 - e) in
  let s10 := Z.max 0 (- q) in
  let c := d * 10 ^ (q + s10) * 2 ^ s2 in
  let unit := 2 ^ (e - 2 + s2) * 10 ^ s10 in
  let low :=
    if (Zpos m =? 2 ^ 52) && (-1074 <? e) then (4 * Zpos m - 1) * unit
    else (4 * Zpos m - 2) * unit in
  let high := (4 * Zpos m + 2) * unit in
  if Z.even (Zpos m) then (low <=? c) && (c <=? high) else (low <? c) && (c <? high).

(** The digits of [m * 2 ^ e] rounded to [n] significant digits, with the
    exponent of the last digit, when the rounded decimal reads back. *)
Definition try_digits (m : positive) (e : Z) (n : Z) : option (Z * Z) :=
  let num := if 0 <=? e then Zpos m * 2 ^ e else Zpos m in
  let den := if 0 <=? e then 1 else 2 ^ (- e) in
  let k := floor_log10 num den in
  let q := k - n + 1 in
  let N := if 0 <=? q then num else num * 10 ^ (- q) in
  let D := if 0 <=? q then den * 10 ^ q else den in
  let near := F64.rne N D in
  let other := if near =? N / D then N / D + 1 else N / D in
  let norm d := if d =? 10 ^ n then (10 ^ (n - 1), q + 1) else (d, q) in
  if reads_back m e near q then Some (norm near)
  else if (0 <? other) && reads_back m e other q then Some (norm other)
  else None.

Fixpoint shortest (fuel : nat) (m : positive) (e : Z) (n : Z) : Z * Z :=
  match fuel with
  | O => (Zpos m, e)
  | S fuel' =>
      match try_digits m e n with
      | Some dq => dq
      | None => shortest fuel' m e (n + 1)
      end
  end.

Fixpoint zeros (n : nat) : string :=
  match n with
  | O => ""
  | S n' => "0" ++ zeros n'
  end.

(** [repr] of a positive finite double from its shortest digits [ds] and
    the position [decpt] of the decimal point: exponent notation when
    [decpt <= -4] or [decpt > 16]. *)
Definition layout (ds : string) (decpt : Z) : string :=
  let n := Z.of_nat (String.length ds) in
  if (decpt <=? -4) || (16 <? decpt) then
    let x := decpt - 1 in
    let mant :=
      if n =? 1 then ds
      else String.substring 0 1 ds ++ "." ++ String.substring 1 (String.length ds - 1) ds in
    let xs := digits (Z.abs x) in
    mant ++ "e" ++ (if x <? 0 then "-" else "+")
         ++ (if Z.abs x <? 10 then "0" ++ xs else xs)
  else if decpt <=? 0 then "0." ++ zeros (Z.to_nat (- decpt)) ++ ds
  else if n <=? decpt then ds ++ zeros (Z.to_nat (decpt - n)) ++ ".0"
  else String.substring 0 (Z.to_nat decpt) ds ++ "."
         ++ String.substring (Z.to_nat decpt) (String.length ds - Z.to_nat decpt) ds.

Definition repr (x : F64.float) : string :=
  match x with
  | S754_nan => "nan"
  | S754_infinity s => sign_str s ++ "inf"
  | S754_zero s => sign_str s ++ "0.0"
  | S754_finite s m e =>
      let '(d, q) := shortest 17 m e 1 in
      let ds := digits d in
      sign_str s ++ layout ds (q + Z.of_nat (String.length ds))
  end.

Definition text : PyText :=
  {| exn_str := fun e => match e with ReError p => "error compiling pattern " ++ p end;
     str_upper := upper;
     float_str := repr;
     float_percent := percent |}.

End RefText.

(** Two example directories.  [proj] holds six files, of which one is
    blank and one cannot be opened, and a directory with one more file
    below it; [mobile] holds a Dart file, a C# file and an empty
    directory. *)
Module Example.

Local Open Scope string_scope.

Definition tree : dict (string + string) :=
  [("proj/app.py", inr python_text);
   ("proj/page.ts", inr angular_text);
   ("proj/notes.txt", inr "hello world");
   ("proj/main.dart", inr "import 'package:flutter/material.dart';");
   ("proj/blank.py", inr "   ");
   ("proj/locked.py", inl "[Errno 13] Permission denied: 'proj/locked.py'");
   ("proj/web/index.html", inr "<html><body><p>hello</p></body></html>");
   ("mobile/main.dart", inr "import 'package:flutter/material.dart';");
   ("mobile/Program.cs", inr "using System;")].

Definition entry (dir name : string) (f : bool) : DirEntry :=
  {| path_str := dir ++ "/" ++ name; relative_str := name; is_file := f |}.

Definition proj_top : list DirEntry :=
  [entry "proj" "app.py" true; entry "proj" "page.ts" true; entry "proj" "notes.txt" true;
   entry "proj" "main.dart" true; entry "proj" "blank.py" true;
   entry "proj" "locked.py" true; entry "proj" "web" false].

Definition mobile_top : list DirEntry :=
  [entry "mobile" "main.dart" true; entry "mobile" "Program.cs" true;
   entry "mobile" "lib" false].

Definition files : PyFiles :=
  {| read_text := fun p =>
       match dict_get p tree with
       | Some x => x
       | None => inl ("[Errno 2] No such file or directory: '" ++ p ++ "'")
       end;
     glob := fun dir pattern =>
       if String.eqb dir "proj" then
         if String.eqb pattern "*" then proj_top
         else if String.eqb pattern "**/*"
              then List.app proj_top [entry "proj" "web/index.html" true]
              else []
       else if String.eqb dir "mobile" then
         if String.eqb pattern "*" || String.eqb pattern "**/*" then mobile_top else []
       else [] |}.

(** A framework table with one Java framework whose only pattern does
    not compile, an engine with the shipped language table and that
    framework table, and a Java text. *)
Definition malformed_framework_table : dict FrameworkRules :=
  [("broken",
    {| fw_language := "java"; fw_patterns := ["("]; fw_keywords := [];
       fw_weight := F64.one |})].

Definition framework_broken_lexer : GuessLexer :=
  {| language_patterns := language_patterns the_lexer;
     framework_patterns := malformed_framework_table;
     file_extensions := file_extensions the_lexer |}.

Definition java_text : string := "System.out.println(1);".

(** An engine whose language table holds a pattern that does not
    compile. *)
Definition broken_lexer : GuessLexer :=
  {| language_patterns := malformed_table; framework_patterns := [];
     file_extensions := [] |}.

End Example.

(* ================================================================== *)
(** * The patterns that a run compiles *)
(* ================================================================== *)

Section RunPatterns.

Context {rt : PyRuntime}.

(** The language that wins the language stage, if any language scores. *)
Definition winning_language (self : GuessLexer) (code : string) (filename : option string)
  : option string :=
  py_max (fun x => dict_get_float x (fst (staged self code filename)))
    (dict_keys (fst (staged self code filename))).

(** The regular expressions that [_detect_framework] hands to [re.findall]
    for the language [lang]: the patterns of the frameworks of that
    language; the other frameworks are skipped before any of their
    patterns is used. *)
Definition framework_regexes_of (self : GuessLexer) (lang : string) : list string :=
  flat_map (fun kv => fw_patterns (snd kv))
    (filter (fun kv => String.eqb (fw_language (snd kv)) lang) (framework_patterns self)).

End RunPatterns.

(* ================================================================== *)
(** * The [scan] loop as a filter, and the shapes of evidence lines *)
(* ================================================================== *)

Section ScanSpec.

Context {rt : PyRuntime} {fs : PyFiles} {tx : PyText}.

Local Open Scope string_scope.

(** The loop takes an entry into account: it is a file and, when there is
    an extension filter, its path ends with one of the extensions. *)
Definition accepted (extensions : list string) (e : DirEntry) : bool :=
  is_file e && (negb (list_truthy extensions) || any_endswith (path_str e) extensions).

(** The loop appends the entry to [results]. *)
Definition reported (lexer : GuessLexer) (min_conf : F64.float) (extensions : list string)
  (e : DirEntry) : bool :=
  accepted extensions e && F64.leb min_conf (confidence (analyze_file lexer (path_str e))).

(** The [file_info] of an entry. *)
Definition file_info_of (lexer : GuessLexer) (e : DirEntry) : FileInfo :=
  let r := analyze_file lexer (path_str e) in
  {| file := relative_str e; file_language := language r;
     file_confidence := confidence r; file_framework := framework r |}.

(** The prefixes of the evidence lines that the engine writes for a
    detected language or framework. *)
Definition evidence_prefixes : list string :=
  ["Pattern match: "; "Keyword found: "; "Anti-pattern found: "; "File extension hint: ";
   "Framework pattern: "; "Framework keyword: "].

(** An evidence line of the engine: one of the two reasons for "unknown",
    or a line with one of the prefixes. *)
Definition is_evidence_line (l : string) : bool :=
  String.eqb l "Empty code" || String.eqb l "No patterns matched"
  || existsb (fun p => String.prefix p l) evidence_prefixes.

(** The line that the extension hint adds. *)
Definition is_hint_line (l : string) : bool := String.prefix "File extension hint: " l.

(** What is true of every line that the language and framework stages
    write: it has one of the known prefixes and is not a hint line. *)
Definition plain_line (l : string) : Prop :=
  is_evidence_line l = true /\ is_hint_line l = false.

(** The listing that [scan] walks. *)
Definition scan_listing (dir : string) (recursive : bool) : list DirEntry :=
  glob dir (if recursive then "**/*" else "*").

(** The extensions of the engine's table that are not among the default
    extensions of [scan]. *)
Definition unscanned_extensions (lexer : GuessLexer) : list string :=
  filter (fun ext => negb (list_mem ext default_extensions))
    (flat_map snd (file_extensions lexer)).

End ScanSpec.

(* ================================================================== *)
(** * Facts about binary64 arithmetic *)
(* ================================================================== *)

Module F64Facts.

Import F64.
Local Open Scope Z_scope.

Lemma digits2_bounds (m : positive) :
  2 ^ (Zpos (digits2_pos m) - 1) <= Zpos m < 2 ^ Zpos (digits2_pos m).
Proof.
  induction m as [m IH | m IH |]; simpl digits2_pos.
  - rewrite Pos2Z.inj_succ.
    replace (Z.succ (Zpos (digits2_pos m)) - 1) with (Z.succ (Zpos (digits2_pos m) - 1)) by lia.
    rewrite !Z.pow_succ_r by lia. lia.
  - rewrite Pos2Z.inj_succ.
    replace (Z.succ (Zpos (digits2_pos m)) - 1) with (Z.succ (Zpos (digits2_pos m) - 1)) by lia.
    rewrite !Z.pow_succ_r by lia. lia.
  - simpl. lia.
Qed.

Lemma digits2_mono (a b : positive) :
  (a <= b)%positive -> Zpos (digits2_pos a) <= Zpos (digits2_pos b).
Proof.
  intros Hab.
  destruct (digits2_bounds a) as [Ha _], (digits2_bounds b) as [_ Hb].
  assert (H : 2 ^ (Zpos (digits2_pos a) - 1) < 2 ^ Zpos (digits2_pos b)) by lia.
  apply Z.pow_lt_mono_r_iff in H; lia.
Qed.

Lemma digits2_mul (a b : positive) :
  Zpos (digits2_pos a) + Zpos (digits2_pos b) - 1 <= Zpos (digits2_pos (a * b)).
Proof.
  destruct (digits2_bounds a) as [Ha _], (digits2_bounds b) as [Hb _].
  destruct (digits2_bounds (a * b)) as [_ Hab].
  assert (H : 2 ^ (Zpos (digits2_pos a) - 1 + (Zpos (digits2_pos b) - 1))
              < 2 ^ Zpos (digits2_pos (a * b))).
  { rewrite Z.pow_add_r by lia. rewrite Pos2Z.inj_mul in Hab.
    eapply Z.le_lt_trans; [|exact Hab].
    apply Z.mul_le_mono_nonneg; lia. }
  apply Z.pow_lt_mono_r_iff in H; lia.
Qed.

Lemma digits2_shift (m d : positive) :
  digits2_pos (Pos.iter xO m d) = (digits2_pos m + d)%positive.
Proof.
  induction d as [|d IH] using Pos.peano_ind.
  - simpl. lia.
  - rewrite Pos.iter_succ. simpl. rewrite IH. lia.
Qed.

Lemma Zdigits2_pos_iff (m : Z) : 0 <= m -> (0 < Zdigits2 m <-> 0 < m).
Proof. destruct m; simpl; lia. Qed.

Lemma Zdigits2_mono (a b : Z) : 0 <= a <= b -> Zdigits2 a <= Zdigits2 b.
Proof.
  destruct a as [|a|a], b as [|b|b]; simpl; try lia.
  intros [_ H]. apply digits2_mono. lia.
Qed.

Lemma shr_1_spec (mrs : shr_record) :
  0 <= shr_m mrs ->
  0 <= shr_m (shr_1 mrs) /\
  Zdigits2 (shr_m (shr_1 mrs)) = Z.max 0 (Zdigits2 (shr_m mrs) - 1).
Proof.
  destruct mrs as [m r s]. destruct m as [|[p|p|]|p];
    cbn [shr_1 shr_m Zdigits2 digits2_pos]; rewrite ?Pos2Z.inj_succ; lia.
Qed.

Lemma shr_iter_spec (p : positive) : forall mrs : shr_record,
  0 <= shr_m mrs ->
  0 <= shr_m (iter_pos shr_1 p mrs) /\
  Zdigits2 (shr_m (iter_pos shr_1 p mrs)) = Z.max 0 (Zdigits2 (shr_m mrs) - Zpos p).
Proof.
  induction p as [p IH | p IH |]; intros mrs Hm; simpl iter_pos.
  - destruct (shr_1_spec mrs Hm) as [H1 E1].
    destruct (IH _ H1) as [H2 E2]. destruct (IH _ H2) as [H3 E3].
    split; [exact H3|]. rewrite E3, E2, E1. lia.
  - destruct (IH _ Hm) as [H2 E2]. destruct (IH _ H2) as [H3 E3].
    split; [exact H3|]. rewrite E3, E2. lia.
  - apply shr_1_spec, Hm.
Qed.

Lemma shr_record_of_loc_m (m : Z) (l : location) : shr_m (shr_record_of_loc m l) = m.
Proof. destruct l as [|[]]; reflexivity. Qed.

(** The first component of [shr_fexp] keeps a non-negative mantissa
    non-negative, and the exponent it returns is never below [-1074]. *)
Lemma shr_fexp_nonneg (m e : Z) (l : location) :
  0 <= m ->
  0 <= shr_m (fst (shr_fexp prec emax m e l)) /\ -1074 <= snd (shr_fexp prec emax m e l).
Proof.
  intros Hm. unfold shr_fexp, shr.
  assert (Hf : -1074 <= fexp prec emax (Zdigits2 m + e)) by (unfold fexp, emin, prec, emax; lia).
  destruct (fexp prec emax (Zdigits2 m + e) - e) as [|p|p] eqn:E; simpl.
  - rewrite shr_record_of_loc_m. lia.
  - split; [| lia].
    apply shr_iter_spec. rewrite shr_record_of_loc_m. exact Hm.
  - rewrite shr_record_of_loc_m. lia.
Qed.

(** When [m * 2^e] is at least the smallest positive double, shifting to
    the target exponent keeps at least one digit, and the sum of exponent
    and digit count is unchanged. *)
Lemma shr_fexp_digits (m e : Z) (l : location) :
  0 < m -> -1074 < e + Zdigits2 m ->
  0 < shr_m (fst (shr_fexp prec emax m e l)) /\
  -1074 <= snd (shr_fexp prec emax m e l) /\
  snd (shr_fexp prec emax m e l) + Zdigits2 (shr_m (fst (shr_fexp prec emax m e l)))
    = e + Zdigits2 m.
Proof.
  intros Hm Hd.
  destruct (shr_fexp_nonneg m e l) as [H0 He]; [lia|].
  revert H0 He. unfold shr_fexp, shr.
  assert (Hf : fexp prec emax (Zdigits2 m + e) = Z.max (Zdigits2 m + e - 53) (-1074))
    by reflexivity.
  destruct (fexp prec emax (Zdigits2 m + e) - e) as [|p|p] eqn:E; simpl; intros H0 He.
  - rewrite shr_record_of_loc_m. lia.
  - destruct (shr_iter_spec p (shr_record_of_loc m l)) as [H1 E1].
    { rewrite shr_record_of_loc_m. lia. }
    rewrite shr_record_of_loc_m in E1.
    assert (Hz : 0 < Zdigits2 (shr_m (iter_pos shr_1 p (shr_record_of_loc m l)))) by lia.
    apply (proj1 (Zdigits2_pos_iff _ H1)) in Hz.
    repeat split; [exact Hz | exact He | lia].
  - rewrite shr_record_of_loc_m. lia.
Qed.

Lemma round_nearest_even_bounds (m : Z) (l : location) :
  m <= round_nearest_even m l <= m + 1.
Proof.
  unfold round_nearest_even. destruct l as [|[]]; try lia.
  destruct (Z.even m); lia.
Qed.

(** Rounding a non-negative mantissa never produces a NaN, keeps the sign
    it was given, and returns an exponent of at least [-1074]. *)
Lemma binary_round_aux_sign (s : bool) (m e : Z) (l : location) :
  0 <= m ->
  signed s (binary_round_aux prec emax s m e l).
Proof.
  intros Hm. unfold binary_round_aux.
  destruct (shr_fexp prec emax m e l) as [mrs' e'] eqn:E1.
  pose proof (shr_fexp_nonneg m e l Hm) as [H1 _]. rewrite E1 in H1. simpl in H1.
  set (m1 := round_nearest_even (shr_m mrs') (loc_of_shr_record mrs')).
  assert (Hm1 : 0 <= m1) by (pose proof (round_nearest_even_bounds (shr_m mrs') (loc_of_shr_record mrs')); unfold m1; lia).
  destruct (shr_fexp prec emax m1 e' loc_Exact) as [mrs'' e''] eqn:E2.
  pose proof (shr_fexp_nonneg m1 e' loc_Exact Hm1) as [H2 H3]. rewrite E2 in H2, H3. simpl in H2, H3.
  destruct (shr_m mrs'') as [|q|q]; [reflexivity | | lia].
  destruct (e'' <=? emax - prec); [split; [reflexivity | exact H3] | reflexivity].
Qed.

(** Rounding a positive mantissa whose value is at least [2^t], with [2^t]
    at least the smallest positive double, gives a value at least [2^t]. *)
Lemma binary_round_aux_above (t m e : Z) (l : location) :
  0 < m -> -1074 < e + Zdigits2 m -> t < e + Zdigits2 m ->
  above t (binary_round_aux prec emax false m e l).
Proof.
  intros Hm Hd Ht. unfold binary_round_aux.
  destruct (shr_fexp prec emax m e l) as [mrs' e'] eqn:E1.
  pose proof (shr_fexp_digits m e l Hm Hd) as (H1 & H1e & H1d). rewrite E1 in H1, H1e, H1d.
  simpl in H1, H1e, H1d.
  set (m1 := round_nearest_even (shr_m mrs') (loc_of_shr_record mrs')).
  assert (Hm1 : shr_m mrs' <= m1 <= shr_m mrs' + 1) by apply round_nearest_even_bounds.
  assert (Hd1 : Zdigits2 (shr_m mrs') <= Zdigits2 m1) by (apply Zdigits2_mono; lia).
  destruct (shr_fexp prec emax m1 e' loc_Exact) as [mrs'' e''] eqn:E2.
  assert (Hm1' : 0 < m1) by lia.
  assert (Hd1' : -1074 < e' + Zdigits2 m1) by lia.
  pose proof (shr_fexp_digits m1 e' loc_Exact Hm1' Hd1') as (H2 & H2e & H2d).
  rewrite E2 in H2, H2e, H2d. simpl in H2, H2e, H2d.
  destruct (shr_m mrs'') as [|q|q]; [lia | | lia].
  simpl in H2d.
  destruct (e'' <=? emax - prec); simpl; [|reflexivity].
  repeat split; lia.
Qed.

(** ** Alignment and normalisation *)

Lemma shl_align_digits (mx : positive) (ex ez : Z) :
  ez <= ex ->
  snd (shl_align mx ex ez) = ez /\
  ez + Zpos (digits2_pos (fst (shl_align mx ex ez))) = ex + Zpos (digits2_pos mx) /\
  (mx <= fst (shl_align mx ex ez))%positive.
Proof.
  intros Hle. unfold shl_align.
  destruct (ez - ex) as [|d|d] eqn:E; simpl; try lia.
  rewrite digits2_shift. repeat split; try lia.
  clear E. induction d as [|d IH] using Pos.peano_ind; simpl; [lia|].
  rewrite Pos.iter_succ. lia.
Qed.

Lemma shl_align_fexp_digits (mx : positive) (ex ez : Z) :
  snd (shl_align mx ex ez) + Zpos (digits2_pos (fst (shl_align mx ex ez)))
    = ex + Zpos (digits2_pos mx).
Proof.
  unfold shl_align. destruct (ez - ex) as [|d|d] eqn:E; simpl; try lia.
  rewrite digits2_shift. lia.
Qed.

Lemma binary_round_sign (s : bool) (m : positive) (e : Z) :
  signed s (binary_round prec emax s m e).
Proof.
  unfold binary_round.
  destruct (shl_align m e (fexp prec emax (Zpos (digits2_pos m) + e))) as [mz ez].
  apply binary_round_aux_sign. lia.
Qed.

Lemma binary_round_above (t : Z) (m : positive) (e : Z) :
  -1074 < e + Zpos (digits2_pos m) -> t < e + Zpos (digits2_pos m) ->
  above t (binary_round prec emax false m e).
Proof.
  intros Hd Ht. unfold binary_round.
  pose proof (shl_align_fexp_digits m e (fexp prec emax (Zpos (digits2_pos m) + e))) as H.
  destruct (shl_align m e (fexp prec emax (Zpos (digits2_pos m) + e))) as [mz ez].
  simpl in H.
  apply binary_round_aux_above; simpl; lia.
Qed.

(** ** Conversion from integers *)

Lemma of_nat_zero : of_nat 0 = zero.
Proof. reflexivity. Qed.

Lemma signed_nonneg (x : float) : signed false x -> nonneg x.
Proof. destruct x; simpl; tauto. Qed.

Lemma of_nat_nonneg (n : nat) : nonneg (of_nat n).
Proof.
  unfold of_nat, of_Z, binary_normalize.
  destruct (Z.of_nat n) as [|p|p] eqn:E; [exact I | | lia].
  apply signed_nonneg, binary_round_sign.
Qed.

Lemma of_nat_above (n : nat) : (0 < n)%nat -> above 0 (of_nat n).
Proof.
  intros Hn. unfold of_nat, of_Z, binary_normalize.
  destruct (Z.of_nat n) as [|p|p] eqn:E; [lia | | lia].
  apply binary_round_above; lia.
Qed.

(** ** Sign and magnitude of the operations *)

Lemma above_nonneg (t : Z) (x : float) : above t x -> nonneg x.
Proof. destruct x; simpl; tauto. Qed.

Lemma above_weaken (t t' : Z) (x : float) : t' <= t -> above t x -> above t' x.
Proof. destruct x; simpl; intuition lia. Qed.

Lemma above_is_pos (t : Z) (x : float) : above t x -> is_pos x.
Proof.
  unfold is_pos. destruct x as [| | |s m e]; simpl; try tauto.
  intros (-> & He & _). repeat split; lia.
Qed.

Lemma mul_nonneg (x : float) (m : positive) (e : Z) :
  nonneg x -> nonneg (mul x (S754_finite false m e)).
Proof.
  destruct x as [s|s| |s mx ex]; simpl; intros H; try tauto.
  - subst s. reflexivity.
  - destruct H as [-> He]. simpl xorb.
    apply signed_nonneg, binary_round_aux_sign. lia.
Qed.

Lemma mul_above (t1 t2 : Z) (x y : float) :
  above t1 x -> above t2 y -> -1074 <= t1 + t2 -> above (t1 + t2) (mul x y).
Proof.
  destruct x as [s|s| |s mx ex], y as [s'|s'| |s' my ey]; simpl; try tauto.
  - intros -> ->. reflexivity.
  - intros -> (-> & _). reflexivity.
  - intros (-> & _) ->. reflexivity.
  - intros (-> & Hx & Htx) (-> & Hy & Hty) Ht. simpl xorb.
    pose proof (digits2_mul mx my) as Hd.
    apply binary_round_aux_above; simpl; lia.
Qed.

Lemma add_nonneg (x y : float) : nonneg x -> nonneg y -> nonneg (add x y).
Proof.
  destruct x as [s|s| |s mx ex], y as [s'|s'| |s' my ey]; simpl; try tauto.
  - intros _ _. destruct s, s'; exact I.
  - intros -> ->. reflexivity.
  - intros (-> & Hx) (-> & Hy). simpl.
    apply signed_nonneg, binary_round_sign.
Qed.

Lemma add_above_l (t : Z) (x y : float) : above t x -> nonneg y -> above t (add x y).
Proof.
  destruct x as [s|s| |s mx ex], y as [s'|s'| |s' my ey]; simpl; try tauto.
  - intros -> ->. reflexivity.
  - intros (-> & Hx & Ht) (-> & Hy). simpl.
    destruct (shl_align_digits mx ex (Z.min ex ey)) as (_ & Hd & Hm); [lia|].
    set (a := fst (shl_align mx ex (Z.min ex ey))) in *.
    set (b := fst (shl_align my ey (Z.min ex ey))).
    assert (Hab : Zpos (digits2_pos a) <= Zpos (digits2_pos (a + b)))
      by (apply digits2_mono; lia).
    apply binary_round_above; lia.
Qed.

Lemma add_above_r (t : Z) (x y : float) : nonneg x -> above t y -> above t (add x y).
Proof.
  destruct x as [s|s| |s mx ex], y as [s'|s'| |s' my ey]; simpl; try tauto.
  - intros -> ->. reflexivity.
  - intros (-> & Hx) (-> & Hy & Ht). simpl.
    destruct (shl_align_digits my ey (Z.min ex ey)) as (_ & Hd & Hm); [lia|].
    set (a := fst (shl_align mx ex (Z.min ex ey))).
    set (b := fst (shl_align my ey (Z.min ex ey))) in *.
    assert (Hab : Zpos (digits2_pos b) <= Zpos (digits2_pos (a + b)))
      by (apply digits2_mono; lia).
    apply binary_round_above; lia.
Qed.

Lemma div_nonneg (x : float) (m : positive) (e : Z) :
  nonneg x -> nonneg (div x (S754_finite false m e)).
Proof.
  destruct x as [s|s| |s mx ex]; simpl; intros H; try tauto.
  - subst s. reflexivity.
  - destruct H as [-> He]. simpl xorb.
    unfold SFdiv_core_binary.
    set (e' := Z.min _ _).
    set (m' := match ex - e - e' with Z0 => _ | Zpos _ => _ | Zneg _ => _ end).
    assert (Hm' : 0 <= m').
    { unfold m'. destruct (ex - e - e'); try lia. apply Z.shiftl_nonneg. lia. }
    pose proof (Z.div_pos m' (Zpos m) Hm' ltac:(lia)) as Hq.
    unfold Z.div in Hq.
    destruct (Z.div_eucl m' (Zpos m)) as [q r]. simpl in Hq.
    apply signed_nonneg, binary_round_aux_sign, Hq.
Qed.

(** A difference of non-negative values that tests positive is a
    well-formed positive value. *)
Lemma sub_is_pos (x y : float) :
  nonneg x -> nonneg y -> ltb zero (sub x y) = true -> is_pos (sub x y).
Proof.
  unfold is_pos.
  destruct x as [s|s| |s mx ex], y as [s'|s'| |s' my ey]; simpl; try tauto.
  - intros _ _. destruct s, s'; discriminate.
  - intros _ ->. discriminate.
  - intros _ (-> & _). discriminate.
  - intros -> ->. discriminate.
  - intros (-> & Hx) _ _. repeat split; lia.
  - intros _ ->. discriminate.
  - intros (-> & Hx) (-> & Hy). simpl cond_Zopp. unfold binary_normalize.
    destruct (Zpos (fst (shl_align mx ex (Z.min ex ey)))
              - Zpos (fst (shl_align my ey (Z.min ex ey)))) as [|p|p].
    + discriminate.
    + pose proof (binary_round_sign false p (Z.min ex ey)) as Hs.
      destruct (binary_round prec emax false p (Z.min ex ey)) as [s|s| |s m e];
        simpl in Hs; try discriminate; try tauto.
      destruct Hs as [-> He]. intros _. simpl. repeat split; lia.
    + pose proof (binary_round_sign true p (Z.min ex ey)) as Hs.
      destruct (binary_round prec emax true p (Z.min ex ey)) as [s|s| |s m e];
        simpl in Hs; try discriminate; try tauto.
      * subst s. discriminate.
      * destruct Hs as [-> _]. discriminate.
Qed.

(** ** The constants of the source are the decimal literals *)

Lemma decimal_literals :
  c0_3 = decimal 3 10 /\ c0_4 = decimal 4 10 /\ c0_6 = decimal 6 10 /\
  c0_7 = decimal 7 10 /\ c1_2 = decimal 12 10 /\ c1_3 = decimal 13 10 /\
  c1_5 = decimal 15 10 /\ c5_0 = of_Z 5 /\ one = of_Z 1 /\ zero = of_Z 0.
Proof. repeat split; vm_compute; reflexivity. Qed.

(** ** Comparisons *)

Lemma SFcompare_antisym (x y : float) :
  SFcompare x y = option_map CompOpp (SFcompare y x).
Proof.
  destruct x as [s|s| |s mx ex], y as [s'|s'| |s' my ey]; simpl;
    try reflexivity; try (destruct s; reflexivity); try (destruct s'; reflexivity);
    try (destruct s, s'; reflexivity).
  change (Pos.compare_cont Eq mx my) with (Pos.compare mx my).
  change (Pos.compare_cont Eq my mx) with (Pos.compare my mx).
  rewrite (Z.compare_antisym ey ex), (Pos.compare_antisym my mx).
  destruct s, s'; simpl; try reflexivity;
    destruct (ey ?= ex); simpl; try reflexivity;
    destruct (my ?= mx)%positive; reflexivity.
Qed.

Lemma not_ltb_leb (x y : float) :
  x <> S754_nan -> y <> S754_nan -> ltb y x = false -> leb x y = true.
Proof.
  intros Hx Hy. unfold ltb, leb, SFltb, SFleb.
  rewrite (SFcompare_antisym x y).
  destruct (SFcompare y x) as [[]|] eqn:E; simpl; try reflexivity; try discriminate.
  destruct x, y; simpl in E; congruence.
Qed.

Lemma nonneg_not_nan (x : float) : nonneg x -> x <> S754_nan.
Proof. destruct x; simpl; intros H; [discriminate | discriminate | tauto | discriminate]. Qed.

Lemma leb_zero_nonneg (x : float) : nonneg x -> leb zero x = true.
Proof.
  destruct x as [s|s| |s m e]; simpl; try tauto; try reflexivity.
  - intros ->. reflexivity.
  - intros [-> _]. reflexivity.
Qed.

Lemma ltb_zero_above (t : Z) (x : float) : above t x -> ltb zero x = true.
Proof.
  destruct x as [s|s| |s m e]; simpl; try tauto.
  - intros ->. reflexivity.
  - intros [-> _]. reflexivity.
Qed.

Lemma ltb_zero_zero : ltb zero zero = false.
Proof. reflexivity. Qed.

(** On well-formed positive values [ltb] is the lexicographic order of
    exponent and mantissa, with [+inf] on top. *)
Lemma ltb_finite (m1 m2 : positive) (e1 e2 : Z) :
  ltb (S754_finite false m1 e1) (S754_finite false m2 e2) = true <->
  e1 < e2 \/ (e1 = e2 /\ (m1 < m2)%positive).
Proof.
  unfold ltb, SFltb. simpl.
  change (Pos.compare_cont Eq m1 m2) with (Pos.compare m1 m2).
  destruct (Z.compare_spec e1 e2) as [H|H|H].
  - destruct (Pos.compare_spec m1 m2) as [H'|H'|H']; split; intros; try discriminate;
      try reflexivity; lia.
  - split; intros; [lia | reflexivity].
  - split; intros; [discriminate | lia].
Qed.

Lemma ltb_irrefl (x : float) : ltb x x = false.
Proof.
  destruct x as [s|s| |s m e]; try reflexivity; try (destruct s; reflexivity).
  unfold ltb, SFltb. simpl. rewrite Z.compare_refl.
  change (Pos.compare_cont Eq m m) with (Pos.compare m m). rewrite Pos.compare_refl.
  destruct s; reflexivity.
Qed.

Ltac float_cases :=
  intros;
  repeat match goal with
         | H : _ /\ _ |- _ => destruct H
         | H : ?s = false |- _ => subst s
         | H : False |- _ => destruct H
         end;
  try discriminate; try reflexivity.

Lemma ltb_trans_pos (x y z : float) :
  is_pos x -> is_pos y -> is_pos z ->
  ltb x y = true -> ltb y z = true -> ltb x z = true.
Proof.
  unfold is_pos.
  destruct x as [s|s| |s mx ex], y as [s'|s'| |s' my ey], z as [s''|s''| |s'' mz ez];
    simpl; float_cases.
  rewrite ltb_finite in *. lia.
Qed.

Lemma ltb_asym_pos (x y : float) :
  is_pos x -> is_pos y -> ltb x y = true -> ltb y x = false.
Proof.
  intros Hx Hy H. destruct (ltb y x) eqn:E; [|reflexivity].
  pose proof (ltb_trans_pos x y x Hx Hy Hx H E) as H'.
  rewrite ltb_irrefl in H'. discriminate.
Qed.

(** [ltb] is a strict total order on positive values in the following
    sense: not being below is transitive. *)
Lemma not_ltb_trans_pos (x y z : float) :
  is_pos x -> is_pos y -> is_pos z ->
  ltb x y = false -> ltb y z = false -> ltb x z = false.
Proof.
  unfold is_pos.
  destruct x as [s|s| |s mx ex], y as [s'|s'| |s' my ey], z as [s''|s''| |s'' mz ez];
    simpl; float_cases.
  destruct (ltb (S754_finite false mx ex) (S754_finite false mz ez)) eqn:E;
    [|reflexivity].
  apply ltb_finite in E.
  assert (N1 : ~ (ex < ey \/ ex = ey /\ (mx < my)%positive))
    by (rewrite <- ltb_finite; congruence).
  assert (N2 : ~ (ey < ez \/ ey = ez /\ (my < mz)%positive))
    by (rewrite <- ltb_finite; congruence).
  lia.
Qed.

(** ** [pymin] *)

Lemma pymin_le (a b : float) : nonneg a -> nonneg b -> leb (pymin a b) b = true.
Proof.
  intros Ha Hb. unfold pymin. destruct (ltb b a) eqn:E.
  - apply not_ltb_leb; try apply nonneg_not_nan; auto. apply ltb_irrefl.
  - apply not_ltb_leb; try apply nonneg_not_nan; auto.
Qed.

Lemma pymin_nonneg (a b : float) : nonneg a -> nonneg b -> nonneg (pymin a b).
Proof. intros Ha Hb. unfold pymin. destruct (ltb b a); assumption. Qed.

Lemma pymin_above (t : Z) (a b : float) : above t a -> above t b -> above t (pymin a b).
Proof. intros Ha Hb. unfold pymin. destruct (ltb b a); assumption. Qed.

End F64Facts.

(* ================================================================== *)
(** * Rounding is monotone *)
(* ================================================================== *)

Module F64Round.

Import F64 F64Facts.
Local Open Scope Z_scope.

(** ** What shifting right computes *)

Lemma iter_pos_nat {A : Type} (f : A -> A) (p : positive) (x : A) :
  iter_pos f p x = Nat.iter (Pos.to_nat p) f x.
Proof.
  revert x. induction p as [p IH | p IH |]; intros x; cbn [iter_pos].
  - rewrite !IH, Pos2Nat.inj_xI.
    replace (S (2 * Pos.to_nat p)) with (Pos.to_nat p + (Pos.to_nat p + 1))%nat by lia.
    rewrite !Nat.iter_add. reflexivity.
  - rewrite !IH, Pos2Nat.inj_xO.
    replace (2 * Pos.to_nat p)%nat with (Pos.to_nat p + Pos.to_nat p)%nat by lia.
    rewrite Nat.iter_add. reflexivity.
  - reflexivity.
Qed.

Lemma shr_1_fields (mrs : shr_record) :
  0 <= shr_m mrs ->
  shr_m (shr_1 mrs) = shr_m mrs / 2 /\
  shr_r (shr_1 mrs) = Z.odd (shr_m mrs) /\
  shr_s (shr_1 mrs) = shr_r mrs || shr_s mrs.
Proof.
  destruct mrs as [m r s]. cbn [shr_m shr_r shr_s]. intros Hm.
  destruct m as [|[p|p|]|p]; cbn [shr_1 shr_m shr_r shr_s]; try lia.
  - repeat split.
  - repeat split. rewrite Pos2Z.inj_xI.
    apply (Z.div_unique_pos _ 2 _ 1); lia.
  - repeat split. rewrite Pos2Z.inj_xO.
    apply (Z.div_unique_pos _ 2 _ 0); lia.
  - repeat split.
Qed.

Lemma shifted_steps (M : Z) (k : nat) :
  0 <= M ->
  shifted M k (Nat.iter k shr_1 {| shr_m := M; shr_r := false; shr_s := false |}).
Proof.
  intros HM. induction k as [|k IH].
  - unfold shifted. simpl. rewrite Z.div_1_r, Z.mod_1_r. auto.
  - simpl Nat.iter. set (rec := Nat.iter k shr_1 _) in *.
    destruct IH as [Hm Hloc].
    assert (Hp : 0 < 2 ^ Z.of_nat k) by (apply Z.pow_pos_nonneg; lia).
    assert (Hm0 : 0 <= shr_m rec) by (rewrite Hm; apply Z.div_pos; lia).
    destruct (shr_1_fields rec Hm0) as (E1 & E2 & E3).
    assert (Hpow : 2 ^ Z.of_nat (S k) = 2 ^ Z.of_nat k * 2)
      by (rewrite Nat2Z.inj_succ, Z.pow_succ_r by lia; lia).
    assert (Hdiv : M / 2 ^ Z.of_nat (S k) = (M / 2 ^ Z.of_nat k) / 2)
      by (rewrite Hpow, Z.div_div by lia; reflexivity).
    assert (Hmod : M mod 2 ^ Z.of_nat (S k)
                   = M mod 2 ^ Z.of_nat k + 2 ^ Z.of_nat k * ((M / 2 ^ Z.of_nat k) mod 2))
      by (rewrite Hpow; apply Z.rem_mul_r; lia).
    assert (Hr : 0 <= M mod 2 ^ Z.of_nat k < 2 ^ Z.of_nat k) by (apply Z.mod_pos_bound; lia).
    unfold shifted. rewrite E1, E2, E3, Hm, Hdiv. split; [reflexivity|].
    rewrite Hmod, Hpow.
    rewrite <- Hm in *.
    pose proof (Zmod_odd (shr_m rec)) as Hodd.
    destruct (Z.odd (shr_m rec)); rewrite Hodd;
      destruct Hloc as [(-> & -> & Hz) | [(-> & -> & Hz) | [(-> & -> & Hz) | (-> & -> & Hz)]]];
      cbn [orb];
      first [ left; repeat split; solve [reflexivity | lia]
            | right; left; repeat split; solve [reflexivity | lia]
            | right; right; left; repeat split; solve [reflexivity | lia]
            | right; right; right; repeat split; solve [reflexivity | lia] ].
Qed.

Lemma round_shifted (M : Z) (k : nat) (mrs : shr_record) :
  0 <= M -> shifted M k mrs ->
  round_nearest_even (shr_m mrs) (loc_of_shr_record mrs) = rne M (2 ^ Z.of_nat k).
Proof.
  intros HM [Hm Hloc]. unfold rne. rewrite <- Hm.
  destruct mrs as [m r s]. cbn [shr_m shr_r shr_s] in *.
  assert (Hodd : Z.odd m = negb (Z.even m)) by (rewrite <- Z.negb_even; reflexivity).
  destruct Hloc as [(-> & -> & Hz) | [(-> & -> & Hz) | [(-> & -> & Hz) | (-> & -> & Hz)]]];
    cbn [loc_of_shr_record round_nearest_even].
  - rewrite Hz. assert (Hp : 0 < 2 ^ Z.of_nat k) by (apply Z.pow_pos_nonneg; lia).
    destruct (2 ^ Z.of_nat k <? 2 * 0) eqn:E1; [apply Z.ltb_lt in E1; lia|].
    destruct (2 * 0 =? 2 ^ Z.of_nat k) eqn:E2; [apply Z.eqb_eq in E2; lia|].
    reflexivity.
  - destruct (2 ^ Z.of_nat k <? 2 * (M mod 2 ^ Z.of_nat k)) eqn:E1;
      [apply Z.ltb_lt in E1; lia|].
    destruct (2 * (M mod 2 ^ Z.of_nat k) =? 2 ^ Z.of_nat k) eqn:E2;
      [apply Z.eqb_eq in E2; lia|].
    reflexivity.
  - destruct (2 ^ Z.of_nat k <? 2 * (M mod 2 ^ Z.of_nat k)) eqn:E1;
      [apply Z.ltb_lt in E1; lia|].
    rewrite Hz, Z.eqb_refl, Hodd. simpl. destruct (Z.even m); reflexivity.
  - destruct (2 ^ Z.of_nat k <? 2 * (M mod 2 ^ Z.of_nat k)) eqn:E1;
      [reflexivity | apply Z.ltb_ge in E1; lia].
Qed.

(** ** Rounding to nearest even on a grid *)

Lemma rne_bounds (x G : Z) : x / G <= rne x G <= x / G + 1.
Proof. unfold rne. destruct (_ || _); lia. Qed.




(** ** What [binary_round_aux] returns *)

Lemma digits2_unique (p : positive) (k : Z) :
  2 ^ (k - 1) <= Zpos p < 2 ^ k -> Zpos (digits2_pos p) = k.
Proof.
  intros [H1 H2]. destruct (digits2_bounds p) as [B1 B2].
  assert (Hk : 0 < k).
  { destruct (Z_lt_le_dec 0 k) as [|Hk]; [assumption|].
    destruct (Z.eq_dec k 0) as [->|]; [simpl in H2; lia|].
    rewrite (Z.pow_neg_r 2 k) in H2 by lia. lia. }
  assert (L1 : 2 ^ (k - 1) < 2 ^ Zpos (digits2_pos p)) by lia.
  assert (L2 : 2 ^ (Zpos (digits2_pos p) - 1) < 2 ^ k) by lia.
  apply Z.pow_lt_mono_r_iff in L1; [|lia|lia].
  apply Z.pow_lt_mono_r_iff in L2; lia.
Qed.

(** The quotient of a [d]-digit mantissa by [2^n] has [d - n] digits. *)
Lemma quotient_bounds (M : positive) (n : Z) :
  0 <= n < Zpos (digits2_pos M) ->
  2 ^ (Zpos (digits2_pos M) - n - 1) <= Zpos M / 2 ^ n < 2 ^ (Zpos (digits2_pos M) - n).
Proof.
  intros Hn. destruct (digits2_bounds M) as [B1 B2].
  set (d := Zpos (digits2_pos M)) in *.
  assert (Hp : 0 < 2 ^ n) by (apply Z.pow_pos_nonneg; lia).
  split.
  - apply Z.div_le_lower_bound; [exact Hp|].
    rewrite <- Z.pow_add_r by lia. replace (n + (d - n - 1)) with (d - 1) by lia. exact B1.
  - apply Z.div_lt_upper_bound; [exact Hp|].
    rewrite <- Z.pow_add_r by lia. replace (n + (d - n)) with d by lia. exact B2.
Qed.

Lemma quotient_small (M : positive) (n : Z) :
  Zpos (digits2_pos M) <= n -> Zpos M / 2 ^ n = 0.
Proof.
  intros Hn. destruct (digits2_bounds M) as [B1 B2].
  apply Z.div_small. split; [lia|].
  eapply Z.lt_le_trans; [exact B2|]. apply Z.pow_le_mono_r; lia.
Qed.

Lemma fexp_eq (mu : Z) : fexp prec emax mu = Z.max (mu - 53) (-1074).
Proof. reflexivity. Qed.

Lemma shr_fexp_rne (M : positive) (E : Z) :
  E <= fexp prec emax (Zpos (digits2_pos M) + E) ->
  snd (shr_fexp prec emax (Zpos M) E loc_Exact) = fexp prec emax (Zpos (digits2_pos M) + E) /\
  round_nearest_even (shr_m (fst (shr_fexp prec emax (Zpos M) E loc_Exact)))
    (loc_of_shr_record (fst (shr_fexp prec emax (Zpos M) E loc_Exact)))
  = rne (Zpos M) (2 ^ (fexp prec emax (Zpos (digits2_pos M) + E) - E)).
Proof.
  intros Hle. unfold shr_fexp, shr. cbn [Zdigits2 shr_record_of_loc].
  set (g := fexp prec emax (Zpos (digits2_pos M) + E)) in *.
  destruct (g - E) as [|p|p] eqn:En; [| |lia]; cbn [fst snd].
  - split; [lia|]. cbn [shr_m loc_of_shr_record round_nearest_even].
    unfold rne. rewrite Z.pow_0_r, Z.mod_1_r, Z.div_1_r. reflexivity.
  - split; [lia|]. rewrite iter_pos_nat.
    rewrite (round_shifted (Zpos M) (Pos.to_nat p)); [| lia | apply shifted_steps; lia].
    rewrite positive_nat_Z. reflexivity.
Qed.

(** A non-zero rounded mantissa [m1] at exponent [g] is stored as it is,
    or, when it has reached [2^53], as [2^52] at exponent [g + 1]. *)
Lemma shr_fexp_renorm (p1 : positive) (g : Z) :
  -1074 <= g -> Zpos p1 <= 2 ^ 53 ->
  (Zpos p1 < 2 ^ 53 -> fexp prec emax (Zpos (digits2_pos p1) + g) = g) ->
  exists m e,
    shr_m (fst (shr_fexp prec emax (Zpos p1) g loc_Exact)) = Zpos m /\
    snd (shr_fexp prec emax (Zpos p1) g loc_Exact) = e /\
    fexp prec emax (Zpos (digits2_pos m) + e) = e /\ g <= e /\
    Zpos m * 2 ^ (e - g) = Zpos p1.
Proof.
  intros Hg Hle Hcanon.
  destruct (Z_lt_le_dec (Zpos p1) (2 ^ 53)) as [Hlt|Hge].
  - exists p1, g. unfold shr_fexp, shr. cbn [Zdigits2 shr_record_of_loc].
    rewrite (Hcanon Hlt), !Z.sub_diag. cbn [fst snd shr_m].
    rewrite Z.pow_0_r. repeat split; lia.
  - assert (E1 : p1 = 9007199254740992%positive) by (change (2 ^ 53) with 9007199254740992 in *; lia).
    subst p1. exists 4503599627370496%positive, (g + 1).
    unfold shr_fexp, shr. cbn [Zdigits2 shr_record_of_loc].
    replace (fexp prec emax (Zpos (digits2_pos 9007199254740992) + g) - g) with 1
      by (rewrite fexp_eq; change (Zpos (digits2_pos 9007199254740992)) with 54; lia).
    cbn [fst snd]. split; [reflexivity|]. split; [reflexivity|].
    split; [rewrite fexp_eq; change (Zpos (digits2_pos 4503599627370496)) with 53; lia|].
    split; [lia|].
    replace (g + 1 - g) with 1 by lia. reflexivity.
Qed.

Lemma binary_round_aux_rne (s : bool) (M : positive) (E : Z) :
  E <= fexp prec emax (Zpos (digits2_pos M) + E) ->
  let g := fexp prec emax (Zpos (digits2_pos M) + E) in
  let m1 := rne (Zpos M) (2 ^ (g - E)) in
  (m1 = 0 /\ binary_round_aux prec emax s (Zpos M) E loc_Exact = S754_zero s) \/
  (exists m e,
     binary_round_aux prec emax s (Zpos M) E loc_Exact = pack s m e /\
     fexp prec emax (Zpos (digits2_pos m) + e) = e /\ g <= e /\
     Zpos m * 2 ^ (e - g) = m1).
Proof.
  intros Hle. cbv zeta.
  destruct (shr_fexp_rne M E Hle) as [He Hr].
  remember (fexp prec emax (Zpos (digits2_pos M) + E)) as g eqn:Eg.
  rewrite fexp_eq in Eg.
  remember (Zpos (digits2_pos M)) as d eqn:Ed.
  remember (g - E) as n eqn:En.
  remember (rne (Zpos M) (2 ^ n)) as m1 eqn:Em1.
  assert (Hg : -1074 <= g) by lia.
  assert (Hn : 0 <= n) by lia.
  assert (Hpn : 0 < 2 ^ n) by (apply Z.pow_pos_nonneg; lia).
  assert (Hq0 : 0 <= Zpos M / 2 ^ n) by (apply Z.div_pos; lia).
  pose proof (rne_bounds (Zpos M) (2 ^ n)) as Hb. rewrite <- Em1 in Hb.
  unfold binary_round_aux.
  destruct (shr_fexp prec emax (Zpos M) E loc_Exact) as [mrs' e'] eqn:E1.
  cbn [fst snd] in He, Hr. subst e'. rewrite Hr.
  destruct m1 as [|p1|p1]; [left | right | lia].
  - split; [reflexivity|].
    unfold shr_fexp, shr. cbn [Zdigits2 shr_record_of_loc].
    destruct (fexp prec emax (0 + g) - g) as [|p|p] eqn:En2; cbn [fst snd shr_m];
      try reflexivity.
    rewrite fexp_eq in En2. lia.
  - (* the size of the rounded mantissa *)
    assert (Hsize : Zpos p1 <= 2 ^ 53 /\
                    (Zpos p1 < 2 ^ 53 -> fexp prec emax (Zpos (digits2_pos p1) + g) = g)).
    { rewrite fexp_eq.
      destruct (Z_lt_le_dec (d + E - 53) (-1074)) as [Hsub|Hnorm].
      - (* subnormal range: the exponent is the minimal one *)
        assert (Eg' : g = -1074) by lia.
        assert (Hq : Zpos M / 2 ^ n < 2 ^ 52).
        { destruct (Z_lt_le_dec n d) as [Hnd|Hnd].
          - destruct (quotient_bounds M n) as [_ Hq]; [rewrite <- Ed; lia|].
            rewrite <- Ed in Hq.
            eapply Z.lt_le_trans; [exact Hq|]. apply Z.pow_le_mono_r; lia.
          - rewrite (quotient_small M n) by (rewrite <- Ed; lia). reflexivity. }
        assert (Hp1 : Zpos p1 <= 2 ^ 52) by lia.
        split; [change (2 ^ 53) with (2 * 2 ^ 52); lia|]. intros _.
        destruct (digits2_bounds p1) as [B1 _].
        assert (Hd1 : Zpos (digits2_pos p1) <= 53).
        { destruct (Z_le_gt_dec (Zpos (digits2_pos p1)) 53) as [|Hgt]; [assumption|].
          assert (2 ^ 53 <= 2 ^ (Zpos (digits2_pos p1) - 1)) by (apply Z.pow_le_mono_r; lia).
          change (2 ^ 53) with (2 * 2 ^ 52) in *. lia. }
        lia.
      - (* normal range: 53 digits are kept *)
        assert (Eg' : g = d + E - 53) by lia.
        assert (En' : n = d - 53) by lia.
        destruct (quotient_bounds M n) as [Hq1 Hq2]; [rewrite <- Ed; lia|].
        rewrite <- Ed in Hq1, Hq2.
        replace (d - n - 1) with 52 in Hq1 by lia.
        replace (d - n) with 53 in Hq2 by lia.
        split; [lia|]. intros Hlt.
        rewrite (digits2_unique p1 53) by (change (53 - 1) with 52; lia). lia. }
    destruct Hsize as [Hs1 Hs2].
    destruct (shr_fexp_renorm p1 g Hg Hs1 Hs2) as (m & e & Hm & He & Hc & Hge & Hv).
    destruct (shr_fexp prec emax (Zpos p1) g loc_Exact) as [mrs'' e''].
    cbn [fst snd] in Hm, He. subst e''. rewrite Hm.
    exists m, e. unfold pack. repeat split; assumption.
Qed.

(** ** Canonical pairs are ordered like their values *)





(** ** Rounding as a function of the value *)





(** ** The operations return canonical values *)

Lemma pack_canonical (s : bool) (m : positive) (e : Z) :
  fexp prec emax (Zpos (digits2_pos m) + e) = e -> canonical (pack s m e).
Proof.
  intros H. unfold pack. destruct (e <=? emax - prec) eqn:O; [|exact I].
  apply Z.leb_le in O. split; [exact H | exact O].
Qed.

Lemma binary_round_aux_canonical (s : bool) (M : positive) (E : Z) :
  E <= fexp prec emax (Zpos (digits2_pos M) + E) ->
  canonical (binary_round_aux prec emax s (Zpos M) E loc_Exact).
Proof.
  intros Hle. pose proof (binary_round_aux_rne s M E Hle) as H. cbv zeta in H.
  destruct H as [[_ ->] | (m & e & -> & Hc & _)]; [exact I | apply pack_canonical, Hc].
Qed.

Lemma iter_xO_value (m d : positive) : Zpos (Pos.iter xO m d) = Zpos m * 2 ^ Zpos d.
Proof.
  induction d as [|d IH] using Pos.peano_ind.
  - simpl. lia.
  - rewrite Pos.iter_succ, Pos2Z.inj_xO, IH, Pos2Z.inj_succ, Z.pow_succ_r by lia. ring.
Qed.

(** Aligning to the exponent that the magnitude calls for keeps the value
    and leaves an exponent that needs no shift to the left. *)
Lemma shl_align_fexp (m : positive) (e : Z) :
  let mz := fst (shl_align m e (fexp prec emax (Zpos (digits2_pos m) + e))) in
  let ez := snd (shl_align m e (fexp prec emax (Zpos (digits2_pos m) + e))) in
  ez <= fexp prec emax (Zpos (digits2_pos mz) + ez) /\ ez <= e /\
  (-1074 <= e -> -1074 <= ez) /\
  forall E0, E0 <= ez -> scaled mz ez E0 = scaled m e E0.
Proof.
  cbv zeta. unfold shl_align.
  remember (fexp prec emax (Zpos (digits2_pos m) + e)) as g eqn:Eg.
  assert (Hg : -1074 <= g) by (rewrite Eg, fexp_eq; lia).
  destruct (g - e) as [|p|p] eqn:En; cbn [fst snd].
  - rewrite <- Eg. repeat split; try lia.
  - rewrite <- Eg. repeat split; try lia.
  - rewrite digits2_shift, Pos2Z.inj_add.
    replace (Zpos (digits2_pos m) + Zpos p + g) with (Zpos (digits2_pos m) + e) by lia.
    rewrite <- Eg. repeat split; try lia.
    intros E0 H0. unfold scaled. rewrite iter_xO_value.
    replace (e - E0) with (Zpos p + (g - E0)) by lia.
    rewrite Z.pow_add_r by lia. ring.
Qed.

Lemma binary_round_canonical (s : bool) (m : positive) (e : Z) :
  canonical (binary_round prec emax s m e).
Proof.
  unfold binary_round. pose proof (shl_align_fexp m e) as H. cbv zeta in H.
  destruct (shl_align m e (fexp prec emax (Zpos (digits2_pos m) + e))) as [mz ez].
  cbn [fst snd] in H. apply binary_round_aux_canonical. tauto.
Qed.

Lemma binary_normalize_canonical (z e : Z) (s : bool) :
  canonical (binary_normalize prec emax z e s).
Proof. destruct z; simpl; [exact I | apply binary_round_canonical ..]. Qed.

Lemma of_nat_canonical (n : nat) : canonical (of_nat n).
Proof. apply binary_normalize_canonical. Qed.


Lemma add_canonical (x y : float) : canonical x -> canonical y -> canonical (add x y).
Proof.
  destruct x as [sx|sx| |sx mx ex], y as [sy|sy| |sy my ey]; intros Hx Hy;
    try exact I; try exact Hx; try exact Hy;
    try (destruct sx, sy; exact I).
  unfold add, SFadd. apply binary_normalize_canonical.
Qed.





(** ** Monotonicity of the operations the engine uses *)











(** ** Order of positive values *)

Lemma ltb_le_trans_pos (x y z : float) :
  is_pos x -> is_pos y -> is_pos z ->
  ltb x y = true -> ltb z y = false -> ltb x z = true.
Proof.
  intros Hx Hy Hz H1 H2.
  destruct (ltb x z) eqn:E; [reflexivity|].
  (* not (x < z) and not (z < y) give not (x < y) *)
  rewrite (not_ltb_trans_pos x z y Hx Hz Hy E H2) in H1. discriminate.
Qed.



End F64Round.

Import F64Facts F64Round.

(* ================================================================== *)
(** * Facts about the engine *)
(* ================================================================== *)

(** * Ordered dictionaries *)

Section DictFacts.

Context {V : Type}.
Implicit Types (d : dict V) (k : string) (v : V).

Lemma dict_get_set_eq k v d : dict_get k (dict_set k v d) = Some v.
Proof.
  induction d as [|[k' v'] d IH]; simpl.
  - rewrite String.eqb_refl. reflexivity.
  - destruct (String.eqb k k') eqn:E; simpl; rewrite E; [reflexivity | exact IH].
Qed.

Lemma dict_get_set_neq k k' v d : k <> k' -> dict_get k' (dict_set k v d) = dict_get k' d.
Proof.
  intros Hne. induction d as [|[k0 v0] d IH]; simpl.
  - destruct (String.eqb k' k) eqn:E; [|reflexivity].
    apply String.eqb_eq in E. congruence.
  - destruct (String.eqb k k0) eqn:E; simpl.
    + apply String.eqb_eq in E. subst k0.
      destruct (String.eqb k' k) eqn:E'; [|reflexivity].
      apply String.eqb_eq in E'. congruence.
    + rewrite IH. reflexivity.
Qed.

Lemma dict_get_None k d : dict_get k d = None <-> ~ In k (dict_keys d).
Proof.
  induction d as [|[k' v'] d IH]; simpl.
  - tauto.
  - destruct (String.eqb k k') eqn:E.
    + apply String.eqb_eq in E. subst. split; [discriminate | tauto].
    + apply String.eqb_neq in E. rewrite IH. split; [intros H [H'|H']; congruence | tauto].
Qed.

Lemma dict_get_In k v d : dict_get k d = Some v -> In (k, v) d.
Proof.
  induction d as [|[k' v'] d IH]; simpl; [discriminate|].
  destruct (String.eqb k k') eqn:E.
  - apply String.eqb_eq in E. intros [= ->]. subst. left. reflexivity.
  - intros H. right. apply IH, H.
Qed.

Lemma dict_get_NoDup k v d : NoDup (dict_keys d) -> In (k, v) d -> dict_get k d = Some v.
Proof.
  induction d as [|[k' v'] d IH]; simpl; [tauto|].
  intros Hnd [H|H].
  - injection H as -> ->. rewrite String.eqb_refl. reflexivity.
  - inversion Hnd as [|? ? Hnotin Hnd']; subst.
    destruct (String.eqb k k') eqn:E.
    + apply String.eqb_eq in E. subst k'. exfalso. apply Hnotin.
      change k with (fst (k, v)). apply in_map, H.
    + apply IH; assumption.
Qed.

Lemma dict_mem_In k d : dict_mem k d = true <-> In k (dict_keys d).
Proof.
  unfold dict_mem. destruct (dict_get k d) eqn:E.
  - split; [intros _ | reflexivity]. apply dict_get_In in E.
    change k with (fst (k, v)). apply in_map, E.
  - apply dict_get_None in E. split; [discriminate | tauto].
Qed.

Lemma dict_set_fresh k v d : ~ In k (dict_keys d) -> dict_set k v d = d ++ [(k, v)].
Proof.
  induction d as [|[k' v'] d IH]; simpl; [reflexivity|].
  intros H. destruct (String.eqb k k') eqn:E.
  - apply String.eqb_eq in E. subst. tauto.
  - rewrite IH by tauto. reflexivity.
Qed.

Lemma dict_keys_set k v d : In k (dict_keys d) -> dict_keys (dict_set k v d) = dict_keys d.
Proof.
  induction d as [|[k' v'] d IH]; simpl; [tauto|].
  intros H. destruct (String.eqb k k') eqn:E; simpl; [reflexivity|].
  apply String.eqb_neq in E. rewrite IH; [reflexivity|].
  destruct H; congruence.
Qed.

Lemma dict_keys_app d d' : dict_keys (d ++ d') = dict_keys d ++ dict_keys d'.
Proof. apply map_app. Qed.

End DictFacts.

(** * [max] over the keys of a score map *)

Section MaxFacts.

Variable f : string -> F64.float.

Lemma max_from_In cur rest : In (max_from f cur rest) (cur :: rest).
Proof.
  revert cur. induction rest as [|k rest IH]; intros cur; simpl.
  - left. reflexivity.
  - destruct (F64.ltb (f cur) (f k)).
    + destruct (IH k) as [H|H]; [right; left; exact H | right; right; exact H].
    + destruct (IH cur) as [H|H]; [left; exact H | right; right; exact H].
Qed.

(** The running maximum never decreases, and the result is not strictly
    below any key, as long as all keys have positive values. *)
Lemma max_from_ge cur rest :
  (forall k, In k (cur :: rest) -> F64.is_pos (f k)) ->
  F64.ltb (f (max_from f cur rest)) (f cur) = false /\
  forall k, In k rest -> F64.ltb (f (max_from f cur rest)) (f k) = false.
Proof.
  revert cur. induction rest as [|k rest IH]; intros cur Hpos; simpl.
  - split; [apply ltb_irrefl | tauto].
  - assert (Hcur : F64.is_pos (f cur)) by (apply Hpos; left; reflexivity).
    assert (Hk : F64.is_pos (f k)) by (apply Hpos; right; left; reflexivity).
    destruct (F64.ltb (f cur) (f k)) eqn:E.
    + destruct (IH k) as [H1 H2].
      { intros k' [->|H]; [exact Hk | apply Hpos; right; right; exact H]. }
      assert (Hm : F64.is_pos (f (max_from f k rest))).
      { destruct (max_from_In k rest) as [<-|H]; [exact Hk | apply Hpos; right; right; exact H]. }
      split.
      * apply (not_ltb_trans_pos _ (f k) _ Hm Hk Hcur H1).
        apply ltb_asym_pos; assumption.
      * intros k' [<-|H]; [exact H1 | apply H2, H].
    + destruct (IH cur) as [H1 H2].
      { intros k' [->|H]; [exact Hcur | apply Hpos; right; right; exact H]. }
      split; [exact H1|].
      intros k' [<-|H]; [|apply H2, H].
      assert (Hm : F64.is_pos (f (max_from f cur rest))).
      { destruct (max_from_In cur rest) as [<-|H]; [exact Hcur | apply Hpos; right; right; exact H]. }
      apply (not_ltb_trans_pos _ (f cur) _ Hm Hcur Hk H1 E).
Qed.

Lemma py_max_None keys : py_max f keys = None <-> keys = [].
Proof. destruct keys; simpl; split; congruence. Qed.

Lemma py_max_In keys best : py_max f keys = Some best -> In best keys.
Proof.
  destruct keys as [|k rest]; simpl; [discriminate|].
  intros [= <-]. apply max_from_In.
Qed.

Lemma py_max_ge keys best :
  (forall k, In k keys -> F64.is_pos (f k)) ->
  py_max f keys = Some best ->
  forall k, In k keys -> F64.ltb (f best) (f k) = false.
Proof.
  destruct keys as [|k0 rest]; simpl; [discriminate|].
  intros Hpos [= <-] k [<-|H].
  - apply (proj1 (max_from_ge k0 rest Hpos)).
  - apply (proj2 (max_from_ge k0 rest Hpos)), H.
Qed.

End MaxFacts.

(** * The scoring loops compute the sums of the specification *)

Section EngineFacts.

Context {rt : PyRuntime}.

Lemma findall_len_ok p code :
  compiles_ok p = true -> findall_len p code = ret (match_count p code).
Proof.
  unfold compiles_ok, findall_len, match_count.
  destruct (re_compile p); [reflexivity | discriminate].
Qed.

Lemma findall_len_err p code :
  compiles_ok p = false -> findall_len p code = raise (ReError p).
Proof.
  unfold compiles_ok, findall_len.
  destruct (re_compile p); [discriminate | reflexivity].
Qed.

Lemma scan_patterns_spec fmt ps code : forall count ev,
  forallb compiles_ok ps = true ->
  scan_patterns fmt ps code count ev
  = ret (count + pattern_matches ps code, ev ++ pattern_evidence fmt ps code).
Proof.
  induction ps as [|p ps IH]; intros count ev Hc; simpl.
  - unfold pattern_matches, pattern_evidence. simpl.
    rewrite Nat.add_0_r, app_nil_r. reflexivity.
  - simpl in Hc. apply andb_true_iff in Hc as [Hp Hps].
    rewrite (findall_len_ok p code Hp). simpl.
    unfold pattern_matches, pattern_evidence in *. simpl.
    destruct (0 <? match_count p code) eqn:E; rewrite IH by exact Hps; simpl.
    + rewrite <- app_assoc, Nat.add_assoc. reflexivity.
    + apply Nat.ltb_ge in E.
      replace (match_count p code) with 0 by lia. reflexivity.
Qed.

Lemma scan_keywords_spec fmt ks code : forall count ev,
  scan_keywords fmt ks code count ev
  = (count + keyword_matches ks code, ev ++ keyword_evidence fmt ks code).
Proof.
  induction ks as [|k ks IH]; intros count ev; simpl.
  - unfold keyword_matches, keyword_evidence. simpl.
    rewrite Nat.add_0_r, app_nil_r. reflexivity.
  - unfold keyword_matches, keyword_evidence in *. simpl.
    destruct (keyword_in k code); rewrite IH; simpl.
    + rewrite <- app_assoc. f_equal. lia.
    + reflexivity.
Qed.

Lemma language_score_spec code rules :
  language_score (pattern_matches (patterns rules) code)
    (keyword_matches (keywords rules) code)
    (pattern_matches (anti_patterns rules) code) (weight rules)
  = score_spec code rules.
Proof. reflexivity. Qed.

Lemma _score_language_spec code lang rules :
  forallb compiles_ok (patterns rules ++ anti_patterns rules) = true ->
  _score_language code lang rules = ret (score_spec code rules, evidence_spec code rules).
Proof.
  intros Hc. rewrite forallb_app in Hc. apply andb_true_iff in Hc as [Hp Ha].
  unfold _score_language.
  rewrite (scan_patterns_spec _ _ _ _ _ Hp). simpl.
  rewrite scan_keywords_spec.
  rewrite (scan_patterns_spec _ _ _ _ _ Ha). simpl.
  unfold evidence_spec. rewrite <- app_assoc. reflexivity.
Qed.

Lemma score_languages_spec code table : forall scores evid,
  forallb compiles_ok
    (flat_map (fun kv => patterns (snd kv) ++ anti_patterns (snd kv)) table) = true ->
  NoDup (dict_keys table) ->
  (forall k, In k (dict_keys table) ->
             ~ In k (dict_keys scores) /\ ~ In k (dict_keys evid)) ->
  score_languages code table scores evid
  = ret (scores ++ map (fun kv => (fst kv, score_spec code (snd kv)))
                     (filter (fun kv => F64.ltb F64.zero (score_spec code (snd kv))) table),
         evid ++ map (fun kv => (fst kv, evidence_spec code (snd kv)))
                   (filter (fun kv => F64.ltb F64.zero (score_spec code (snd kv))) table)).
Proof.
  induction table as [|[lang rules] table IH]; intros scores evid Hc Hnd Hfresh; simpl.
  - rewrite !app_nil_r. reflexivity.
  - simpl in Hc. rewrite forallb_app in Hc. apply andb_true_iff in Hc as [Hr Hc].
    rewrite (_score_language_spec code lang rules Hr). simpl.
    inversion Hnd as [|? ? Hnotin Hnd']; subst.
    destruct (Hfresh lang (or_introl eq_refl)) as [Hs He].
    destruct (F64.ltb F64.zero (score_spec code rules)) eqn:E; simpl.
    + rewrite (dict_set_fresh _ _ _ Hs), (dict_set_fresh _ _ _ He).
      rewrite IH; [rewrite <- !app_assoc; reflexivity | exact Hc | exact Hnd' |].
      intros k Hk. destruct (Hfresh k (or_intror Hk)) as [Hks Hke].
      rewrite !dict_keys_app. simpl.
      split; intros H; apply in_app_or in H as [H|[H|[]]]; try tauto;
        subst; apply Hnotin, Hk.
    + apply IH; [exact Hc | exact Hnd' |].
      intros k Hk. apply Hfresh. right. exact Hk.
Qed.

(** ** Sign and positivity of the two score formulas *)

Lemma weight_ok_nonneg w : weight_ok w -> F64.nonneg w.
Proof. intros [H _]. eapply above_nonneg, H. Qed.

Lemma above_c0_7 : F64.above (-1) F64.c0_7.
Proof. simpl. repeat split; lia. Qed.

Lemma above_c0_3 : F64.above (-2) F64.c0_3.
Proof. simpl. repeat split; lia. Qed.

Lemma above_c1_5 : F64.above 0 F64.c1_5.
Proof. simpl. repeat split; lia. Qed.

Lemma nonneg_one : F64.nonneg F64.one.
Proof. simpl. split; [reflexivity | lia]. Qed.

Lemma above_one : F64.above (-1074) F64.one.
Proof. simpl. repeat split; lia. Qed.

Lemma framework_score_nonneg p k w :
  weight_ok w -> F64.nonneg (framework_score p k w).
Proof.
  intros [_ (m & e & -> & _)]. unfold framework_score.
  apply mul_nonneg, add_nonneg; apply mul_nonneg, of_nat_nonneg.
Qed.

(** A framework enters [framework_scores] exactly when its score is
    positive. *)
Lemma framework_score_pos p k w :
  weight_ok w ->
  F64.ltb F64.zero (framework_score p k w) = (0 <? p) || (0 <? k).
Proof.
  intros [Hw (m & e & Ew & _)]. unfold framework_score.
  destruct (0 <? p) eqn:Ep; [|destruct (0 <? k) eqn:Ek]; simpl.
  - apply Nat.ltb_lt in Ep.
    apply (ltb_zero_above (-1 + 0)), mul_above; [| exact Hw | lia].
    apply add_above_l; [| apply mul_nonneg, of_nat_nonneg].
    apply (mul_above 0 (-1)); [apply of_nat_above, Ep | apply above_c0_7 | lia].
  - apply Nat.ltb_lt in Ek.
    apply (ltb_zero_above (-2 + 0)), mul_above; [| exact Hw | lia].
    apply add_above_r; [apply mul_nonneg, of_nat_nonneg |].
    apply (mul_above 0 (-2)); [apply of_nat_above, Ek | apply above_c0_3 | lia].
  - apply Nat.ltb_ge in Ep, Ek.
    replace p with 0 by lia. replace k with 0 by lia. subst w. reflexivity.
Qed.

Lemma framework_score_is_pos p k w :
  weight_ok w -> F64.ltb F64.zero (framework_score p k w) = true ->
  F64.is_pos (framework_score p k w).
Proof.
  intros Hw H. rewrite (framework_score_pos p k w Hw) in H.
  destruct Hw as [Hw _]. unfold framework_score.
  destruct (0 <? p) eqn:Ep; [|destruct (0 <? k) eqn:Ek]; simpl in H; try discriminate.
  - apply Nat.ltb_lt in Ep.
    apply (above_is_pos (-1 + 0)), mul_above; [| exact Hw | lia].
    apply add_above_l; [| apply mul_nonneg, of_nat_nonneg].
    apply (mul_above 0 (-1)); [apply of_nat_above, Ep | apply above_c0_7 | lia].
  - apply Nat.ltb_lt in Ek.
    apply (above_is_pos (-2 + 0)), mul_above; [| exact Hw | lia].
    apply add_above_r; [apply mul_nonneg, of_nat_nonneg |].
    apply (mul_above 0 (-2)); [apply of_nat_above, Ek | apply above_c0_3 | lia].
Qed.

(** A language score that tests positive is a well-formed positive
    double. *)
Lemma language_score_is_pos p k a w :
  weight_ok w -> F64.ltb F64.zero (language_score p k a w) = true ->
  F64.is_pos (language_score p k a w).
Proof.
  intros [_ (m & e & -> & _)]. unfold language_score, F64.pymax.
  match goal with |- context [F64.ltb F64.zero (F64.sub ?x ?y)] =>
    set (b := x); set (q := y) end.
  destruct (F64.ltb F64.zero (F64.sub b q)) eqn:E; [intros _ | discriminate].
  apply sub_is_pos; [| | exact E].
  - apply mul_nonneg, add_nonneg; apply mul_nonneg, of_nat_nonneg.
  - apply mul_nonneg, of_nat_nonneg.
Qed.



Lemma score_spec_is_pos code rules :
  weight_ok (weight rules) -> F64.ltb F64.zero (score_spec code rules) = true ->
  F64.is_pos (score_spec code rules).
Proof. apply language_score_is_pos. Qed.

Lemma fw_score_spec_is_pos code rules :
  weight_ok (fw_weight rules) -> F64.ltb F64.zero (fw_score_spec code rules) = true ->
  F64.is_pos (fw_score_spec code rules).
Proof. apply framework_score_is_pos. Qed.

Lemma score_frameworks_spec code lang table : forall scores evid,
  forallb compiles_ok (flat_map (fun kv => fw_patterns (snd kv)) table) = true ->
  NoDup (dict_keys table) ->
  Forall (fun kv => weight_ok (fw_weight (snd kv))) table ->
  (forall k, In k (dict_keys table) ->
             ~ In k (dict_keys scores) /\ ~ In k (dict_keys evid)) ->
  score_frameworks code lang table scores evid
  = ret (scores ++ map (fun kv => (fst kv, fw_score_spec code (snd kv)))
                     (filter (fun kv => F64.ltb F64.zero (fw_score_spec code (snd kv)))
                        (filter (fun kv => String.eqb (fw_language (snd kv)) lang) table)),
         evid ++ map (fun kv => (fst kv, fw_evidence_spec code (snd kv)))
                   (filter (fun kv => F64.ltb F64.zero (fw_score_spec code (snd kv)))
                      (filter (fun kv => String.eqb (fw_language (snd kv)) lang) table))).
Proof.
  induction table as [|[fw rules] table IH]; intros scores evid Hc Hnd Hw Hfresh; simpl.
  - rewrite !app_nil_r. reflexivity.
  - inversion Hnd as [|? ? Hnotin Hnd']; subst.
    inversion Hw as [|? ? Hw1 Hw']; subst. simpl in Hw1.
    assert (Hfresh' : forall k, In k (dict_keys table) ->
                                ~ In k (dict_keys scores) /\ ~ In k (dict_keys evid))
      by (intros k Hk; apply Hfresh; right; exact Hk).
    simpl in Hc. rewrite forallb_app in Hc. apply andb_true_iff in Hc as [Hr Hc].
    destruct (String.eqb (fw_language rules) lang) eqn:El; simpl.
    + rewrite (scan_patterns_spec _ _ _ _ _ Hr). simpl.
      rewrite scan_keywords_spec. simpl.
      rewrite <- (framework_score_pos _ _ _ Hw1).
      change (framework_score (pattern_matches (fw_patterns rules) code)
                (keyword_matches (fw_keywords rules) code) (fw_weight rules))
        with (fw_score_spec code rules).
      destruct (Hfresh fw (or_introl eq_refl)) as [Hs He].
      destruct (F64.ltb F64.zero (fw_score_spec code rules)) eqn:E; simpl.
      * rewrite (dict_set_fresh _ _ _ Hs), (dict_set_fresh _ _ _ He).
        rewrite IH; [rewrite <- !app_assoc; reflexivity | exact Hc | exact Hnd' | exact Hw' |].
        intros k Hk. destruct (Hfresh' k Hk) as [Hks Hke].
        rewrite !dict_keys_app. simpl.
        split; intros H; apply in_app_or in H as [H|[H|[]]]; try tauto;
          subst; apply Hnotin, Hk.
      * apply IH; assumption.
    + apply IH; assumption.
Qed.

(** ** A pattern that does not compile raises when the scan reaches it *)

Lemma scan_patterns_err fmt ps code :
  forallb compiles_ok ps = false ->
  exists p, In p ps /\ re_compile p = None /\
            forall count ev, scan_patterns fmt ps code count ev = raise (ReError p).
Proof.
  induction ps as [|q ps IH]; simpl; [discriminate|].
  destruct (compiles_ok q) eqn:Eq; simpl; intros H.
  - destruct (IH H) as (p & Hin & Hp & Hs).
    exists p. split; [right; exact Hin|]. split; [exact Hp|].
    intros count ev. rewrite (findall_len_ok q code Eq). simpl.
    destruct (0 <? match_count q code); apply Hs.
  - exists q. split; [left; reflexivity|].
    split; [unfold compiles_ok in Eq; destruct (re_compile q); [discriminate | reflexivity]|].
    intros count ev. rewrite (findall_len_err q code Eq). reflexivity.
Qed.

Lemma _score_language_err code lang rules :
  forallb compiles_ok (patterns rules ++ anti_patterns rules) = false ->
  exists p, In p (patterns rules ++ anti_patterns rules) /\ re_compile p = None /\
            _score_language code lang rules = raise (ReError p).
Proof.
  rewrite forallb_app. unfold _score_language.
  destruct (forallb compiles_ok (patterns rules)) eqn:Ep; simpl; intros Ha.
  - destruct (scan_patterns_err fmt_anti _ code Ha) as (p & Hin & Hp & Hs).
    exists p. split; [apply in_or_app; right; exact Hin|]. split; [exact Hp|].
    rewrite (scan_patterns_spec _ _ _ _ _ Ep). simpl.
    rewrite scan_keywords_spec. rewrite Hs. reflexivity.
  - destruct (scan_patterns_err fmt_pattern _ code Ep) as (p & Hin & Hp & Hs).
    exists p. split; [apply in_or_app; left; exact Hin|]. split; [exact Hp|].
    rewrite Hs. reflexivity.
Qed.

Lemma score_languages_err code table :
  forallb compiles_ok
    (flat_map (fun kv => patterns (snd kv) ++ anti_patterns (snd kv)) table) = false ->
  exists p,
    In p (flat_map (fun kv => patterns (snd kv) ++ anti_patterns (snd kv)) table) /\
    re_compile p = None /\
    forall scores evid, score_languages code table scores evid = raise (ReError p).
Proof.
  induction table as [|[lang rules] table IH]; simpl; [discriminate|].
  rewrite forallb_app.
  destruct (forallb compiles_ok (patterns rules ++ anti_patterns rules)) eqn:Er;
    simpl; intros H.
  - destruct (IH H) as (p & Hin & Hp & Hs).
    exists p. split; [apply in_or_app; right; exact Hin|]. split; [exact Hp|].
    intros scores evid. rewrite (_score_language_spec code lang rules Er). simpl.
    destruct (F64.ltb F64.zero (score_spec code rules)); apply Hs.
  - destruct (_score_language_err code lang rules Er) as (p & Hin & Hp & Hs).
    exists p. split; [apply in_or_app; left; exact Hin|]. split; [exact Hp|].
    intros scores evid. rewrite Hs. reflexivity.
Qed.

End EngineFacts.

(** * Values stored in a dictionary *)

Section DictValues.

Context {V : Type}.
Variable P : V -> Prop.

Lemma Forall_dict_get (k : string) (v : V) (d : dict V) :
  Forall (fun kv => P (snd kv)) d -> dict_get k d = Some v -> P v.
Proof.
  intros HF H. apply dict_get_In in H.
  rewrite Forall_forall in HF. apply (HF (k, v) H).
Qed.

Lemma Forall_dict_set (k : string) (v : V) (d : dict V) :
  P v -> Forall (fun kv => P (snd kv)) d -> Forall (fun kv => P (snd kv)) (dict_set k v d).
Proof.
  intros Hv. induction d as [|[k' v'] d IH]; simpl; intros HF.
  - constructor; [exact Hv | constructor].
  - inversion HF as [|? ? H1 H2]; subst.
    destruct (String.eqb k k'); constructor; auto.
Qed.

End DictValues.

Lemma dict_get_float_mem (P : F64.float -> Prop) (k : string) (d : dict F64.float) :
  Forall (fun kv => P (snd kv)) d -> In k (dict_keys d) -> P (dict_get_float k d).
Proof.
  intros HF Hin. unfold dict_get_float.
  destruct (dict_get k d) as [v|] eqn:E.
  - exact (Forall_dict_get P k v d HF E).
  - apply dict_get_None in E. tauto.
Qed.

Lemma dict_get_float_default (P : F64.float -> Prop) (k : string) (d : dict F64.float) :
  P F64.zero -> Forall (fun kv => P (snd kv)) d -> P (dict_get_float k d).
Proof.
  intros H0 HF. unfold dict_get_float.
  destruct (dict_get k d) as [v|] eqn:E; [|exact H0].
  exact (Forall_dict_get P k v d HF E).
Qed.

Lemma dict_get_map_filter {A V : Type} (g : A -> V) (keep : string * A -> bool)
  (k : string) (table : dict A) :
  NoDup (dict_keys table) ->
  dict_get k (map (fun kv => (fst kv, g (snd kv))) (filter keep table))
  = match dict_get k table with
    | Some a => if keep (k, a) then Some (g a) else None
    | None => None
    end.
Proof.
  induction table as [|[k' a] table IH]; simpl; intros Hnd; [reflexivity|].
  inversion Hnd as [|? ? Hnotin Hnd']; subst.
  destruct (String.eqb k k') eqn:E.
  - apply String.eqb_eq in E. subst k'.
    destruct (keep (k, a)); simpl.
    + rewrite String.eqb_refl. reflexivity.
    + rewrite IH by exact Hnd'.
      destruct (dict_get k table) eqn:E'; [|reflexivity].
      apply dict_get_In in E'. exfalso. apply Hnotin.
      change k with (fst (k, a0)). apply in_map, E'.
  - destruct (keep (k', a)); simpl; [rewrite E|]; apply IH, Hnd'.
Qed.

Lemma dict_keys_map {A V : Type} (g : A -> V) (table : dict A) :
  dict_keys (map (fun kv => (fst kv, g (snd kv))) table) = dict_keys table.
Proof. unfold dict_keys. rewrite map_map. reflexivity. Qed.

Lemma dict_keys_filter_incl {A : Type} (keep : string * A -> bool) (table : dict A) (k : string) :
  In k (dict_keys (filter keep table)) -> In k (dict_keys table).
Proof.
  unfold dict_keys. rewrite !in_map_iff. intros (x & Hx & Hin).
  apply filter_In in Hin. exists x. tauto.
Qed.

Lemma NoDup_keys_filter {A : Type} (keep : string * A -> bool) (table : dict A) :
  NoDup (dict_keys table) -> NoDup (dict_keys (filter keep table)).
Proof.
  induction table as [|[k a] table IH]; simpl; intros Hnd; [constructor|].
  inversion Hnd as [|? ? Hnotin Hnd']; subst.
  destruct (keep (k, a)); simpl; [|apply IH, Hnd'].
  constructor; [|apply IH, Hnd'].
  intros H. apply Hnotin. eapply dict_keys_filter_incl, H.
Qed.

Lemma dict_get_map_In {A V : Type} (g : A -> V) (k : string) (a : A) (l : dict A) :
  NoDup (dict_keys l) -> In (k, a) l ->
  dict_get k (map (fun kv => (fst kv, g (snd kv))) l) = Some (g a).
Proof.
  intros Hnd Hin. apply dict_get_NoDup.
  - rewrite dict_keys_map. exact Hnd.
  - apply in_map_iff. exists (k, a). split; [reflexivity | exact Hin].
Qed.

(** * The stages of [analyze_code] on well-formed tables *)

Section AnalysisFacts.

Context {rt : PyRuntime}.
Variable self : GuessLexer.
Hypothesis Hwf : tables_wf self.
Hypothesis Hc : tables_compile self = true.

Lemma compile_languages : forallb compiles_ok (language_regexes self) = true.
Proof. unfold tables_compile in Hc. apply andb_true_iff in Hc. tauto. Qed.

Lemma compile_frameworks : forallb compiles_ok (framework_regexes self) = true.
Proof. unfold tables_compile in Hc. apply andb_true_iff in Hc. tauto. Qed.

Lemma score_languages_eq (code : string) :
  score_languages code (language_patterns self) [] []
  = ret (language_scores_spec self code, language_evidence_spec self code).
Proof.
  destruct Hwf as (Hnd & _).
  rewrite score_languages_spec; [reflexivity | apply compile_languages | exact Hnd |].
  intros k _. simpl. tauto.
Qed.

Lemma _detect_framework_eq (code lang : string) :
  _detect_framework self code lang = ret (detect_framework_spec self code lang).
Proof.
  destruct Hwf as (_ & Hnd & _ & Hw).
  unfold _detect_framework.
  rewrite score_frameworks_spec;
    [| apply compile_frameworks | exact Hnd | exact Hw | intros k _; simpl; tauto].
  simpl. unfold detect_framework_spec, fw_scores_spec, fw_evidence_map_spec, fw_candidates.
  destruct (py_max _ _); reflexivity.
Qed.

Lemma language_stage_eq (code : string) (filename : option string) :
  language_stage self code filename
  = ret (apply_extension_hint (extension_hint_of self filename) filename
           (language_scores_spec self code) (language_evidence_spec self code)).
Proof. unfold language_stage. rewrite score_languages_eq. reflexivity. Qed.

(** ** The candidate map *)

Lemma language_scores_is_pos (code : string) :
  Forall (fun kv => F64.is_pos (snd kv)) (language_scores_spec self code).
Proof.
  destruct Hwf as (_ & _ & Hw & _).
  unfold language_scores_spec, candidates.
  rewrite Forall_forall in *. intros [k v] Hin.
  apply in_map_iff in Hin as ([k' rules] & [= <- <-] & Hin).
  apply filter_In in Hin as [Hin Hpos]. simpl in *.
  apply score_spec_is_pos; [apply (Hw (k', rules) Hin) | exact Hpos].
Qed.


Lemma language_scores_keys (code : string) :
  dict_keys (language_scores_spec self code) = dict_keys (candidates self code).
Proof. apply dict_keys_map. Qed.

Lemma language_evidence_keys (code : string) :
  dict_keys (language_evidence_spec self code) = dict_keys (candidates self code).
Proof. apply dict_keys_map. Qed.


Lemma language_evidence_get (code lang : string) :
  dict_get lang (language_evidence_spec self code)
  = match dict_get lang (language_patterns self) with
    | Some rules =>
        if F64.ltb F64.zero (score_spec code rules) then Some (evidence_spec code rules)
        else None
    | None => None
    end.
Proof.
  destruct Hwf as (Hnd & _).
  apply (dict_get_map_filter (evidence_spec code)
           (fun kv => F64.ltb F64.zero (score_spec code (snd kv))) lang _ Hnd).
Qed.

(** ** The extension hint *)

Lemma hint_scores_is_pos hint filename (scores : dict F64.float) (evid : dict (list string)) :
  Forall (fun kv => F64.is_pos (snd kv)) scores ->
  Forall (fun kv => F64.is_pos (snd kv))
    (fst (apply_extension_hint hint filename scores evid)).
Proof.
  intros HF. unfold apply_extension_hint.
  destruct hint as [h|]; [|exact HF].
  destruct (str_truthy h && dict_mem h scores) eqn:E; [|exact HF].
  apply andb_true_iff in E as [_ Hm]. simpl.
  apply Forall_dict_set; [|exact HF].
  apply (mul_above (-1074) 0); [| apply above_c1_5 | lia].
  apply dict_get_float_mem; [exact HF | apply dict_mem_In, Hm].
Qed.

Lemma hint_scores_keys hint filename (scores : dict F64.float) (evid : dict (list string)) :
  dict_keys (fst (apply_extension_hint hint filename scores evid)) = dict_keys scores.
Proof.
  unfold apply_extension_hint.
  destruct hint as [h|]; [|reflexivity].
  destruct (str_truthy h && dict_mem h scores) eqn:E; [|reflexivity].
  apply andb_true_iff in E as [_ Hm]. simpl.
  apply dict_keys_set, dict_mem_In, Hm.
Qed.

(** ** The framework stage *)

Lemma fw_scores_nonneg (code lang : string) :
  Forall (fun kv => F64.nonneg (snd kv)) (fw_scores_spec self code lang).
Proof.
  destruct Hwf as (_ & _ & _ & Hw).
  unfold fw_scores_spec, fw_candidates.
  rewrite Forall_forall in *. intros [k v] Hin.
  apply in_map_iff in Hin as ([k' rules] & [= <- <-] & Hin).
  apply filter_In in Hin as [Hin _]. apply filter_In in Hin as [Hin _]. simpl.
  apply framework_score_nonneg, (Hw (k', rules) Hin).
Qed.

Lemma detect_framework_conf (code lang fw : string) (fc : F64.float) (fev : list string) :
  detect_framework_spec self code lang = Some (fw, fc, fev) ->
  F64.nonneg fc /\ F64.leb fc F64.one = true.
Proof.
  unfold detect_framework_spec.
  destruct (py_max _ _) as [best|]; [|discriminate].
  intros [= _ <- _].
  assert (Hn : F64.nonneg (F64.div (dict_get_float best (fw_scores_spec self code lang))
                                   F64.c5_0)).
  { apply div_nonneg, dict_get_float_default; [exact I | apply fw_scores_nonneg]. }
  split; [apply pymin_nonneg | apply pymin_le]; auto using nonneg_one.
Qed.

Lemma detect_framework_owner (code lang fw : string) (fc : F64.float) (fev : list string) :
  detect_framework_spec self code lang = Some (fw, fc, fev) ->
  exists rules,
    dict_get fw (framework_patterns self) = Some rules /\ fw_language rules = lang /\
    F64.ltb F64.zero (fw_score_spec code rules) = true.
Proof.
  destruct Hwf as (_ & Hnd & _).
  unfold detect_framework_spec.
  destruct (py_max _ _) as [best|] eqn:E; [|discriminate].
  intros [= <- _ _].
  apply py_max_In in E. unfold fw_scores_spec in E.
  rewrite dict_keys_map in E. unfold fw_candidates, dict_keys in E.
  apply in_map_iff in E as ([k rules] & <- & Hin).
  apply filter_In in Hin as [Hin Hpos]. apply filter_In in Hin as [Hin Hl]. simpl in *.
  exists rules. repeat split.
  - apply dict_get_NoDup; assumption.
  - apply String.eqb_eq, Hl.
  - exact Hpos.
Qed.

Lemma detect_framework_None (code lang : string) :
  detect_framework_spec self code lang = None <->
  ~ framework_scores_positively self code lang.
Proof.
  unfold detect_framework_spec, framework_scores_positively.
  destruct (py_max _ _) as [best|] eqn:E.
  - split; [discriminate|]. intros H. exfalso. apply H.
    apply py_max_In in E. unfold fw_scores_spec in E.
    rewrite dict_keys_map in E. unfold fw_candidates, dict_keys in E.
    apply in_map_iff in E as ([k rules] & _ & Hin).
    apply filter_In in Hin as [Hin Hpos]. apply filter_In in Hin as [Hin Hl]. simpl in *.
    exists k, rules. repeat split; [exact Hin | apply String.eqb_eq, Hl | exact Hpos].
  - split; [intros _ | reflexivity]. intros (fw & rules & Hin & Hl & Hpos).
    apply py_max_None in E. unfold fw_scores_spec in E.
    rewrite dict_keys_map in E. unfold fw_candidates, dict_keys in E.
    assert (H : In fw (map fst
               (filter (fun kv => F64.ltb F64.zero (fw_score_spec code (snd kv)))
                  (filter (fun kv => String.eqb (fw_language (snd kv)) lang)
                     (framework_patterns self))))).
    { change fw with (fst (fw, rules)). apply in_map.
      apply filter_In. split; [|exact Hpos].
      apply filter_In. split; [exact Hin | apply String.eqb_eq, Hl]. }
    rewrite E in H. exact H.
Qed.

Lemma fw_candidates_NoDup (code lang : string) :
  NoDup (dict_keys (fw_candidates self code lang)).
Proof.
  destruct Hwf as (_ & Hnd & _).
  unfold fw_candidates. apply NoDup_keys_filter, NoDup_keys_filter, Hnd.
Qed.

Lemma fw_candidates_In (code lang fw : string) (rules : FrameworkRules) :
  In (fw, rules) (fw_candidates self code lang) <->
  In (fw, rules) (framework_patterns self) /\ fw_language rules = lang /\
  F64.ltb F64.zero (fw_score_spec code rules) = true.
Proof.
  unfold fw_candidates. rewrite !filter_In. simpl. rewrite String.eqb_eq. tauto.
Qed.

Lemma fw_scores_is_pos (code lang : string) :
  Forall (fun kv => F64.is_pos (snd kv)) (fw_scores_spec self code lang).
Proof.
  destruct Hwf as (_ & _ & _ & Hw).
  unfold fw_scores_spec. rewrite Forall_forall in *. intros [k v] Hin.
  apply in_map_iff in Hin as ([k' rules] & [= <- <-] & Hin).
  apply fw_candidates_In in Hin as (Hin & _ & Hpos). simpl.
  apply fw_score_spec_is_pos; [apply (Hw (k', rules) Hin) | exact Hpos].
Qed.

(** What the framework stage returns: a framework of the language with a
    positive score that no other such framework exceeds, its score
    divided by 5.0 and clamped at 1.0, and its evidence. *)
Lemma detect_framework_spec_Some (code lang fw : string) (fc : F64.float)
  (fev : list string) :
  detect_framework_spec self code lang = Some (fw, fc, fev) ->
  exists rules,
    dict_get fw (framework_patterns self) = Some rules /\ fw_language rules = lang /\
    F64.ltb F64.zero (fw_score_spec code rules) = true /\
    fc = F64.pymin (F64.div (fw_score_spec code rules) F64.c5_0) F64.one /\
    fev = fw_evidence_spec code rules /\
    forall fw' rules',
      In (fw', rules') (framework_patterns self) -> fw_language rules' = lang ->
      F64.ltb F64.zero (fw_score_spec code rules') = true ->
      F64.ltb (fw_score_spec code rules) (fw_score_spec code rules') = false.
Proof.
  pose proof Hwf as (_ & Hnd & _).
  unfold detect_framework_spec.
  destruct (py_max _ _) as [best|] eqn:E; [|discriminate].
  intros [= <- <- <-].
  pose proof (py_max_In _ _ _ E) as Hin.
  unfold fw_scores_spec in Hin. rewrite dict_keys_map in Hin.
  apply in_map_iff in Hin as ([k rules] & Hk & Hin). simpl in Hk. subst k.
  pose proof (fw_candidates_NoDup code lang) as Hndc.
  assert (Gs : forall fw' rules', In (fw', rules') (fw_candidates self code lang) ->
               dict_get_float fw' (fw_scores_spec self code lang) = fw_score_spec code rules').
  { intros fw' rules' H. unfold dict_get_float, fw_scores_spec.
    rewrite (dict_get_map_In (fw_score_spec code) fw' rules' _ Hndc H). reflexivity. }
  assert (Ge : dict_get_list best (fw_evidence_map_spec self code lang)
               = fw_evidence_spec code rules).
  { unfold dict_get_list, fw_evidence_map_spec.
    rewrite (dict_get_map_In (fw_evidence_spec code) best rules _ Hndc Hin). reflexivity. }
  pose proof (proj1 (fw_candidates_In code lang best rules) Hin) as (Hin' & Hl & Hpos).
  exists rules. rewrite (Gs best rules Hin), Ge.
  repeat split; try assumption; try reflexivity.
  - apply dict_get_NoDup; assumption.
  - intros fw' rules' Hin2 Hl2 Hpos2.
    assert (Hc2 : In (fw', rules') (fw_candidates self code lang))
      by (apply fw_candidates_In; auto).
    rewrite <- (Gs best rules Hin), <- (Gs fw' rules' Hc2).
    apply (py_max_ge _ _ _) with (2 := E).
    + intros k Hk. apply dict_get_float_mem; [apply fw_scores_is_pos | exact Hk].
    + unfold fw_scores_spec. rewrite dict_keys_map.
      change fw' with (fst (fw', rules')). apply in_map, Hc2.
Qed.

(** ** [analyze_code], stage by stage *)

Lemma analyze_code_eq (code : string) (filename : option string) :
  analyze_code self code filename =
  ret (if is_blank code then unknown_result "Empty code"
       else decide self code (staged self code filename)).
Proof.
  unfold analyze_code, is_blank.
  destruct (negb (str_truthy (str_strip code))); [reflexivity|].
  rewrite language_stage_eq. simpl. fold (staged self code filename).
  unfold decide.
  destruct (staged self code filename) as [scores evid]. simpl.
  destruct (py_max _ _) as [best|]; [|reflexivity].
  rewrite _detect_framework_eq. simpl.
  destruct (detect_framework_spec self code best) as [[[fw fc] fev]|]; reflexivity.
Qed.



(** ** The winning language *)

Lemma staged_is_pos (code : string) (filename : option string) :
  Forall (fun kv => F64.is_pos (snd kv)) (fst (staged self code filename)).
Proof. apply hint_scores_is_pos, language_scores_is_pos. Qed.

Lemma staged_keys (code : string) (filename : option string) :
  dict_keys (fst (staged self code filename)) = dict_keys (candidates self code).
Proof. unfold staged. rewrite hint_scores_keys. apply language_scores_keys. Qed.

Lemma winner_is_pos (code : string) (filename : option string) (best : string) :
  py_max (fun x => dict_get_float x (fst (staged self code filename)))
    (dict_keys (fst (staged self code filename))) = Some best ->
  F64.is_pos (dict_get_float best (fst (staged self code filename))).
Proof.
  intros H. apply py_max_In in H.
  apply dict_get_float_mem; [apply staged_is_pos | exact H].
Qed.

Lemma winner_is_language (code : string) (filename : option string) (best : string) :
  py_max (fun x => dict_get_float x (fst (staged self code filename)))
    (dict_keys (fst (staged self code filename))) = Some best ->
  In best (dict_keys (language_patterns self)).
Proof.
  intros H. apply py_max_In in H. rewrite staged_keys in H.
  eapply dict_keys_filter_incl, H.
Qed.


(** ** Bounds on the confidence *)

Lemma fusion_range (conf fc : F64.float) :
  F64.is_pos conf -> F64.nonneg fc ->
  let c := F64.pymin (F64.add conf (F64.mul fc F64.c0_3)) F64.one in
  F64.is_pos c /\ F64.leb c F64.one = true.
Proof.
  intros Hconf Hfc c.
  assert (Hsum : F64.is_pos (F64.add conf (F64.mul fc F64.c0_3))).
  { apply add_above_l; [exact Hconf | apply mul_nonneg, Hfc]. }
  split.
  - apply pymin_above; [exact Hsum | apply above_one].
  - apply pymin_le; [eapply above_nonneg, Hsum | apply nonneg_one].
Qed.

Lemma analyze_code_total (code : string) (filename : option string) :
  exists r, analyze_code self code filename = ret r.
Proof. rewrite analyze_code_eq. eexists. reflexivity. Qed.

(** The decision is "unknown" with confidence [0.0], or a language of the
    table with a confidence in (0, 1]. *)
Lemma decide_cases (code : string) (filename : option string) :
  let r := decide self code (staged self code filename) in
  (r = unknown_result "No patterns matched" /\
   py_max (fun x => dict_get_float x (fst (staged self code filename)))
     (dict_keys (fst (staged self code filename))) = None) \/
  (py_max (fun x => dict_get_float x (fst (staged self code filename)))
     (dict_keys (fst (staged self code filename))) = Some (language r) /\
   F64.is_pos (confidence r) /\ F64.leb (confidence r) F64.one = true).
Proof.
  unfold decide.
  destruct (py_max _ _) as [best|] eqn:E; [right | left; split; reflexivity].
  pose proof (winner_is_pos _ _ _ E) as Hpos.
  assert (Hconf : F64.is_pos (F64.pymin (dict_get_float best (fst (staged self code filename)))
                                        F64.one))
    by (apply pymin_above; [exact Hpos | apply above_one]).
  destruct (detect_framework_spec self code best) as [[[fw fc] fev]|] eqn:D; simpl.
  - destruct (detect_framework_conf _ _ _ _ _ D) as [Hfc _].
    destruct (fusion_range _ _ Hconf Hfc) as [H1 H2]. auto.
  - repeat split; [exact Hconf |].
    apply pymin_le; [eapply above_nonneg, Hpos | apply nonneg_one].
Qed.

Lemma analyze_code_confidence (code : string) (filename : option string) (r : DetectionResult) :
  analyze_code self code filename = ret r ->
  (confidence r = F64.zero /\ language r = "unknown"%string) \/
  (F64.is_pos (confidence r) /\ F64.leb (confidence r) F64.one = true /\
   In (language r) (dict_keys (language_patterns self))).
Proof.
  rewrite analyze_code_eq. intros [= <-].
  destruct (is_blank code); [left; split; reflexivity|].
  destruct (decide_cases code filename) as [[-> _] | (Hm & Hpos & Hle)].
  - left. split; reflexivity.
  - right. repeat split; [exact Hpos | exact Hle |].
    apply (winner_is_language _ _ _ Hm).
Qed.

Lemma decide_framework (code : string) (filename : option string) (fw : string) :
  framework (decide self code (staged self code filename)) = Some fw ->
  exists rules, dict_get fw (framework_patterns self) = Some rules /\
                fw_language rules = language (decide self code (staged self code filename)).
Proof.
  unfold decide.
  destruct (py_max _ _) as [best|]; [|discriminate].
  destruct (detect_framework_spec self code best) as [[[fw' fc] fev]|] eqn:D;
    simpl; [|discriminate].
  intros [= <-].
  destruct (detect_framework_owner code best fw' fc fev D) as (rules & Hget & Hl & _).
  exists rules. split; assumption.
Qed.

(** ** The confidence as a function of the winning score *)



End AnalysisFacts.

(** * The shipped tables are well formed *)

Lemma list_mem_In (x : string) (l : list string) : list_mem x l = true <-> In x l.
Proof.
  unfold list_mem. rewrite existsb_exists. split.
  - intros (y & Hin & E). apply String.eqb_eq in E. subst. exact Hin.
  - intros H. exists x. split; [exact H | apply String.eqb_refl].
Qed.

Lemma distinct_NoDup (l : list string) : distinct l = true -> NoDup l.
Proof.
  induction l as [|x l IH]; simpl; intros H; constructor.
  - apply andb_true_iff in H as [H _]. rewrite <- list_mem_In.
    destruct (list_mem x l); [discriminate | congruence].
  - apply IH. apply andb_true_iff in H. tauto.
Qed.

Lemma weight_ok_one : weight_ok F64.one.
Proof. split; [simpl; repeat split; lia | eexists; eexists; split; reflexivity]. Qed.

Lemma weight_ok_c1_2 : weight_ok F64.c1_2.
Proof. split; [simpl; repeat split; lia | eexists; eexists; split; reflexivity]. Qed.

Lemma weight_ok_c1_3 : weight_ok F64.c1_3.
Proof. split; [simpl; repeat split; lia | eexists; eexists; split; reflexivity]. Qed.

Lemma the_lexer_wf : tables_wf the_lexer.
Proof.
  repeat split.
  - apply distinct_NoDup. reflexivity.
  - apply distinct_NoDup. reflexivity.
  - repeat constructor; simpl;
      first [apply weight_ok_one | apply weight_ok_c1_2 | apply weight_ok_c1_3].
  - repeat constructor; simpl;
      first [apply weight_ok_one | apply weight_ok_c1_2 | apply weight_ok_c1_3].
Qed.

Lemma unknown_not_a_language :
  ~ In "unknown"%string (dict_keys (language_patterns the_lexer)).
Proof. rewrite <- list_mem_In. simpl. discriminate. Qed.

Lemma new_GuessLexer_eq : new_GuessLexer = ret the_lexer.
Proof. reflexivity. Qed.

Lemma filter_nil_iff {A : Type} (f : A -> bool) (l : list A) :
  filter f l = [] <-> forall x, In x l -> f x = false.
Proof.
  induction l as [|a l IH]; simpl.
  - tauto.
  - destruct (f a) eqn:E.
    + split; [discriminate|]. intros H. rewrite (H a (or_introl eq_refl)) in E. discriminate.
    + rewrite IH. split; [intros H x [<-|Hx]; auto | auto].
Qed.


(** * The extension hint, for any well-formed tables *)

Section HintFacts.

Context {rt : PyRuntime}.
Variable self : GuessLexer.
Hypothesis Hwf : tables_wf self.
Hypothesis Hc : tables_compile self = true.
Hypothesis Hkeys_truthy : forallb str_truthy (dict_keys (language_patterns self)) = true.
Hypothesis Hunknown : ~ In "unknown"%string (dict_keys (language_patterns self)).










End HintFacts.

Section Claims.

Context {rt : PyRuntime}.

Lemma no_language_scores_iff (self : GuessLexer) (code : string) :
  no_language_scores self code <-> candidates self code = [].
Proof.
  unfold no_language_scores, candidates. rewrite filter_nil_iff.
  split; [intros H [k r] Hin; apply (H k r Hin) | intros H k r Hin; apply (H (k, r) Hin)].
Qed.

Lemma no_winner_iff (self : GuessLexer) (code : string) (filename : option string) :
  py_max (fun x => dict_get_float x (fst (staged self code filename)))
    (dict_keys (fst (staged self code filename))) = None
  <-> no_language_scores self code.
Proof.
  rewrite py_max_None, (staged_keys self), no_language_scores_iff.
  unfold dict_keys. destruct (candidates self code); simpl; split; congruence.
Qed.

(** C1. For every text and every optional file name, the confidence of the
    result of [analyze_code] lies in the closed interval [0, 1]: the call
    returns a result [r] with [0.0 <= r.confidence <= 1.0]. *)
Theorem analyze_code_confidence_in_unit_interval (code : string) (filename : option string) :
  tables_compile the_lexer = true ->
  exists r, analyze_code the_lexer code filename = ret r /\
            F64.leb F64.zero (confidence r) = true /\
            F64.leb (confidence r) F64.one = true.
Proof.
  intros Hc.
  destruct (analyze_code_total the_lexer the_lexer_wf Hc code filename) as [r Hr].
  exists r. split; [exact Hr|].
  destruct (analyze_code_confidence the_lexer the_lexer_wf Hc code filename r Hr)
    as [[-> _] | (Hpos & Hle & _)].
  - split; reflexivity.
  - split; [apply leb_zero_nonneg; eapply above_nonneg, Hpos | exact Hle].
Qed.

(** C10. Whenever the language reported by [analyze_code] is not
    "unknown", the confidence is strictly greater than zero. *)
Theorem analyze_code_detected_confidence_positive (code : string) (filename : option string) :
  tables_compile the_lexer = true ->
  exists r, analyze_code the_lexer code filename = ret r /\
            (language r <> "unknown"%string -> F64.ltb F64.zero (confidence r) = true).
Proof.
  intros Hc.
  destruct (analyze_code_total the_lexer the_lexer_wf Hc code filename) as [r Hr].
  exists r. split; [exact Hr|].
  destruct (analyze_code_confidence the_lexer the_lexer_wf Hc code filename r Hr)
    as [[_ Hu] | (Hpos & _ & _)].
  - intros H. contradiction.
  - intros _. eapply ltb_zero_above, Hpos.
Qed.

(** C5. If the result of [analyze_code] names a framework, the language
    declared for that framework in [framework_patterns] is the language
    of the same result. *)
Theorem analyze_code_framework_owner (code : string) (filename : option string) :
  tables_compile the_lexer = true ->
  exists r, analyze_code the_lexer code filename = ret r /\
            forall fw, framework r = Some fw ->
            exists rules, dict_get fw (framework_patterns the_lexer) = Some rules /\
                          fw_language rules = language r.
Proof.
  intros Hc. rewrite (analyze_code_eq the_lexer the_lexer_wf Hc).
  eexists. split; [reflexivity|].
  destruct (is_blank code); [discriminate|].
  apply (decide_framework the_lexer the_lexer_wf).
Qed.

(** C4. [analyze_code] reports "unknown" exactly when the text is empty or
    whitespace only, or no language scores above zero.  In the first case
    the result is "unknown", 0.0, no framework, evidence ["Empty code"],
    and it is returned before anything is scored: whatever the tables
    hold, even patterns that do not compile.  In the second case the
    evidence is ["No patterns matched"]. *)
Theorem analyze_code_unknown_iff (code : string) (filename : option string) :
  (forall self : GuessLexer,
     is_blank code = true ->
     analyze_code self code filename = ret (unknown_result "Empty code")) /\
  (tables_compile the_lexer = true ->
   exists r, analyze_code the_lexer code filename = ret r /\
     (language r = "unknown"%string <->
      is_blank code = true \/ no_language_scores the_lexer code) /\
     (is_blank code = true -> r = unknown_result "Empty code") /\
     (is_blank code = false -> no_language_scores the_lexer code ->
      r = unknown_result "No patterns matched")).
Proof.
  split.
  - intros self Hb. unfold analyze_code. unfold is_blank in Hb. rewrite Hb. reflexivity.
  - intros Hc. rewrite (analyze_code_eq the_lexer the_lexer_wf Hc).
    eexists. split; [reflexivity|].
    destruct (is_blank code) eqn:Eb.
    { repeat split; auto; discriminate. }
    destruct (decide_cases the_lexer the_lexer_wf code filename) as [[-> E] | (E & _)].
    + apply no_winner_iff in E. repeat split; auto. discriminate.
    + assert (Hnot : ~ no_language_scores the_lexer code).
      { intros H. apply (no_winner_iff the_lexer code filename) in H. congruence. }
      repeat split.
      * intros Hu. exfalso. apply unknown_not_a_language. rewrite <- Hu.
        apply (winner_is_language the_lexer code filename _ E).
      * intros [H|H]; [discriminate | contradiction].
      * discriminate.
      * intros _ H. contradiction.
Qed.

(** C3. For every text and every language rule set, [_score_language]
    returns [max(0, (pattern_matches * 0.6 + keyword_matches * 0.4) * weight
    - anti_matches * 0.3)], where [pattern_matches] is the sum over the
    patterns of their numbers of non-overlapping matches, [keyword_matches]
    counts one for each keyword that occurs in the lower-cased text
    (however often), and [anti_matches] is the sum over the anti-patterns
    of their match counts. *)
Theorem _score_language_formula (code lang : string) (rules : LanguageRules) :
  forallb compiles_ok (patterns rules ++ anti_patterns rules) = true ->
  let pattern_matches := list_sum (map (fun p => match_count p code) (patterns rules)) in
  let keyword_matches :=
    List.length (filter (fun k => str_contains (str_lower k) (str_lower code))
                        (keywords rules)) in
  let anti_matches := list_sum (map (fun p => match_count p code) (anti_patterns rules)) in
  exists ev,
    _score_language code lang rules
    = ret (F64.pymax F64.zero
             (F64.sub
                (F64.mul (F64.add (F64.mul (F64.of_nat pattern_matches) F64.c0_6)
                                  (F64.mul (F64.of_nat keyword_matches) F64.c0_4))
                         (weight rules))
                (F64.mul (F64.of_nat anti_matches) F64.c0_3)),
           ev).
Proof.
  intros Hc pm km am. exists (evidence_spec code rules).
  rewrite (_score_language_spec code lang rules Hc). reflexivity.
Qed.

(** C6. The framework stage applies no anti-pattern penalty: the score of
    a framework is [(pattern_matches * 0.7 + keyword_matches * 0.3) * weight].
    Among the frameworks of the language, only those with a positive score
    are kept; the one returned has a score that no other exceeds, and its
    confidence is [min(score / 5.0, 1.0)].  Nothing is returned exactly
    when no framework of the language has a positive score. *)
Theorem _detect_framework_scoring (code lang : string) :
  tables_compile the_lexer = true ->
  exists res,
    _detect_framework the_lexer code lang = ret res /\
    match res with
    | Some (fw, fc, fev) =>
        exists rules,
          dict_get fw (framework_patterns the_lexer) = Some rules /\
          fw_language rules = lang /\
          let score :=
            F64.mul
              (F64.add
                 (F64.mul (F64.of_nat (pattern_matches (fw_patterns rules) code)) F64.c0_7)
                 (F64.mul (F64.of_nat (keyword_matches (fw_keywords rules) code)) F64.c0_3))
              (fw_weight rules) in
          F64.ltb F64.zero score = true /\
          fc = F64.pymin (F64.div score F64.c5_0) F64.one /\
          forall fw' rules',
            In (fw', rules') (framework_patterns the_lexer) -> fw_language rules' = lang ->
            F64.ltb F64.zero (fw_score_spec code rules') = true ->
            F64.ltb score (fw_score_spec code rules') = false
    | None =>
        forall fw rules,
          In (fw, rules) (framework_patterns the_lexer) -> fw_language rules = lang ->
          F64.ltb F64.zero (fw_score_spec code rules) = false
    end.
Proof.
  intros Hc. exists (detect_framework_spec the_lexer code lang).
  split; [apply (_detect_framework_eq the_lexer the_lexer_wf Hc)|].
  destruct (detect_framework_spec the_lexer code lang) as [[[fw fc] fev]|] eqn:D.
  - destruct (detect_framework_spec_Some the_lexer the_lexer_wf code lang fw fc fev D)
      as (rules & Hget & Hl & Hpos & Hfc & _ & Hmax).
    exists rules. repeat split; assumption.
  - intros fw rules Hin Hl.
    apply detect_framework_None in D.
    destruct (F64.ltb F64.zero (fw_score_spec code rules)) eqn:E; [|reflexivity].
    exfalso. apply D. exists fw, rules. auto.
Qed.

(** C7. When some framework of the winning language scores positively, the
    final confidence is [min(language_confidence + framework_confidence * 0.3,
    1.0)] and the evidence is the winning language's evidence followed by
    the framework's evidence; when none does, the result has no framework
    and its confidence is the language-stage value [min(winning_score, 1.0)]. *)
Theorem analyze_code_fusion (code : string) (filename : option string)
  (scores : dict F64.float) (evid : dict (list string)) (best : string) :
  tables_compile the_lexer = true ->
  is_blank code = false ->
  language_stage the_lexer code filename = ret (scores, evid) ->
  py_max (fun x => dict_get_float x scores) (dict_keys scores) = Some best ->
  exists r,
    analyze_code the_lexer code filename = ret r /\ language r = best /\
    (framework_scores_positively the_lexer code best ->
     exists fw fc fev,
       _detect_framework the_lexer code best = ret (Some (fw, fc, fev)) /\
       framework r = Some fw /\
       confidence r
       = F64.pymin (F64.add (F64.pymin (dict_get_float best scores) F64.one)
                            (F64.mul fc F64.c0_3)) F64.one /\
       evidence r = dict_get_list best evid ++ fev) /\
    (~ framework_scores_positively the_lexer code best ->
     framework r = None /\
     confidence r = F64.pymin (dict_get_float best scores) F64.one).
Proof.
  intros Hc Hb Hs Hm.
  unfold analyze_code. unfold is_blank in Hb. rewrite Hb, Hs. simpl. rewrite Hm.
  rewrite (_detect_framework_eq the_lexer the_lexer_wf Hc). simpl.
  destruct (detect_framework_spec the_lexer code best) as [[[fw fc] fev]|] eqn:D.
  - eexists. split; [reflexivity|]. simpl. split; [reflexivity|]. split.
    + intros _. exists fw, fc, fev. repeat split; reflexivity.
    + intros H. apply detect_framework_None in H. congruence.
  - eexists. split; [reflexivity|]. simpl. split; [reflexivity|]. split.
    + intros H. apply detect_framework_None in D. contradiction.
    + intros _. split; reflexivity.
Qed.


End Claims.


(** * Construction and regular expressions that do not compile *)

(** C9, refuted as stated: with a table whose pattern "(" does not
    compile, construction succeeds all the same, and the failure shows
    only when a text is analysed. *)
Lemma init_accepts_malformed_regex :
  @re_compile Ref.runtime "(" = None /\
  exists lexer,
    __init__ malformed_table [] [] = ret lexer /\
    @analyze_code Ref.runtime lexer "x" None = raise (ReError "(").
Proof.
  split; [reflexivity|].
  eexists. split; reflexivity.
Qed.

(** ** Which patterns a run compiles *)

Section RegexFailures.

Context {rt : PyRuntime}.

(** The frameworks of another language play no part in the loop of
    [_detect_framework]. *)
Lemma score_frameworks_restrict (code lang : string) (table : dict FrameworkRules) :
  forall scores evid,
  score_frameworks code lang table scores evid
  = score_frameworks code lang
      (filter (fun kv => String.eqb (fw_language (snd kv)) lang) table) scores evid.
Proof.
  induction table as [|[fw rules] table IH]; intros scores evid; [reflexivity|].
  cbn [filter snd]. destruct (String.eqb (fw_language rules) lang) eqn:E.
  - cbn [score_frameworks]. rewrite E. cbn [negb].
    destruct (scan_patterns fmt_fw_pattern (fw_patterns rules) code 0 [])
      as [e|[pm ev]]; [reflexivity|].
    cbn [bind]. destruct (scan_keywords fmt_fw_keyword (fw_keywords rules) code 0 ev)
      as [km ev'].
    destruct ((0 <? pm) || (0 <? km)); apply IH.
  - cbn [score_frameworks]. rewrite E. cbn [negb]. apply IH.
Qed.

Lemma filter_idem {A : Type} (f : A -> bool) (l : list A) :
  filter f (filter f l) = filter f l.
Proof.
  induction l as [|a l IH]; simpl; [reflexivity|].
  destruct (f a) eqn:E; simpl; [rewrite E, IH; reflexivity | exact IH].
Qed.

(** When the patterns of the frameworks of [lang] compile,
    [_detect_framework] returns, whatever the other frameworks hold. *)
Lemma _detect_framework_returns (self : GuessLexer) (code lang : string) :
  tables_wf self ->
  forallb compiles_ok (framework_regexes_of self lang) = true ->
  _detect_framework self code lang = ret (detect_framework_spec self code lang).
Proof.
  intros (_ & Hnd & _ & Hw) Hc. unfold _detect_framework.
  rewrite score_frameworks_restrict.
  rewrite score_frameworks_spec;
    [| exact Hc | apply NoDup_keys_filter, Hnd | | intros k _; simpl; tauto].
  - rewrite filter_idem. simpl.
    unfold detect_framework_spec, fw_scores_spec, fw_evidence_map_spec, fw_candidates.
    destruct (py_max _ _); reflexivity.
  - rewrite Forall_forall in *. intros kv Hin. apply filter_In in Hin as [Hin _].
    apply (Hw kv Hin).
Qed.

(** When a pattern of a framework of [lang] does not compile,
    [_detect_framework] raises. *)
Lemma score_frameworks_err (code lang : string) (table : dict FrameworkRules) :
  forallb compiles_ok
    (flat_map (fun kv => fw_patterns (snd kv))
       (filter (fun kv => String.eqb (fw_language (snd kv)) lang) table)) = false ->
  exists p,
    In p (flat_map (fun kv => fw_patterns (snd kv))
            (filter (fun kv => String.eqb (fw_language (snd kv)) lang) table)) /\
    re_compile p = None /\
    forall scores evid, score_frameworks code lang table scores evid = raise (ReError p).
Proof.
  induction table as [|[fw rules] table IH]; [discriminate|].
  cbn [filter snd]. destruct (String.eqb (fw_language rules) lang) eqn:E.
  - cbn [flat_map snd]. rewrite forallb_app.
    destruct (forallb compiles_ok (fw_patterns rules)) eqn:Er; cbn [andb]; intros H.
    + destruct (IH H) as (p & Hin & Hp & Hs).
      exists p. split; [apply in_or_app; right; exact Hin|]. split; [exact Hp|].
      intros scores evid. cbn [score_frameworks]. rewrite E. cbn [negb].
      rewrite (scan_patterns_spec _ _ _ _ _ Er). cbn [bind ret].
      rewrite scan_keywords_spec.
      destruct ((0 <? _) || (0 <? _)); apply Hs.
    + destruct (scan_patterns_err fmt_fw_pattern (fw_patterns rules) code Er)
        as (p & Hin & Hp & Hs).
      exists p. split; [apply in_or_app; left; exact Hin|]. split; [exact Hp|].
      intros scores evid. cbn [score_frameworks]. rewrite E. cbn [negb].
      rewrite Hs. reflexivity.
  - intros H. destruct (IH H) as (p & Hin & Hp & Hs).
    exists p. split; [exact Hin|]. split; [exact Hp|].
    intros scores evid. cbn [score_frameworks]. rewrite E. cbn [negb]. apply Hs.
Qed.

Lemma _detect_framework_raises (self : GuessLexer) (code lang : string) :
  forallb compiles_ok (framework_regexes_of self lang) = false ->
  exists p, In p (framework_regexes_of self lang) /\ re_compile p = None /\
            _detect_framework self code lang = raise (ReError p).
Proof.
  intros H. destruct (score_frameworks_err code lang (framework_patterns self) H)
    as (p & Hin & Hp & Hs).
  exists p. split; [exact Hin|]. split; [exact Hp|].
  unfold _detect_framework. rewrite Hs. reflexivity.
Qed.

(** When the language patterns compile, the language stage returns. *)
Lemma language_stage_returns (self : GuessLexer) (code : string) (filename : option string) :
  tables_wf self ->
  forallb compiles_ok (language_regexes self) = true ->
  language_stage self code filename = ret (staged self code filename).
Proof.
  intros (Hnd & _) Hc. unfold language_stage.
  rewrite score_languages_spec; [reflexivity | exact Hc | exact Hnd |].
  intros k _. simpl. tauto.
Qed.

(** A text that is not blank, analysed with language patterns that
    compile: the run uses the framework patterns of the winning language
    and no other framework pattern. *)
Lemma analyze_code_framework_patterns (self : GuessLexer) (code : string)
  (filename : option string) :
  tables_wf self ->
  is_blank code = false ->
  forallb compiles_ok (language_regexes self) = true ->
  (winning_language self code filename = None ->
   analyze_code self code filename = ret (unknown_result "No patterns matched")) /\
  (forall best,
     winning_language self code filename = Some best ->
     forallb compiles_ok (framework_regexes_of self best) = true ->
     analyze_code self code filename = ret (decide self code (staged self code filename)) /\
     language (decide self code (staged self code filename)) = best) /\
  (forall best,
     winning_language self code filename = Some best ->
     forallb compiles_ok (framework_regexes_of self best) = false ->
     exists p, In p (framework_regexes_of self best) /\ re_compile p = None /\
               analyze_code self code filename = raise (ReError p)).
Proof.
  intros Hwf Hb Hc. unfold is_blank in Hb.
  assert (E : analyze_code self code filename
              = match winning_language self code filename with
                | None => ret (unknown_result "No patterns matched")
                | Some best =>
                    bind (_detect_framework self code best)
                      (fun framework_result =>
                         match framework_result with
                         | Some (fw, fc, fev) =>
                             ret {| language := best;
                                    confidence :=
                                      F64.pymin
                                        (F64.add
                                           (F64.pymin
                                              (dict_get_float best
                                                 (fst (staged self code filename)))
                                              F64.one)
                                           (F64.mul fc F64.c0_3)) F64.one;
                                    framework := Some fw;
                                    evidence :=
                                      dict_get_list best (snd (staged self code filename))
                                        ++ fev |}
                         | None =>
                             ret {| language := best;
                                    confidence :=
                                      F64.pymin
                                        (dict_get_float best
                                           (fst (staged self code filename))) F64.one;
                                    framework := None;
                                    evidence :=
                                      dict_get_list best (snd (staged self code filename))
                                        ++ [] |}
                         end)
                end).
  { unfold analyze_code. rewrite Hb, (language_stage_returns self code filename Hwf Hc).
    unfold winning_language. cbn [bind ret].
    destruct (staged self code filename) as [scores evid]. cbn [fst snd].
    destruct (py_max _ _); reflexivity. }
  rewrite E. split; [|split].
  - intros ->. reflexivity.
  - intros best Hw Hf. rewrite Hw, (_detect_framework_returns self code best Hwf Hf).
    unfold decide. unfold winning_language in Hw. rewrite Hw. cbn [bind ret].
    destruct (detect_framework_spec self code best) as [[[fw fc] fev]|];
      split; reflexivity.
  - intros best Hw Hf. rewrite Hw.
    destruct (_detect_framework_raises self code best Hf) as (p & Hin & Hp & Hr).
    exists p. split; [exact Hin|]. split; [exact Hp|]. rewrite Hr. reflexivity.
Qed.

End RegexFailures.

(** C9, amended.  Construction stores the tables as they are and never
    fails, whatever the patterns.  Patterns are compiled when a text is
    analysed, and only those that the run reaches.  A blank text is
    answered before any pattern is looked at.  For a text that is not
    blank, a language pattern or anti-pattern that does not compile makes
    [analyze_code] raise [re.error].  When the language patterns compile,
    the framework patterns that count are those of the frameworks of the
    winning language: if one of them does not compile, [analyze_code]
    raises; if they all compile, or no language scores, it returns, even
    when a framework of another language holds a pattern that does not
    compile. *)
Theorem init_defers_regex_compilation :
  (forall lp fp fe,
     __init__ lp fp fe
     = ret {| language_patterns := lp; framework_patterns := fp; file_extensions := fe |}) /\
  (forall (rt : PyRuntime) (self : GuessLexer) (code : string) (filename : option string),
     is_blank code = false ->
     forallb compiles_ok (language_regexes self) = false ->
     exists p, In p (language_regexes self) /\ re_compile p = None /\
               analyze_code self code filename = raise (ReError p)) /\
  (forall (rt : PyRuntime) (self : GuessLexer) (code : string) (filename : option string),
     is_blank code = true ->
     analyze_code self code filename = ret (unknown_result "Empty code")) /\
  (forall (rt : PyRuntime) (self : GuessLexer) (code : string) (filename : option string),
     tables_wf self ->
     is_blank code = false ->
     forallb compiles_ok (language_regexes self) = true ->
     (winning_language self code filename = None ->
      analyze_code self code filename = ret (unknown_result "No patterns matched")) /\
     (forall best,
        winning_language self code filename = Some best ->
        forallb compiles_ok (framework_regexes_of self best) = true ->
        analyze_code self code filename
        = ret (decide self code (staged self code filename)) /\
        language (decide self code (staged self code filename)) = best) /\
     (forall best,
        winning_language self code filename = Some best ->
        forallb compiles_ok (framework_regexes_of self best) = false ->
        exists p, In p (framework_regexes_of self best) /\ re_compile p = None /\
                  analyze_code self code filename = raise (ReError p))).
Proof.
  split; [reflexivity|]. split; [|split].
  - intros rt self code filename Hb Hc.
    destruct (score_languages_err code (language_patterns self) Hc) as (p & Hin & Hp & Hs).
    exists p. split; [exact Hin|]. split; [exact Hp|].
    unfold analyze_code, language_stage. unfold is_blank in Hb. rewrite Hb, Hs. reflexivity.
  - intros rt self code filename Hb.
    unfold analyze_code. unfold is_blank in Hb. rewrite Hb. reflexivity.
  - intros rt self code filename. apply analyze_code_framework_patterns.
Qed.

Lemma framework_broken_lexer_wf : tables_wf Example.framework_broken_lexer.
Proof.
  destruct the_lexer_wf as (Hnd & _ & Hw & _).
  split; [exact Hnd|]. split; [|split; [exact Hw|]].
  - apply distinct_NoDup. reflexivity.
  - constructor; [apply weight_ok_one | constructor].
Qed.

(** The reference runtime compiles every pattern of the shipped tables. *)
Lemma shipped_tables_compile : @tables_compile Ref.runtime the_lexer = true.
Proof. vm_compute. reflexivity. Qed.

(** * The extension hint and the confidence *)


Section HintClaims.

Context {rt : PyRuntime}.


End HintClaims.

(* ================================================================== *)
(** * The theorems at concrete inputs, under the reference runtime *)
(* ================================================================== *)

Section Witnesses.

Local Open Scope string_scope.

Lemma analyze_code_confidence_in_unit_interval_witness :
  @tables_compile Ref.runtime the_lexer = true /\
  exists r, @analyze_code Ref.runtime the_lexer angular_text (Some "x.go") = ret r /\
            F64.leb F64.zero (confidence r) = true /\
            F64.leb (confidence r) F64.one = true.
Proof.
  split; [vm_compute; reflexivity|].
  apply (@analyze_code_confidence_in_unit_interval Ref.runtime).
  vm_compute; reflexivity.
Defined.

Lemma analyze_code_detected_confidence_positive_witness :
  @tables_compile Ref.runtime the_lexer = true /\
  exists r, @analyze_code Ref.runtime the_lexer angular_text None = ret r /\
            (language r <> "unknown" -> F64.ltb F64.zero (confidence r) = true).
Proof.
  split; [vm_compute; reflexivity|].
  apply (@analyze_code_detected_confidence_positive Ref.runtime).
  vm_compute; reflexivity.
Defined.

Lemma analyze_code_framework_owner_witness :
  @tables_compile Ref.runtime the_lexer = true /\
  exists r, @analyze_code Ref.runtime the_lexer angular_text None = ret r /\
            forall fw, framework r = Some fw ->
            exists rules, dict_get fw (framework_patterns the_lexer) = Some rules /\
                          fw_language rules = language r.
Proof.
  split; [vm_compute; reflexivity|].
  apply (@analyze_code_framework_owner Ref.runtime).
  vm_compute; reflexivity.
Defined.

Lemma analyze_code_unknown_iff_witness :
  (@is_blank Ref.runtime "  " = true /\
   @analyze_code Ref.runtime the_lexer "  " None = ret (unknown_result "Empty code")) /\
  @tables_compile Ref.runtime the_lexer = true /\
  exists r,
    @analyze_code Ref.runtime the_lexer "hello world" None = ret r /\
    r = unknown_result "No patterns matched" /\
    (language r = "unknown" <->
     @is_blank Ref.runtime "hello world" = true \/
     @no_language_scores Ref.runtime the_lexer "hello world").
Proof.
  split.
  { split; [vm_compute; reflexivity|].
    apply (proj1 (@analyze_code_unknown_iff Ref.runtime "  " None) the_lexer).
    vm_compute; reflexivity. }
  split; [vm_compute; reflexivity|].
  destruct (proj2 (@analyze_code_unknown_iff Ref.runtime "hello world" None)
              ltac:(vm_compute; reflexivity)) as (r & Hr & Hiff & _).
  exists r. split; [exact Hr|]. split; [|exact Hiff].
  revert Hr. vm_compute. intros [= <-]. reflexivity.
Defined.

Lemma _score_language_formula_witness :
  forallb (@compiles_ok Ref.runtime) (patterns python_rules ++ anti_patterns python_rules)
  = true /\
  exists ev,
    @_score_language Ref.runtime "def f(x): print(x)" "python" python_rules
    = ret (F64.pymax F64.zero
             (F64.sub
                (F64.mul
                   (F64.add
                      (F64.mul
                         (F64.of_nat
                            (list_sum
                               (map (fun p => @match_count Ref.runtime p "def f(x): print(x)")
                                  (patterns python_rules)))) F64.c0_6)
                      (F64.mul
                         (F64.of_nat
                            (List.length
                               (filter
                                  (fun k =>
                                     str_contains (@str_lower Ref.runtime k)
                                       (@str_lower Ref.runtime "def f(x): print(x)"))
                                  (keywords python_rules)))) F64.c0_4))
                   (weight python_rules))
                (F64.mul
                   (F64.of_nat
                      (list_sum
                         (map (fun p => @match_count Ref.runtime p "def f(x): print(x)")
                            (anti_patterns python_rules)))) F64.c0_3)),
           ev).
Proof.
  split; [vm_compute; reflexivity|].
  apply (@_score_language_formula Ref.runtime "def f(x): print(x)" "python" python_rules).
  vm_compute; reflexivity.
Defined.

Lemma _detect_framework_scoring_witness :
  @tables_compile Ref.runtime the_lexer = true /\
  exists fc fev,
    @_detect_framework Ref.runtime the_lexer angular_text "typescript"
    = ret (Some ("angular", fc, fev)) /\
    fc = F64.pymin
           (F64.div
              (F64.mul (F64.add (F64.mul (F64.of_nat 3) F64.c0_7)
                                (F64.mul (F64.of_nat 1) F64.c0_3)) F64.c1_2)
              F64.c5_0) F64.one.
Proof.
  split; [vm_compute; reflexivity|].
  destruct (@_detect_framework_scoring Ref.runtime angular_text "typescript"
              ltac:(vm_compute; reflexivity)) as (res & Hres & _).
  revert Hres. vm_compute. intros [= <-].
  eexists. eexists. split; reflexivity.
Defined.

Lemma analyze_code_fusion_witness :
  @tables_compile Ref.runtime the_lexer = true /\
  @is_blank Ref.runtime angular_text = false /\
  @language_stage Ref.runtime the_lexer angular_text None
  = ret (@staged Ref.runtime the_lexer angular_text None) /\
  py_max (fun x => dict_get_float x (fst (@staged Ref.runtime the_lexer angular_text None)))
    (dict_keys (fst (@staged Ref.runtime the_lexer angular_text None))) = Some "typescript" /\
  @framework_scores_positively Ref.runtime the_lexer angular_text "typescript" /\
  exists r fc fev,
    @analyze_code Ref.runtime the_lexer angular_text None = ret r /\
    language r = "typescript" /\
    @_detect_framework Ref.runtime the_lexer angular_text "typescript"
    = ret (Some ("angular", fc, fev)) /\
    framework r = Some "angular" /\
    confidence r
    = F64.pymin
        (F64.add
           (F64.pymin
              (dict_get_float "typescript"
                 (fst (@staged Ref.runtime the_lexer angular_text None))) F64.one)
           (F64.mul fc F64.c0_3)) F64.one /\
    evidence r
    = (dict_get_list "typescript" (snd (@staged Ref.runtime the_lexer angular_text None))
       ++ fev)%list.
Proof.
  assert (Hfw : @framework_scores_positively Ref.runtime the_lexer angular_text "typescript").
  { exists "angular". eexists.
    split; [apply dict_get_In; reflexivity|].
    split; vm_compute; reflexivity. }
  split; [vm_compute; reflexivity|].
  split; [vm_compute; reflexivity|].
  split; [vm_compute; reflexivity|].
  split; [vm_compute; reflexivity|].
  split; [exact Hfw|].
  destruct (@analyze_code_fusion Ref.runtime angular_text None
              (fst (@staged Ref.runtime the_lexer angular_text None))
              (snd (@staged Ref.runtime the_lexer angular_text None)) "typescript"
              ltac:(vm_compute; reflexivity) ltac:(vm_compute; reflexivity)
              ltac:(vm_compute; reflexivity) ltac:(vm_compute; reflexivity))
    as (r & Hr & Hl & Hpos & _).
  destruct (Hpos Hfw) as (fw & fc & fev & Hd & Hf & Hcf & Hev).
  assert (Efw : fw = "angular")
    by (revert Hd; vm_compute; intros [= <- _ _]; reflexivity).
  subst fw.
  exists r, fc, fev. repeat split; assumption.
Defined.



Lemma init_defers_regex_compilation_witness :
  (__init__ malformed_table [] []
   = ret {| language_patterns := malformed_table; framework_patterns := [];
            file_extensions := [] |} /\
   @is_blank Ref.runtime "x" = false /\
   exists p, @re_compile Ref.runtime p = None /\
             @analyze_code Ref.runtime
               {| language_patterns := malformed_table; framework_patterns := [];
                  file_extensions := [] |} "x" None = raise (ReError p)) /\
  tables_wf Example.framework_broken_lexer /\
  forallb (@compiles_ok Ref.runtime) (language_regexes Example.framework_broken_lexer)
  = true /\
  (@is_blank Ref.runtime python_text = false /\
   @winning_language Ref.runtime Example.framework_broken_lexer python_text None
   = Some "python" /\
   forallb (@compiles_ok Ref.runtime)
     (framework_regexes_of Example.framework_broken_lexer "python") = true /\
   exists r,
     @analyze_code Ref.runtime Example.framework_broken_lexer python_text None = ret r /\
     language r = "python") /\
  (@is_blank Ref.runtime Example.java_text = false /\
   @winning_language Ref.runtime Example.framework_broken_lexer Example.java_text None
   = Some "java" /\
   forallb (@compiles_ok Ref.runtime)
     (framework_regexes_of Example.framework_broken_lexer "java") = false /\
   exists p,
     @re_compile Ref.runtime p = None /\
     @analyze_code Ref.runtime Example.framework_broken_lexer Example.java_text None
     = raise (ReError p)).
Proof.
  destruct init_defers_regex_compilation as (Hinit & Hraise & _ & Hfw).
  split; [|split; [exact framework_broken_lexer_wf|split; [vm_compute; reflexivity|split]]].
  - split; [apply Hinit|].
    split; [vm_compute; reflexivity|].
    destruct (Hraise Ref.runtime
                {| language_patterns := malformed_table; framework_patterns := [];
                   file_extensions := [] |} "x" None
                ltac:(vm_compute; reflexivity) ltac:(vm_compute; reflexivity))
      as (p & _ & Hp & Hr).
    exists p. split; assumption.
  - split; [vm_compute; reflexivity|].
    split; [vm_compute; reflexivity|].
    split; [vm_compute; reflexivity|].
    destruct (Hfw Ref.runtime Example.framework_broken_lexer python_text None
                framework_broken_lexer_wf
                ltac:(vm_compute; reflexivity) ltac:(vm_compute; reflexivity))
      as (_ & Hret & _).
    destruct (Hret "python" ltac:(vm_compute; reflexivity) ltac:(vm_compute; reflexivity))
      as [Hr Hl].
    eexists. split; [exact Hr | exact Hl].
  - split; [vm_compute; reflexivity|].
    split; [vm_compute; reflexivity|].
    split; [vm_compute; reflexivity|].
    destruct (Hfw Ref.runtime Example.framework_broken_lexer Example.java_text None
                framework_broken_lexer_wf
                ltac:(vm_compute; reflexivity) ltac:(vm_compute; reflexivity))
      as (_ & _ & Hbad).
    destruct (Hbad "java" ltac:(vm_compute; reflexivity) ltac:(vm_compute; reflexivity))
      as (p & _ & Hp & Hr).
    exists p. split; assumption.
Defined.

End Witnesses.

(* ================================================================== *)
(** * Strings: suffixes and splitting *)
(* ================================================================== *)

Section StringFacts.

Local Open Scope string_scope.

Lemma str_length_app (a b : string) :
  String.length (a ++ b) = String.length a + String.length b.
Proof. induction a as [|c a IH]; simpl; [reflexivity|]. rewrite IH. reflexivity. Qed.

Lemma app_empty_r (a : string) : a ++ "" = a.
Proof. induction a as [|c a IH]; simpl; [reflexivity|]. rewrite IH. reflexivity. Qed.

Lemma app_assoc_str (a b c : string) : (a ++ b) ++ c = a ++ (b ++ c).
Proof. induction a as [|x a IH]; simpl; [reflexivity|]. rewrite IH. reflexivity. Qed.

Lemma substring_0_all (s : string) : String.substring 0 (String.length s) s = s.
Proof. induction s as [|c s IH]; simpl; [reflexivity|]. rewrite IH. reflexivity. Qed.

Lemma substring_skip (a b : string) (n : nat) :
  String.substring (String.length a) n (a ++ b) = String.substring 0 n b.
Proof. induction a as [|c a IH]; simpl; [reflexivity|]. exact IH. Qed.

(** Cutting a string in two at an index within it loses nothing. *)
Lemma substring_split (n : nat) (s : string) :
  n <= String.length s ->
  String.substring 0 n s ++ String.substring n (String.length s - n) s = s.
Proof.
  revert s. induction n as [|n IH]; intros s Hn.
  - rewrite Nat.sub_0_r, substring_0_all. destruct s; reflexivity.
  - destruct s as [|c s]; simpl in *; [lia|].
    rewrite IH by lia. reflexivity.
Qed.

Lemma length_substring_0 (n : nat) (s : string) :
  n <= String.length s -> String.length (String.substring 0 n s) = n.
Proof.
  revert s. induction n as [|n IH]; intros s Hn.
  - destruct s; reflexivity.
  - destruct s as [|c s]; simpl in *; [lia|]. rewrite IH by lia. reflexivity.
Qed.

(** [s.endswith(suffix)] holds exactly when [s] is something followed by
    [suffix]. *)
Lemma str_endswith_iff (s suffix : string) :
  str_endswith s suffix = true <-> exists pre, s = pre ++ suffix.
Proof.
  unfold str_endswith. split.
  - intros H. apply andb_true_iff in H as [Hk He].
    apply Nat.leb_le in Hk. apply String.eqb_eq in He.
    exists (String.substring 0 (String.length s - String.length suffix) s).
    pose proof (substring_split (String.length s - String.length suffix) s ltac:(lia)) as Hs.
    replace (String.length s - (String.length s - String.length suffix))
      with (String.length suffix) in Hs by lia.
    rewrite He in Hs. symmetry. exact Hs.
  - intros [pre ->]. rewrite str_length_app. apply andb_true_iff. split.
    + apply Nat.leb_le. lia.
    + replace (String.length pre + String.length suffix - String.length suffix)
        with (String.length pre) by lia.
      rewrite substring_skip, substring_0_all. apply String.eqb_refl.
Qed.

Lemma app_inv_length (a b c d : string) :
  a ++ b = c ++ d -> String.length a = String.length c -> a = c /\ b = d.
Proof.
  revert c. induction a as [|x a IH]; intros [|y c] H Hl; simpl in *; try discriminate.
  - auto.
  - injection H as -> H. destruct (IH c H) as [-> ->]; [lia|]. auto.
Qed.

(** Of two suffixes of the same string, the shorter is a suffix of the
    longer. *)
Lemma str_endswith_both (s a b : string) :
  str_endswith s a = true -> str_endswith s b = true ->
  String.length a <= String.length b -> str_endswith b a = true.
Proof.
  intros Ha Hb Hl.
  apply str_endswith_iff in Ha as [pa Ea]. apply str_endswith_iff in Hb as [pb Eb].
  apply str_endswith_iff.
  assert (Hlen : String.length pa = String.length pb + (String.length b - String.length a)).
  { assert (E : String.length (pa ++ a) = String.length (pb ++ b)) by congruence.
    rewrite !str_length_app in E. lia. }
  exists (String.substring (String.length pb) (String.length b - String.length a) pa).
  assert (Hsplit : pa = String.substring 0 (String.length pb) pa
                        ++ String.substring (String.length pb)
                             (String.length b - String.length a) pa).
  { replace (String.length b - String.length a)
      with (String.length pa - String.length pb) by lia.
    symmetry. apply substring_split. lia. }
  assert (E : (String.substring 0 (String.length pb) pa)
              ++ (String.substring (String.length pb)
                    (String.length b - String.length a) pa ++ a)
              = pb ++ b).
  { rewrite <- app_assoc_str, <- Hsplit. congruence. }
  apply app_inv_length in E as [_ E]; [symmetry; exact E|].
  apply length_substring_0. lia.
Qed.

Lemma rfind_from_bounds (c : ascii) (s : string) (i last : Z) :
  (last < i)%Z ->
  (rfind_from c s i last = last \/
   (i <= rfind_from c s i last < i + Z.of_nat (String.length s))%Z).
Proof.
  revert i last. induction s as [|a s IH]; intros i last Hl; simpl.
  - left. reflexivity.
  - destruct (Ascii.eqb a c).
    + right. destruct (IH (i + 1)%Z i ltac:(lia)) as [-> | H]; lia.
    + destruct (IH (i + 1)%Z last ltac:(lia)) as [-> | H]; [left; reflexivity | right; lia].
Qed.

Lemma rfind_bounds (c : ascii) (s : string) :
  (-1 <= rfind c s < Z.of_nat (String.length s))%Z.
Proof.
  unfold rfind. destruct (rfind_from_bounds c s 0 (-1) ltac:(lia)) as [-> | H]; lia.
Qed.

(** [os.path.splitext] cuts its argument in two: root and extension
    concatenate to the path. *)
Lemma splitext_app (p : string) : fst (splitext p) ++ snd (splitext p) = p.
Proof.
  unfold splitext.
  destruct (rfind "/" p <? rfind "." p)%Z eqn:E; [|apply app_empty_r].
  destruct (other_than "." p _ _); [|apply app_empty_r].
  simpl. apply substring_split.
  pose proof (rfind_bounds "." p). apply Z.ltb_lt in E. pose proof (rfind_bounds "/" p). lia.
Qed.

End StringFacts.

(* ================================================================== *)
(** * The extension hint *)
(* ================================================================== *)

Section ExtensionHint.

Context {rt : PyRuntime}.

Local Open Scope string_scope.

Lemma first_with_ext_Some (ext : string) (table : dict (list string)) (L : string) :
  first_with_ext ext table = Some L ->
  exists exts, In (L, exts) table /\ In ext exts.
Proof.
  induction table as [|[lang extensions] table IH]; simpl; [discriminate|].
  destruct (list_mem ext extensions) eqn:E.
  - intros [= <-]. exists extensions. split; [left; reflexivity|].
    apply list_mem_In. exact E.
  - intros H. destruct (IH H) as (exts & Hin & He). exists exts. auto.
Qed.

Lemma first_with_ext_None (ext : string) (table : dict (list string)) :
  first_with_ext ext table = None <->
  forall L exts, In (L, exts) table -> ~ In ext exts.
Proof.
  induction table as [|[lang extensions] table IH]; simpl.
  - split; [intros _ L exts []|reflexivity].
  - destruct (list_mem ext extensions) eqn:E.
    + split; [discriminate|]. intros H. exfalso.
      apply (H lang extensions); [left; reflexivity|]. apply list_mem_In. exact E.
    + rewrite IH. split.
      * intros H L exts [[= <- <-]|Hin]; [|eauto].
        intros Hc. apply list_mem_In in Hc. congruence.
      * intros H L exts Hin. apply (H L exts). right. exact Hin.
Qed.

Lemma first_with_ext_unique (ext : string) (table : dict (list string)) (L : string)
  (exts : list string) :
  NoDup (dict_keys table) -> extensions_disjoint table = true ->
  dict_get L table = Some exts -> In ext exts ->
  first_with_ext ext table = Some L.
Proof.
  induction table as [|[lang extensions] table IH]; simpl; [discriminate|].
  intros Hnd Hd Hg Hin. inversion Hnd as [|? ? Hnot Hnd']; subst.
  apply andb_true_iff in Hd as [Hd1 Hd2].
  destruct (String.eqb L lang) eqn:E.
  - apply String.eqb_eq in E. subst lang. injection Hg as <-.
    apply list_mem_In in Hin. rewrite Hin. reflexivity.
  - destruct (list_mem ext extensions) eqn:Em.
    + exfalso. apply list_mem_In in Em.
      rewrite forallb_forall in Hd1. specialize (Hd1 ext Em).
      rewrite forallb_forall in Hd1. apply dict_get_In in Hg.
      specialize (Hd1 (L, exts) Hg). simpl in Hd1.
      apply negb_true_iff in Hd1. apply list_mem_In in Hin. congruence.
    + apply IH; assumption.
Qed.

Lemma first_with_ext_iff (ext : string) (table : dict (list string)) (L : string) :
  NoDup (dict_keys table) -> extensions_disjoint table = true ->
  first_with_ext ext table = Some L <->
  exists exts, dict_get L table = Some exts /\ In ext exts.
Proof.
  intros Hnd Hd. split.
  - intros H. destruct (first_with_ext_Some ext _ L H) as (exts & Hin & He).
    exists exts. split; [|exact He]. apply dict_get_NoDup; assumption.
  - intros (exts & Hg & He). apply (first_with_ext_unique ext _ L exts Hnd Hd Hg He).
Qed.

Lemma _get_extension_hint_eq (self : GuessLexer) (filename : string) :
  _get_extension_hint self filename
  = first_with_ext (snd (splitext (str_lower filename))) (file_extensions self).
Proof.
  unfold _get_extension_hint. destruct (splitext (str_lower filename)). reflexivity.
Qed.

(** X1. [_get_extension_hint] only answers with a language whose extension
    list holds an extension that the lower-cased file name ends with. *)
Theorem _get_extension_hint_suffix (self : GuessLexer) (filename L : string) :
  _get_extension_hint self filename = Some L ->
  exists exts ext,
    In (L, exts) (file_extensions self) /\ In ext exts /\
    str_endswith (str_lower filename) ext = true.
Proof.
  rewrite _get_extension_hint_eq.
  intros H. destruct (first_with_ext_Some _ _ L H) as (exts & Hin & He).
  exists exts, (snd (splitext (str_lower filename))).
  split; [exact Hin|]. split; [exact He|].
  apply str_endswith_iff. exists (fst (splitext (str_lower filename))).
  symmetry. apply splitext_app.
Qed.

(** X2. In the shipped extension table no extension is listed twice, so the
    order of the table does not matter: the hint is [L] exactly when the
    extension of the lower-cased file name is one of the extensions of
    [L]. *)
Theorem _get_extension_hint_unambiguous (filename L : string) :
  _get_extension_hint the_lexer filename = Some L <->
  exists exts, dict_get L (file_extensions the_lexer) = Some exts /\
               In (snd (splitext (str_lower filename))) exts.
Proof.
  rewrite _get_extension_hint_eq.
  apply first_with_ext_iff; [apply distinct_NoDup|]; reflexivity.
Qed.

(** X3. Every hint of the shipped engine is one of its supported languages. *)
Theorem _get_extension_hint_supported (filename L : string) :
  _get_extension_hint the_lexer filename = Some L ->
  In L (get_supported_languages the_lexer).
Proof.
  rewrite _get_extension_hint_eq.
  intros H. destruct (first_with_ext_Some _ _ L H) as (exts & Hin & _).
  assert (Hall : forallb (fun k => list_mem k (get_supported_languages the_lexer))
                   (dict_keys (file_extensions the_lexer)) = true) by reflexivity.
  rewrite forallb_forall in Hall. apply list_mem_In, Hall.
  apply (in_map fst) in Hin. exact Hin.
Qed.

Lemma extension_hint_of_unlisted (self : GuessLexer) (filename : string) :
  (forall L exts, In (L, exts) (file_extensions self) ->
                  ~ In (snd (splitext (str_lower filename))) exts) ->
  extension_hint_of self (Some filename) = None.
Proof.
  intros H. unfold extension_hint_of. rewrite _get_extension_hint_eq.
  destruct (str_truthy filename); [|reflexivity].
  apply first_with_ext_None. exact H.
Qed.

(** X4. A file name whose extension is in no list of the extension table has
    no effect at all: the result, evidence included, is that of the call
    without a file name. *)
Theorem analyze_code_unlisted_extension (self : GuessLexer) (code filename : string) :
  (forall L exts, In (L, exts) (file_extensions self) ->
                  ~ In (snd (splitext (str_lower filename))) exts) ->
  analyze_code self code (Some filename) = analyze_code self code None.
Proof.
  intros H. unfold analyze_code, language_stage.
  rewrite (extension_hint_of_unlisted self filename H). reflexivity.
Qed.

Lemma analyze_code_framework_supported (self : GuessLexer) (code : string)
  (filename : option string) (r : DetectionResult) (fw : string) :
  tables_wf self -> tables_compile self = true ->
  analyze_code self code filename = ret r ->
  framework r = Some fw -> In fw (get_supported_frameworks self).
Proof.
  intros Hwf Hc Hr Hfw.
  rewrite (analyze_code_eq self Hwf Hc) in Hr. injection Hr as <-.
  destruct (is_blank code); [discriminate|].
  destruct (decide_framework self Hwf code filename fw Hfw) as (rules & Hg & _).
  apply dict_get_In in Hg. apply (in_map fst) in Hg. exact Hg.
Qed.

(** X5. Whatever the text and the file name, the language that [analyze_code]
    reports is "unknown" or one of [get_supported_languages()], and a
    reported framework is one of [get_supported_frameworks()]. *)
Theorem analyze_code_reports_supported (self : GuessLexer) (code : string)
  (filename : option string) :
  tables_wf self -> tables_compile self = true ->
  exists r, analyze_code self code filename = ret r /\
    (language r = "unknown" \/ In (language r) (get_supported_languages self)) /\
    (forall fw, framework r = Some fw -> In fw (get_supported_frameworks self)).
Proof.
  intros Hwf Hc.
  destruct (analyze_code_total self Hwf Hc code filename) as [r Hr].
  exists r. split; [exact Hr|]. split.
  - destruct (analyze_code_confidence self Hwf Hc code filename r Hr)
      as [[_ Hu] | (_ & _ & Hin)]; [left; exact Hu | right; exact Hin].
  - intros fw. apply (analyze_code_framework_supported self code filename r fw Hwf Hc Hr).
Qed.

End ExtensionHint.

(* ================================================================== *)
(** * Evidence *)
(* ================================================================== *)

Section EvidenceFacts.

Context {rt : PyRuntime}.

Local Open Scope string_scope.

Lemma pattern_evidence_nil (fmt : string -> nat -> string) (ps : list string) (code : string) :
  pattern_evidence fmt ps code = [] -> pattern_matches ps code = 0.
Proof.
  unfold pattern_evidence, pattern_matches. intros H.
  apply map_eq_nil in H. rewrite filter_nil_iff in H.
  induction ps as [|p ps IH]; simpl; [reflexivity|].
  rewrite IH by (intros x Hx; apply H; right; exact Hx).
  specialize (H p (or_introl eq_refl)). apply Nat.ltb_ge in H. lia.
Qed.

Lemma keyword_evidence_nil (fmt : string -> string) (ks : list string) (code : string) :
  keyword_evidence fmt ks code = [] -> keyword_matches ks code = 0.
Proof.
  unfold keyword_evidence, keyword_matches. intros H.
  apply map_eq_nil in H. rewrite H. reflexivity.
Qed.

(** Without a pattern match and without a keyword the language score is
    not positive, whatever the anti-patterns do. *)
Lemma language_score_no_match (a : nat) (w : F64.float) :
  weight_ok w -> F64.ltb F64.zero (language_score 0 0 a w) = false.
Proof.
  intros [_ (m & e & -> & _)]. unfold language_score.
  rewrite of_nat_zero.
  pose proof (mul_nonneg (F64.of_nat a) 5404319552844595 (-54) (of_nat_nonneg a)) as Hq.
  change (S754_finite false 5404319552844595 (-54)) with F64.c0_3 in Hq.
  destruct (F64.mul (F64.of_nat a) F64.c0_3) as [s| s | |s m' e']; simpl in Hq;
    try contradiction.
  - destruct s; reflexivity.
  - subst s. reflexivity.
  - destruct Hq as [-> _]. reflexivity.
Qed.

Lemma evidence_spec_nonempty (code : string) (rules : LanguageRules) :
  weight_ok (weight rules) ->
  F64.ltb F64.zero (score_spec code rules) = true ->
  evidence_spec code rules <> [].
Proof.
  intros Hw Hpos Hnil. unfold evidence_spec in Hnil.
  apply app_eq_nil in Hnil as [Hp Hnil]. apply app_eq_nil in Hnil as [Hk _].
  apply pattern_evidence_nil in Hp. apply keyword_evidence_nil in Hk.
  unfold score_spec in Hpos. rewrite Hp, Hk in Hpos.
  pose proof (language_score_no_match (pattern_matches (anti_patterns rules) code)
                (weight rules) Hw) as H0.
  unfold language_score in H0. congruence.
Qed.

Lemma fw_evidence_spec_nonempty (code : string) (rules : FrameworkRules) :
  weight_ok (fw_weight rules) ->
  F64.ltb F64.zero (fw_score_spec code rules) = true ->
  fw_evidence_spec code rules <> [].
Proof.
  intros Hw Hpos Hnil. unfold fw_evidence_spec in Hnil.
  apply app_eq_nil in Hnil as [Hp Hk].
  apply pattern_evidence_nil in Hp. apply keyword_evidence_nil in Hk.
  pose proof (framework_score_pos 0 0 (fw_weight rules) Hw) as H0.
  unfold fw_score_spec in Hpos. rewrite Hp, Hk in Hpos.
  unfold framework_score in H0. change ((0 <? 0)%nat || (0 <? 0)%nat) with false in H0.
  congruence.
Qed.

Lemma staged_evidence_nonempty (self : GuessLexer) (code : string)
  (filename : option string) (best : string) :
  tables_wf self ->
  py_max (fun x => dict_get_float x (fst (staged self code filename)))
    (dict_keys (fst (staged self code filename))) = Some best ->
  dict_get_list best (snd (staged self code filename)) <> [].
Proof.
  intros Hwf Hmax.
  apply py_max_In in Hmax. rewrite staged_keys in Hmax.
  apply in_map_iff in Hmax as ([k rules] & Ek & Hin). simpl in Ek. subst k.
  unfold candidates in Hin. apply filter_In in Hin as [Hin Hpos]. simpl in Hpos.
  assert (Hget : dict_get best (language_evidence_spec self code)
                 = Some (evidence_spec code rules)).
  { rewrite (language_evidence_get self Hwf).
    rewrite (dict_get_NoDup _ _ _ (proj1 Hwf) Hin), Hpos. reflexivity. }
  assert (Hne : evidence_spec code rules <> []).
  { apply evidence_spec_nonempty; [|exact Hpos].
    destruct Hwf as (_ & _ & HF & _). rewrite Forall_forall in HF.
    apply (HF (best, rules) Hin). }
  unfold staged, apply_extension_hint.
  destruct (extension_hint_of self filename) as [h|]; simpl.
  - destruct (str_truthy h && dict_mem h (language_scores_spec self code)); simpl.
    + unfold dict_get_list at 1. destruct (String.eqb h best) eqn:E.
      * apply String.eqb_eq in E. subst h. rewrite dict_get_set_eq.
        intros H. apply app_eq_nil in H as [_ H]. discriminate.
      * apply String.eqb_neq in E. rewrite (dict_get_set_neq _ _ _ _ E), Hget. exact Hne.
    + unfold dict_get_list. rewrite Hget. exact Hne.
  - unfold dict_get_list. rewrite Hget. exact Hne.
Qed.

Lemma decide_evidence_length (self : GuessLexer) (code : string)
  (filename : option string) :
  tables_wf self ->
  1 <= List.length (evidence (decide self code (staged self code filename))) /\
  (forall fw, framework (decide self code (staged self code filename)) = Some fw ->
              2 <= List.length (evidence (decide self code (staged self code filename)))).
Proof.
  intros Hwf. unfold decide.
  destruct (py_max _ _) as [best|] eqn:Hmax; [|simpl; split; [lia | discriminate]].
  pose proof (staged_evidence_nonempty self code filename best Hwf Hmax) as Hne.
  assert (Hlen : 1 <= List.length (dict_get_list best (snd (staged self code filename)))).
  { destruct (dict_get_list best (snd (staged self code filename)));
      [congruence | simpl; lia]. }
  destruct (detect_framework_spec self code best) as [[[fw fc] fev]|] eqn:D; simpl.
  - destruct (detect_framework_spec_Some self Hwf code best fw fc fev D)
      as (rules & Hg & _ & Hpos & _ & Hfev & _).
    assert (Hf : 1 <= List.length fev).
    { subst fev. apply dict_get_In in Hg.
      destruct Hwf as (_ & _ & _ & HF). rewrite Forall_forall in HF.
      pose proof (fw_evidence_spec_nonempty code rules (HF (fw, rules) Hg) Hpos) as Hn.
      destruct (fw_evidence_spec code rules); [congruence | simpl; lia]. }
    rewrite List.length_app. split; [lia | intros _ _; lia].
  - rewrite List.length_app. split; [lia | discriminate].
Qed.

Lemma analyze_code_evidence_pos (self : GuessLexer) (code : string)
  (filename : option string) (r : DetectionResult) :
  tables_wf self -> tables_compile self = true ->
  analyze_code self code filename = ret r -> 1 <= List.length (evidence r).
Proof.
  intros Hwf Hc Hr. rewrite (analyze_code_eq self Hwf Hc) in Hr. injection Hr as <-.
  destruct (is_blank code); [simpl; lia|].
  apply (decide_evidence_length self code filename Hwf).
Qed.

(** X6. Every result of [analyze_code] carries evidence: "unknown" comes with
    its reason, a detected language with at least one line (a score is
    positive only through a pattern match or a keyword), and a detected
    framework adds at least one more. *)
Theorem analyze_code_evidence_nonempty (self : GuessLexer) (code : string)
  (filename : option string) :
  tables_wf self -> tables_compile self = true ->
  exists r, analyze_code self code filename = ret r /\
    1 <= List.length (evidence r) /\
    (forall fw, framework r = Some fw -> 2 <= List.length (evidence r)).
Proof.
  intros Hwf Hc. rewrite (analyze_code_eq self Hwf Hc).
  eexists. split; [reflexivity|].
  destruct (is_blank code).
  - simpl. split; [lia | discriminate].
  - apply (decide_evidence_length self code filename Hwf).
Qed.

Lemma prefix_app (p x : string) : String.prefix p (p ++ x) = true.
Proof.
  induction p as [|a p IH]; simpl; [destruct x; reflexivity|].
  destruct (ascii_dec a a); [exact IH | congruence].
Qed.

Lemma is_evidence_line_prefix (p x : string) :
  list_mem p evidence_prefixes = true -> is_evidence_line (p ++ x) = true.
Proof.
  intros H. apply list_mem_In in H. unfold is_evidence_line.
  apply orb_true_iff. right. apply existsb_exists. exists p.
  split; [exact H | apply prefix_app].
Qed.

Lemma pattern_evidence_lines (fmt : string -> nat -> string) (ps : list string)
  (code : string) :
  (forall p n, plain_line (fmt p n)) -> Forall plain_line (pattern_evidence fmt ps code).
Proof.
  intros H. unfold pattern_evidence. apply Forall_forall. intros l Hin.
  apply in_map_iff in Hin as (p & <- & _). apply H.
Qed.

Lemma keyword_evidence_lines (fmt : string -> string) (ks : list string) (code : string) :
  (forall k, plain_line (fmt k)) -> Forall plain_line (keyword_evidence fmt ks code).
Proof.
  intros H. unfold keyword_evidence. apply Forall_forall. intros l Hin.
  apply in_map_iff in Hin as (k & <- & _). apply H.
Qed.

Lemma evidence_spec_lines (code : string) (rules : LanguageRules) :
  Forall plain_line (evidence_spec code rules).
Proof.
  unfold evidence_spec. apply Forall_app. split; [|apply Forall_app; split].
  - apply pattern_evidence_lines. intros p n. split.
    + apply (is_evidence_line_prefix "Pattern match: "). reflexivity.
    + reflexivity.
  - apply keyword_evidence_lines. intros k. split.
    + apply (is_evidence_line_prefix "Keyword found: "). reflexivity.
    + reflexivity.
  - apply pattern_evidence_lines. intros p n. split.
    + apply (is_evidence_line_prefix "Anti-pattern found: "). reflexivity.
    + reflexivity.
Qed.

Lemma fw_evidence_spec_lines (code : string) (rules : FrameworkRules) :
  Forall plain_line (fw_evidence_spec code rules).
Proof.
  unfold fw_evidence_spec. apply Forall_app. split.
  - apply pattern_evidence_lines. intros p n. split.
    + apply (is_evidence_line_prefix "Framework pattern: "). reflexivity.
    + reflexivity.
  - apply keyword_evidence_lines. intros k. split.
    + apply (is_evidence_line_prefix "Framework keyword: "). reflexivity.
    + reflexivity.
Qed.

Lemma fmt_hint_line (filename : option string) :
  is_evidence_line (fmt_hint filename) = true /\ is_hint_line (fmt_hint filename) = true.
Proof.
  split.
  - apply (is_evidence_line_prefix "File extension hint: "). reflexivity.
  - apply prefix_app.
Qed.

Lemma language_evidence_lines (self : GuessLexer) (code : string) :
  Forall (fun kv => Forall plain_line (snd kv)) (language_evidence_spec self code).
Proof.
  unfold language_evidence_spec. apply Forall_forall. intros kv Hin.
  apply in_map_iff in Hin as (x & <- & _). apply evidence_spec_lines.
Qed.

Lemma dict_get_list_Forall {A : Type} (P : A -> Prop) (k : string) (d : dict (list A)) :
  Forall (fun kv => Forall P (snd kv)) d -> Forall P (dict_get_list k d).
Proof.
  intros HF. unfold dict_get_list. destruct (dict_get k d) as [l|] eqn:E; [|constructor].
  apply dict_get_In in E. rewrite Forall_forall in HF. apply (HF (k, l) E).
Qed.

Lemma staged_evidence_lines (self : GuessLexer) (code : string) (filename : option string) :
  Forall (fun kv => Forall (fun l => is_evidence_line l = true) (snd kv))
    (snd (staged self code filename)).
Proof.
  assert (H0 : Forall (fun kv => Forall (fun l => is_evidence_line l = true) (snd kv))
                 (language_evidence_spec self code)).
  { eapply Forall_impl; [|apply language_evidence_lines].
    intros kv H. eapply Forall_impl; [|exact H]. intros l [Hl _]. exact Hl. }
  unfold staged, apply_extension_hint.
  destruct (extension_hint_of self filename) as [h|]; [|exact H0].
  destruct (str_truthy h && dict_mem h (language_scores_spec self code)); [|exact H0].
  simpl. apply (Forall_dict_set (fun v => Forall (fun l => is_evidence_line l = true) v)).
  - apply Forall_app. split; [apply dict_get_list_Forall, H0|].
    constructor; [apply fmt_hint_line | constructor].
  - exact H0.
Qed.

(** X7. Every evidence line of a result of [analyze_code] is "Empty code",
    "No patterns matched", or starts with one of the six prefixes that
    the engine writes. *)
Theorem analyze_code_evidence_lines (self : GuessLexer) (code : string)
  (filename : option string) :
  tables_wf self -> tables_compile self = true ->
  exists r, analyze_code self code filename = ret r /\
    Forall (fun l => is_evidence_line l = true) (evidence r).
Proof.
  intros Hwf Hc. rewrite (analyze_code_eq self Hwf Hc).
  eexists. split; [reflexivity|].
  destruct (is_blank code); [repeat constructor|].
  unfold decide. destruct (py_max _ _) as [best|]; [|repeat constructor].
  pose proof (dict_get_list_Forall _ best _ (staged_evidence_lines self code filename))
    as Hl.
  destruct (detect_framework_spec self code best) as [[[fw fc] fev]|] eqn:D; simpl.
  - apply Forall_app. split; [exact Hl|].
    destruct (detect_framework_spec_Some self Hwf code best fw fc fev D)
      as (rules & _ & _ & _ & _ & -> & _).
    eapply Forall_impl; [|apply fw_evidence_spec_lines]. intros l [H _]. exact H.
  - apply Forall_app. split; [exact Hl | constructor].
Qed.





End EvidenceFacts.

(* ================================================================== *)
(** * Files *)
(* ================================================================== *)

Section FileFacts.

Context {rt : PyRuntime} {fs : PyFiles} {tx : PyText}.

Local Open Scope string_scope.

Lemma ltb_zero_not_leb (m : F64.float) :
  F64.ltb F64.zero m = true -> F64.leb m F64.zero = false.
Proof. destruct m as [[|]|[|]| |[|] p e]; simpl; intros H; try discriminate; reflexivity. Qed.

Lemma leb_below_zero (m c : F64.float) :
  F64.leb m F64.zero = true -> c = F64.zero \/ F64.is_pos c -> F64.leb m c = true.
Proof.
  intros Hm [-> | Hc]; [exact Hm|].
  destruct c as [s|s| |s p e]; simpl in Hc; try contradiction.
  - subst s. destruct m as [[|]|[|]| |[|] p e]; simpl in *; try discriminate; reflexivity.
  - destruct Hc as (-> & _). 
    destruct m as [[|]|[|]| |[|] p' e']; simpl in *; try discriminate; reflexivity.
Qed.

(** For a text that is not blank, a language pattern that does not
    compile makes [analyze_code] raise. *)
Lemma analyze_code_raises (self : GuessLexer) (code : string) (filename : option string) :
  is_blank code = false ->
  forallb compiles_ok (language_regexes self) = false ->
  exists p, In p (language_regexes self) /\ re_compile p = None /\
            analyze_code self code filename = raise (ReError p).
Proof.
  intros Hb Hc.
  destruct (score_languages_err code (language_patterns self) Hc) as (p & Hin & Hp & Hs).
  exists p. split; [exact Hin|]. split; [exact Hp|].
  unfold analyze_code, language_stage. unfold is_blank in Hb. rewrite Hb, Hs. reflexivity.
Qed.

Lemma analyze_file_unreadable (self : GuessLexer) (filepath msg : string) :
  read_text filepath = inl msg ->
  analyze_file self filepath = unknown_result ("Error reading file: " ++ msg).
Proof. intros H. unfold analyze_file. rewrite H. reflexivity. Qed.

(** X9. A file that can be read is analysed as its text, with its base name
    as the file name: with tables whose patterns compile, the exception
    branch of [analyze_file] is not taken. *)
Theorem analyze_file_readable (self : GuessLexer) (filepath code : string) :
  tables_wf self -> tables_compile self = true ->
  read_text filepath = inr code ->
  analyze_code self code (Some (basename filepath)) = ret (analyze_file self filepath).
Proof.
  intros Hwf Hc Hr. unfold analyze_file. rewrite Hr.
  destruct (analyze_code_total self Hwf Hc code (Some (basename filepath))) as [r ->].
  reflexivity.
Qed.

Lemma analyze_file_zero_or_pos (self : GuessLexer) (filepath : string) :
  tables_wf self -> tables_compile self = true ->
  let r := analyze_file self filepath in
  (confidence r = F64.zero /\ language r = "unknown") \/
  (F64.is_pos (confidence r) /\ F64.leb (confidence r) F64.one = true /\
   In (language r) (get_supported_languages self)).
Proof.
  intros Hwf Hc. simpl.
  destruct (read_text filepath) as [msg|code] eqn:Hr.
  - rewrite (analyze_file_unreadable self filepath msg Hr). left. split; reflexivity.
  - unfold analyze_file. rewrite Hr.
    destruct (analyze_code_total self Hwf Hc code (Some (basename filepath))) as [r Er].
    rewrite Er. apply (analyze_code_confidence self Hwf Hc code _ r Er).
Qed.

(** X10. [analyze_file] answers for every path, readable or not, with a
    confidence between 0.0 and 1.0 and with "unknown" or a supported
    language. *)
Theorem analyze_file_in_range (self : GuessLexer) (filepath : string) :
  tables_wf self -> tables_compile self = true ->
  F64.leb F64.zero (confidence (analyze_file self filepath)) = true /\
  F64.leb (confidence (analyze_file self filepath)) F64.one = true /\
  (language (analyze_file self filepath) = "unknown" \/
   In (language (analyze_file self filepath)) (get_supported_languages self)).
Proof.
  intros Hwf Hc.
  destruct (analyze_file_zero_or_pos self filepath Hwf Hc) as [[Hz Hu] | (Hp & Hl & Hin)].
  - rewrite Hz. split; [reflexivity|]. split; [reflexivity|]. left. exact Hu.
  - split; [|split; [exact Hl | right; exact Hin]].
    apply leb_zero_nonneg. eapply above_nonneg, Hp.
Qed.

(** X11. The [try] block of [analyze_file] also covers the analysis: when a
    language pattern does not compile, a file that was read without any
    error is reported as "unknown" with an "Error reading file" evidence
    line that carries the text of the [re.error]. *)
Theorem analyze_file_masks_regex_error (self : GuessLexer) (filepath code : string) :
  read_text filepath = inr code ->
  is_blank code = false ->
  forallb compiles_ok (language_regexes self) = false ->
  exists p, In p (language_regexes self) /\ re_compile p = None /\
    analyze_file self filepath
    = unknown_result ("Error reading file: " ++ exn_str (ReError p)).
Proof.
  intros Hr Hb Hc.
  destruct (analyze_code_raises self code (Some (basename filepath)) Hb Hc)
    as (p & Hin & Hp & Hraise).
  exists p. split; [exact Hin|]. split; [exact Hp|].
  unfold analyze_file. rewrite Hr, Hraise. reflexivity.
Qed.

End FileFacts.

(* ================================================================== *)
(** * The [scan] command *)
(* ================================================================== *)

Section ScanFacts.

Context {rt : PyRuntime} {fs : PyFiles} {tx : PyText}.

Local Open Scope string_scope.

(** The loop of [scan] is a filter over the listing. *)
Lemma scan_files_spec (lexer : GuessLexer) (min_conf : F64.float) (extensions : list string)
  (listing : list DirEntry) (found analyzed : nat) (res : list FileInfo) :
  scan_files lexer min_conf extensions listing found analyzed res
  = (found + List.length (filter (accepted extensions) listing),
     analyzed + List.length (filter (reported lexer min_conf extensions) listing),
     (res ++ map (file_info_of lexer)
               (filter (reported lexer min_conf extensions) listing))%list).
Proof.
  revert found analyzed res.
  induction listing as [|e listing IH]; intros found analyzed res.
  - simpl. rewrite !Nat.add_0_r, app_nil_r. reflexivity.
  - assert (Hr : reported lexer min_conf extensions e
                 = accepted extensions e
                   && F64.leb min_conf (confidence (analyze_file lexer (path_str e))))
      by reflexivity.
    assert (Ha : accepted extensions e
                 = is_file e
                   && (negb (list_truthy extensions)
                       || any_endswith (path_str e) extensions)) by reflexivity.
    cbn [scan_files filter]. rewrite Hr, Ha.
    destruct (is_file e); cbn [andb]; [|apply IH].
    destruct (list_truthy extensions); cbn [andb negb orb].
    + destruct (any_endswith (path_str e) extensions); cbn [andb negb]; [|apply IH].
      destruct (F64.leb min_conf (confidence (analyze_file lexer (path_str e)))).
      * rewrite IH. cbn [List.length map]. rewrite <- app_assoc, <- !Nat.add_succ_comm.
        reflexivity.
      * rewrite IH. cbn [List.length]. rewrite <- !Nat.add_succ_comm. reflexivity.
    + destruct (F64.leb min_conf (confidence (analyze_file lexer (path_str e)))).
      * rewrite IH. cbn [List.length map]. rewrite <- app_assoc, <- !Nat.add_succ_comm.
        reflexivity.
      * rewrite IH. cbn [List.length]. rewrite <- !Nat.add_succ_comm. reflexivity.
Qed.

Lemma effective_extensions_truthy (extensions : list string) :
  list_truthy (effective_extensions extensions) = true.
Proof. destruct extensions; reflexivity. Qed.

Lemma accepted_effective (extensions : list string) (e : DirEntry) :
  accepted (effective_extensions extensions) e
  = is_file e && any_endswith (path_str e) (effective_extensions extensions).
Proof. unfold accepted. rewrite effective_extensions_truthy. reflexivity. Qed.

Lemma scan_eq (dir : string) (recursive : bool) (min_conf : F64.float)
  (extensions : list string) :
  scan dir recursive min_conf extensions
  = ret {| directory := dir;
           files_found :=
             List.length (filter (accepted (effective_extensions extensions))
                            (scan_listing dir recursive));
           files_analyzed :=
             List.length (filter (reported the_lexer min_conf
                                    (effective_extensions extensions))
                            (scan_listing dir recursive));
           min_confidence := min_conf;
           results :=
             map (file_info_of the_lexer)
               (filter (reported the_lexer min_conf (effective_extensions extensions))
                  (scan_listing dir recursive)) |}.
Proof.
  unfold scan. rewrite new_GuessLexer_eq. unfold bind, ret.
  rewrite scan_files_spec. reflexivity.
Qed.

(** X12. [scan] (with [--json-output]) lists, in the order of the directory
    listing, exactly the files whose path ends with one of the extensions
    in force and whose analysis reaches the minimum confidence; each
    entry carries the relative path and the language, confidence and
    framework that [analyze_file] reports. *)
Theorem scan_results_characterised (dir : string) (recursive : bool)
  (min_conf : F64.float) (extensions : list string) :
  exists s, scan dir recursive min_conf extensions = ret s /\
    results s
    = map (file_info_of the_lexer)
        (filter (fun e =>
                   is_file e
                   && any_endswith (path_str e) (effective_extensions extensions)
                   && F64.leb min_conf (confidence (analyze_file the_lexer (path_str e))))
           (scan_listing dir recursive)).
Proof.
  rewrite scan_eq. eexists. split; [reflexivity|]. simpl.
  f_equal. apply filter_ext. intros e. unfold reported.
  rewrite accepted_effective. reflexivity.
Qed.

Lemma filter_length_le_filter {A : Type} (f g : A -> bool) (l : list A) :
  (forall x, f x = true -> g x = true) ->
  List.length (filter f l) <= List.length (filter g l).
Proof.
  intros H. induction l as [|a l IH]; simpl; [lia|].
  destruct (f a) eqn:E.
  - rewrite (H a E). simpl. lia.
  - destruct (g a); simpl; lia.
Qed.

(** X13. The counters of the summary: [files_analyzed] is the number of
    results, it never exceeds [files_found], which never exceeds the
    number of files in the listing. *)
Theorem scan_counters (dir : string) (recursive : bool) (min_conf : F64.float)
  (extensions : list string) :
  exists s, scan dir recursive min_conf extensions = ret s /\
    files_analyzed s = List.length (results s) /\
    files_analyzed s <= files_found s /\
    files_found s <= List.length (filter is_file (scan_listing dir recursive)).
Proof.
  rewrite scan_eq. eexists. split; [reflexivity|]. simpl.
  split; [rewrite length_map; reflexivity|]. split.
  - apply filter_length_le_filter. intros e H. unfold reported in H.
    apply andb_true_iff in H. tauto.
  - apply filter_length_le_filter. intros e H. unfold accepted in H.
    apply andb_true_iff in H. tauto.
Qed.

(** X14. With a positive minimum confidence (the default is 0.3) no file that
    the engine could not classify is listed: not a blank file, not a file
    without any match, not a file that could not be read.  Every listed
    language is a supported one. *)
Theorem scan_positive_threshold_excludes_unknown (dir : string) (recursive : bool)
  (min_conf : F64.float) (extensions : list string) :
  tables_compile the_lexer = true ->
  F64.ltb F64.zero min_conf = true ->
  exists s, scan dir recursive min_conf extensions = ret s /\
    Forall (fun fi => file_language fi <> "unknown" /\
                      In (file_language fi) (get_supported_languages the_lexer))
      (results s).
Proof.
  intros Hc Hm. rewrite scan_eq. eexists. split; [reflexivity|]. simpl.
  apply Forall_forall. intros fi Hin.
  apply in_map_iff in Hin as (e & <- & Hin). apply filter_In in Hin as [_ Hrep].
  unfold reported in Hrep. apply andb_true_iff in Hrep as [_ Hleb].
  unfold file_info_of. simpl.
  destruct (analyze_file_zero_or_pos the_lexer (path_str e) the_lexer_wf Hc)
    as [[Hz _] | (_ & _ & Hl)].
  - rewrite Hz in Hleb. rewrite (ltb_zero_not_leb min_conf Hm) in Hleb. discriminate.
  - split; [|exact Hl]. intros Hu. apply unknown_not_a_language.
    rewrite <- Hu. exact Hl.
Qed.

(** X15. With a minimum confidence of zero or less every file that passes the
    extension filter is listed, unreadable and unclassified files
    included (as "unknown" with confidence 0.0). *)
Theorem scan_nonpositive_threshold_lists_all (dir : string) (recursive : bool)
  (min_conf : F64.float) (extensions : list string) :
  tables_compile the_lexer = true ->
  F64.leb min_conf F64.zero = true ->
  exists s, scan dir recursive min_conf extensions = ret s /\
    files_analyzed s = files_found s /\
    results s
    = map (file_info_of the_lexer)
        (filter (fun e => is_file e
                          && any_endswith (path_str e) (effective_extensions extensions))
           (scan_listing dir recursive)).
Proof.
  intros Hc Hm. rewrite scan_eq. eexists. split; [reflexivity|]. simpl.
  assert (E : filter (reported the_lexer min_conf (effective_extensions extensions))
                (scan_listing dir recursive)
              = filter (accepted (effective_extensions extensions))
                  (scan_listing dir recursive)).
  { apply filter_ext. intros e. unfold reported.
    replace (F64.leb min_conf (confidence (analyze_file the_lexer (path_str e))))
      with true; [apply andb_true_r|].
    symmetry. apply leb_below_zero; [exact Hm|].
    destruct (analyze_file_zero_or_pos the_lexer (path_str e) the_lexer_wf Hc)
      as [[Hz _] | (Hp & _)]; [left; exact Hz | right; exact Hp]. }
  rewrite E. split; [reflexivity|].
  f_equal. apply filter_ext. intros e. apply accepted_effective.
Qed.

Lemma any_endswith_unscanned (path ext : string) :
  In ext (unscanned_extensions the_lexer) ->
  str_endswith path ext = true ->
  any_endswith path default_extensions = false.
Proof.
  intros Hin He.
  destruct (any_endswith path default_extensions) eqn:E; [exfalso|reflexivity].
  unfold any_endswith in E. apply existsb_exists in E as (d & Hd & Hde).
  assert (Hall : forallb (fun x =>
                   forallb (fun d => negb (str_endswith x d) && negb (str_endswith d x))
                     default_extensions)
                   (unscanned_extensions the_lexer) = true) by (vm_compute; reflexivity).
  rewrite forallb_forall in Hall. specialize (Hall ext Hin).
  rewrite forallb_forall in Hall. specialize (Hall d Hd).
  apply andb_true_iff in Hall as [H1 H2].
  apply negb_true_iff in H1, H2.
  destruct (Nat.le_ge_cases (String.length d) (String.length ext)) as [Hl|Hl].
  - rewrite (str_endswith_both path d ext Hde He Hl) in H1. discriminate.
  - rewrite (str_endswith_both path ext d He Hde Hl) in H2. discriminate.
Qed.

(** X16. Without [--extensions], [scan] looks at fifteen extensions only.  A
    listing whose files all end with one of the other extensions that
    the engine maps to a language ([.dart], [.cs], [.tsx], [.h], ...)
    gives an empty scan: no file found, none listed. *)
Theorem scan_default_extensions_skip (dir : string) (recursive : bool)
  (min_conf : F64.float) :
  (forall e, In e (scan_listing dir recursive) -> is_file e = true ->
             exists ext, In ext (unscanned_extensions the_lexer) /\
                         str_endswith (path_str e) ext = true) ->
  exists s, scan dir recursive min_conf [] = ret s /\
    files_found s = 0 /\ files_analyzed s = 0 /\ results s = [].
Proof.
  intros H. rewrite scan_eq. eexists. split; [reflexivity|]. simpl.
  assert (Ea : filter (accepted (effective_extensions []))
                 (scan_listing dir recursive) = []).
  { apply filter_nil_iff. intros e Hin. rewrite accepted_effective.
    destruct (is_file e) eqn:Ef; [|reflexivity]. simpl.
    destruct (H e Hin Ef) as (ext & Hext & He).
    apply (any_endswith_unscanned (path_str e) ext Hext He). }
  assert (Er : filter (reported the_lexer min_conf (effective_extensions []))
                 (scan_listing dir recursive) = []).
  { apply filter_nil_iff. intros e Hin. unfold reported.
    rewrite filter_nil_iff in Ea. rewrite (Ea e Hin). reflexivity. }
  rewrite Ea, Er. repeat split.
Qed.

End ScanFacts.

(* ================================================================== *)
(** * Reports *)
(* ================================================================== *)

Section ReportFacts.

Context {rt : PyRuntime} {fs : PyFiles} {tx : PyText}.

Local Open Scope string_scope.

Lemma shipped_framework_names (fw : string) :
  In fw (get_supported_frameworks the_lexer) ->
  str_truthy fw = true /\ fw <> "None".
Proof.
  intros Hin.
  assert (Hall : forallb (fun k => str_truthy k && negb (String.eqb k "None"))
                   (get_supported_frameworks the_lexer) = true) by reflexivity.
  rewrite forallb_forall in Hall. specialize (Hall fw Hin).
  apply andb_true_iff in Hall as [Ht Hn]. split; [exact Ht|].
  apply negb_true_iff, String.eqb_neq in Hn. exact Hn.
Qed.


(** X18. The third printed line tells whether a framework was detected: it is
    "Framework: None" exactly when the result has no framework, because
    no framework of the shipped table has an empty name or the name
    "None". *)
Theorem analyze_code_for_kotlin_framework_line (code : string) (filename : option string) :
  tables_compile the_lexer = true ->
  exists r, analyze_code the_lexer code filename = ret r /\
    (nth_error (printed (analyze_code_for_kotlin code filename)) 2
     = Some "Framework: None" <-> framework r = None) /\
    (forall fw, framework r = Some fw ->
       nth_error (printed (analyze_code_for_kotlin code filename)) 2
       = Some ("Framework: " ++ fw)).
Proof.
  intros Hc.
  destruct (analyze_code_total the_lexer the_lexer_wf Hc code filename) as [r Hr].
  pose proof (fun fw => analyze_code_framework_supported the_lexer code filename r fw
                          the_lexer_wf Hc Hr) as Hfw.
  exists r. split; [exact Hr|].
  unfold analyze_code_for_kotlin. rewrite new_GuessLexer_eq. unfold bind, ret.
  unfold ret in Hr. rewrite Hr. cbn [printed nth_error List.app].
  destruct (framework r) as [fw|] eqn:E.
  - destruct (shipped_framework_names fw (Hfw fw eq_refl)) as [Ht Hn].
    rewrite Ht. split.
    + split; [|discriminate]. intros H. exfalso. apply Hn.
      injection H as H. simpl in H. congruence.
    + intros fw' [= <-]. reflexivity.
  - split; [split; reflexivity | discriminate].
Qed.

(** X19. The display of an analysis result of the shipped engine: the language
    and confidence lines, a framework line exactly when a framework was
    detected, and always an evidence section, which shows the first ten
    evidence lines and no other. *)
Theorem format_result_of_analysis (code : string) (filename : option string) :
  tables_compile the_lexer = true ->
  exists r, analyze_code the_lexer code filename = ret r /\
    format_result r
    = str_join nl
        (List.app
           (List.app
              ["üîç Language: " ++ str_upper (language r);
               "üìä Confidence: " ++ float_percent (confidence r)]
              match framework r with
              | Some fw => ["üöÄ Framework: " ++ str_upper fw]
              | None => []
              end)
           ((nl ++ "üìù Evidence:")
              :: map (fun ev => "  ‚Ä¢ " ++ ev) (firstn 10 (evidence r)))) /\
    1 <= List.length (firstn 10 (evidence r)) <= 10.
Proof.
  intros Hc.
  destruct (analyze_code_total the_lexer the_lexer_wf Hc code filename) as [r Hr].
  pose proof (analyze_code_evidence_pos the_lexer code filename r the_lexer_wf Hc Hr)
    as Hlen.
  pose proof (fun fw => analyze_code_framework_supported the_lexer code filename r fw
                          the_lexer_wf Hc Hr) as Hfw.
  exists r. split; [exact Hr|]. split.
  - unfold format_result.
    assert (Ht : list_truthy (evidence r) = true)
      by (destruct (evidence r); [simpl in Hlen; lia | reflexivity]).
    rewrite Ht.
    destruct (framework r) as [fw|] eqn:E.
    + destruct (shipped_framework_names fw (Hfw fw eq_refl)) as [Hs _].
      rewrite Hs. cbn [List.app]. reflexivity.
    + cbn [List.app]. reflexivity.
  - rewrite length_firstn. lia.
Qed.

End ReportFacts.

(* ================================================================== *)
(** * The theorems on files and reports at concrete inputs *)
(* ================================================================== *)

(** Under the reference runtime, the reference text functions and the
    example tree. *)
Section AroundWitnesses.

Local Open Scope string_scope.

Lemma _get_extension_hint_suffix_witness :
  @_get_extension_hint Ref.runtime the_lexer "Main.PY" = Some "python" /\
  exists exts ext,
    In ("python", exts) (file_extensions the_lexer) /\ In ext exts /\
    str_endswith (@str_lower Ref.runtime "Main.PY") ext = true.
Proof.
  split; [vm_compute; reflexivity|].
  apply (@_get_extension_hint_suffix Ref.runtime the_lexer "Main.PY" "python").
  vm_compute; reflexivity.
Defined.

Lemma _get_extension_hint_supported_witness :
  @_get_extension_hint Ref.runtime the_lexer "lib/widget.DART" = Some "dart" /\
  In "dart" (get_supported_languages the_lexer).
Proof.
  split; [vm_compute; reflexivity|].
  apply (@_get_extension_hint_supported Ref.runtime "lib/widget.DART" "dart").
  vm_compute; reflexivity.
Defined.

Lemma analyze_code_unlisted_extension_witness :
  first_with_ext (snd (splitext (@str_lower Ref.runtime "App.jsx")))
    (file_extensions the_lexer) = None /\
  @analyze_code Ref.runtime the_lexer python_text (Some "App.jsx")
  = @analyze_code Ref.runtime the_lexer python_text None.
Proof.
  split; [vm_compute; reflexivity|].
  apply (@analyze_code_unlisted_extension Ref.runtime the_lexer python_text "App.jsx").
  apply first_with_ext_None. vm_compute; reflexivity.
Defined.

Lemma analyze_code_reports_supported_witness :
  tables_wf the_lexer /\
  @tables_compile Ref.runtime the_lexer = true /\
  exists r, @analyze_code Ref.runtime the_lexer angular_text None = ret r /\
    (language r = "unknown" \/ In (language r) (get_supported_languages the_lexer)) /\
    (forall fw, framework r = Some fw -> In fw (get_supported_frameworks the_lexer)).
Proof.
  split; [exact the_lexer_wf|].
  split; [vm_compute; reflexivity|].
  apply (@analyze_code_reports_supported Ref.runtime the_lexer angular_text None
           the_lexer_wf).
  vm_compute; reflexivity.
Defined.

Lemma analyze_code_evidence_nonempty_witness :
  tables_wf the_lexer /\
  @tables_compile Ref.runtime the_lexer = true /\
  exists r, @analyze_code Ref.runtime the_lexer angular_text (Some "x.ts") = ret r /\
    1 <= List.length (evidence r) /\
    (forall fw, framework r = Some fw -> 2 <= List.length (evidence r)).
Proof.
  split; [exact the_lexer_wf|].
  split; [vm_compute; reflexivity|].
  apply (@analyze_code_evidence_nonempty Ref.runtime the_lexer angular_text (Some "x.ts")
           the_lexer_wf).
  vm_compute; reflexivity.
Defined.

Lemma analyze_file_readable_witness :
  tables_wf the_lexer /\
  @tables_compile Ref.runtime the_lexer = true /\
  @read_text Example.files "proj/app.py" = inr python_text /\
  @analyze_code Ref.runtime the_lexer python_text (Some (basename "proj/app.py"))
  = ret (@analyze_file Ref.runtime Example.files RefText.text the_lexer "proj/app.py").
Proof.
  split; [exact the_lexer_wf|].
  split; [vm_compute; reflexivity|].
  split; [vm_compute; reflexivity|].
  apply (@analyze_file_readable Ref.runtime Example.files RefText.text the_lexer
           "proj/app.py" python_text the_lexer_wf);
    vm_compute; reflexivity.
Defined.

Lemma analyze_file_in_range_witness :
  tables_wf the_lexer /\
  @tables_compile Ref.runtime the_lexer = true /\
  F64.leb F64.zero
    (confidence (@analyze_file Ref.runtime Example.files RefText.text the_lexer
                   "proj/locked.py")) = true /\
  F64.leb
    (confidence (@analyze_file Ref.runtime Example.files RefText.text the_lexer
                   "proj/locked.py")) F64.one = true /\
  (language (@analyze_file Ref.runtime Example.files RefText.text the_lexer
               "proj/locked.py") = "unknown" \/
   In (language (@analyze_file Ref.runtime Example.files RefText.text the_lexer
                   "proj/locked.py")) (get_supported_languages the_lexer)).
Proof.
  split; [exact the_lexer_wf|].
  split; [vm_compute; reflexivity|].
  apply (@analyze_file_in_range Ref.runtime Example.files RefText.text the_lexer
           "proj/locked.py" the_lexer_wf).
  vm_compute; reflexivity.
Defined.

Lemma analyze_file_masks_regex_error_witness :
  @read_text Example.files "proj/app.py" = inr python_text /\
  @is_blank Ref.runtime python_text = false /\
  forallb (@compiles_ok Ref.runtime) (language_regexes Example.broken_lexer) = false /\
  exists p, In p (language_regexes Example.broken_lexer) /\
    @re_compile Ref.runtime p = None /\
    @analyze_file Ref.runtime Example.files RefText.text Example.broken_lexer "proj/app.py"
    = unknown_result ("Error reading file: " ++ @exn_str RefText.text (ReError p)).
Proof.
  split; [vm_compute; reflexivity|].
  split; [vm_compute; reflexivity|].
  split; [vm_compute; reflexivity|].
  apply (@analyze_file_masks_regex_error Ref.runtime Example.files RefText.text
           Example.broken_lexer "proj/app.py" python_text);
    vm_compute; reflexivity.
Defined.

Lemma scan_positive_threshold_excludes_unknown_witness :
  @tables_compile Ref.runtime the_lexer = true /\
  F64.ltb F64.zero F64.c0_3 = true /\
  exists s,
    @scan Ref.runtime Example.files RefText.text "proj" true F64.c0_3 [] = ret s /\
    Forall (fun fi => file_language fi <> "unknown" /\
                      In (file_language fi) (get_supported_languages the_lexer))
      (results s).
Proof.
  split; [vm_compute; reflexivity|].
  split; [vm_compute; reflexivity|].
  apply (@scan_positive_threshold_excludes_unknown Ref.runtime Example.files RefText.text
           "proj" true F64.c0_3 []);
    vm_compute; reflexivity.
Defined.

Lemma scan_nonpositive_threshold_lists_all_witness :
  @tables_compile Ref.runtime the_lexer = true /\
  F64.leb F64.zero F64.zero = true /\
  exists s,
    @scan Ref.runtime Example.files RefText.text "proj" true F64.zero [] = ret s /\
    files_analyzed s = files_found s /\
    results s
    = map (@file_info_of Ref.runtime Example.files RefText.text the_lexer)
        (filter (fun e => is_file e
                          && any_endswith (path_str e) (effective_extensions []))
           (@scan_listing Example.files "proj" true)).
Proof.
  split; [vm_compute; reflexivity|].
  split; [vm_compute; reflexivity|].
  apply (@scan_nonpositive_threshold_lists_all Ref.runtime Example.files RefText.text
           "proj" true F64.zero []);
    vm_compute; reflexivity.
Defined.

Lemma scan_default_extensions_skip_witness :
  Forall (fun e => is_file e = true ->
                   existsb (fun ext => str_endswith (path_str e) ext)
                     (unscanned_extensions the_lexer) = true)
    (@scan_listing Example.files "mobile" false) /\
  exists s,
    @scan Ref.runtime Example.files RefText.text "mobile" false F64.zero [] = ret s /\
    files_found s = 0 /\ files_analyzed s = 0 /\ results s = [].
Proof.
  assert (H : Forall (fun e => is_file e = true ->
                        existsb (fun ext => str_endswith (path_str e) ext)
                          (unscanned_extensions the_lexer) = true)
                (@scan_listing Example.files "mobile" false)).
  { repeat constructor; vm_compute; intros; congruence. }
  split; [exact H|].
  apply (@scan_default_extensions_skip Ref.runtime Example.files RefText.text
           "mobile" false F64.zero).
  intros e Hin Hf. rewrite Forall_forall in H.
  destruct (proj1 (existsb_exists _ _) (H e Hin Hf)) as (ext & Hext & He).
  exists ext. split; assumption.
Defined.


Lemma analyze_code_for_kotlin_framework_line_witness :
  @tables_compile Ref.runtime the_lexer = true /\
  exists r, @analyze_code Ref.runtime the_lexer angular_text None = ret r /\
    (nth_error (printed (@analyze_code_for_kotlin Ref.runtime RefText.text angular_text
                           None)) 2
     = Some "Framework: None" <-> framework r = None) /\
    (forall fw, framework r = Some fw ->
       nth_error (printed (@analyze_code_for_kotlin Ref.runtime RefText.text angular_text
                             None)) 2
       = Some ("Framework: " ++ fw)).
Proof.
  split; [vm_compute; reflexivity|].
  apply (@analyze_code_for_kotlin_framework_line Ref.runtime RefText.text angular_text
           None).
  vm_compute; reflexivity.
Defined.

Lemma format_result_of_analysis_witness :
  @tables_compile Ref.runtime the_lexer = true /\
  exists r, @analyze_code Ref.runtime the_lexer angular_text None = ret r /\
    1 <= List.length (firstn 10 (evidence r)) <= 10.
Proof.
  split; [vm_compute; reflexivity|].
  destruct (@format_result_of_analysis Ref.runtime RefText.text angular_text None
              ltac:(vm_compute; reflexivity)) as (r & Hr & _ & Hlen).
  exists r. split; assumption.
Defined.

Lemma analyze_code_evidence_lines_witness :
  tables_wf the_lexer /\
  @tables_compile Ref.runtime the_lexer = true /\
  exists r, @analyze_code Ref.runtime the_lexer angular_text (Some "x.ts") = ret r /\
    Forall (fun l => is_evidence_line l = true) (evidence r).
Proof.
  split; [exact the_lexer_wf|].
  split; [vm_compute; reflexivity|].
  apply (@analyze_code_evidence_lines Ref.runtime the_lexer angular_text (Some "x.ts")
           the_lexer_wf).
  vm_compute; reflexivity.
Defined.


End AroundWitnesses.
